(** * OpusFilter: the step-execution engine of [opusfilter/opusfilter.py]

    A shallow embedding of class [OpusFilter] and of the Python primitives
    it relies on, followed by the properties of the engine.

    Conventions of the embedding.
    - A Python [str] is a [string]; every character is a code point below
      256, and comparison of strings is comparison of code points.
    - The file system is a finite map from path names to file contents,
      together with a journal of the mutating operations performed on it.
      Directories are not represented, and a path names a file as it is
      written.  A file that a step reads is read as it is at the moment
      the step starts to read it; a write goes to the end of the file.
    - A configuration is a tree of values for the engine; the object
      store of module [Store] is used where [score_data] updates a
      configuration in place.
    - [logger] and [tqdm] calls only observe; they are left out.
    - A handler is a computation over the state that either returns or
      raises; effects performed before an exception stay. *)

From Stdlib Require Import ZArith Lia Ascii String List Permutation Sorted DecimalString.
From stdpp Require Import base option list strings gmap fin_maps sorting.

Set Warnings "-register-all,-clear-no-such-hyp".
Open Scope string_scope.
Open Scope list_scope.

(** ** Python strings *)

Module Py.

(** [a < b] on [str]: lexicographic on code points. *)
Definition str_lt (a b : string) : bool := String.ltb a b.

Definition newline : ascii := "010"%char.
Definition carriage_return : ascii := "013"%char.

Definition is_newline (c : ascii) : bool := Ascii.eqb c newline.

(** The one-character string ['\n']. *)
Definition nl : string := String newline EmptyString.

(** [str.isspace] for one character, restricted to code points below 256:
    TAB, LF, VT, FF, CR, FS, GS, RS, US, SPACE, NEL and NBSP. *)
Definition isspace (c : ascii) : bool :=
  let n := N_of_ascii c in
  ((9 <=? n) && (n <=? 13) || (28 <=? n) && (n <=? 32)
   || (n =? 133) || (n =? 160))%N.

(** [s.rstrip()] *)
Fixpoint rstrip (s : string) : string :=
  match s with
  | EmptyString => EmptyString
  | String c s' =>
      match rstrip s' with
      | EmptyString => if isspace c then EmptyString else String c EmptyString
      | r => String c r
      end
  end.

(** [s.lstrip()] and [s.strip()] *)
Fixpoint lstrip (s : string) : string :=
  match s with
  | EmptyString => EmptyString
  | String c s' => if isspace c then lstrip s' else s
  end.

Definition strip (s : string) : string := rstrip (lstrip s).

(** Text-mode reading translates the line endings CR LF and CR to LF. *)
Fixpoint universal_newlines (s : string) : string :=
  match s with
  | EmptyString => EmptyString
  | String c s' =>
      if Ascii.eqb c carriage_return then
        match s' with
        | String c' s'' =>
            if Ascii.eqb c' newline
            then String newline (universal_newlines s'')
            else String newline (universal_newlines s')
        | EmptyString => String newline EmptyString
        end
      else String c (universal_newlines s')
  end.

(** The lines a text file object yields when iterated: each line keeps its
    terminating LF; the last one may lack it. *)
Fixpoint readlines (s : string) : list string :=
  match s with
  | EmptyString => []
  | String c s' =>
      if is_newline c then String c EmptyString :: readlines s'
      else match readlines s' with
           | [] => [String c EmptyString]
           | l :: ls => String c l :: ls
           end
  end.

(** Line boundaries of [str.splitlines], for code points below 256. *)
Definition is_linebreak (c : ascii) : bool :=
  let n := N_of_ascii c in
  ((10 <=? n) && (n <=? 13) || (28 <=? n) && (n <=? 30) || (n =? 133))%N.

(** [s.splitlines()]: the lines without their terminators; CR LF counts as
    one boundary. *)
Fixpoint splitlines (s : string) : list string :=
  match s with
  | EmptyString => []
  | String c s' =>
      if is_linebreak c then
        match s' with
        | String c' s'' =>
            if Ascii.eqb c carriage_return && Ascii.eqb c' newline
            then EmptyString :: splitlines s''
            else EmptyString :: splitlines s'
        | EmptyString => [EmptyString]
        end
      else match splitlines s' with
           | [] => [String c EmptyString]
           | l :: ls => String c l :: ls
           end
  end.

(** [''.join(ls)] *)
Fixpoint concat (ls : list string) : string :=
  match ls with
  | [] => EmptyString
  | l :: ls' => l +:+ concat ls'
  end.

(** [b.startswith('/')] and [a.endswith('/')] *)
Definition startswith_sep (b : string) : bool :=
  match b with
  | String c _ => Ascii.eqb c "/"%char
  | EmptyString => false
  end.

Fixpoint endswith_sep (a : string) : bool :=
  match a with
  | EmptyString => false
  | String c EmptyString => Ascii.eqb c "/"%char
  | String _ a' => endswith_sep a'
  end.

(** [os.path.join(a, b)] of [posixpath]. *)
Definition path_join (a b : string) : string :=
  if startswith_sep b then b
  else if String.eqb a EmptyString || endswith_sep a then a +:+ b
  else a +:+ "/" +:+ b.

(** ** Sorting

    [sorted(l, key=key)] is stable; [sorted(l, key=key, reverse=True)]
    reverses the list, sorts it stably and reverses the result, so that
    elements with equal keys keep their original order. *)
Section Sorted.
Context {A K : Type} (lt : K -> K -> bool) (key : A -> K).

Fixpoint insert_sorted (x : A) (l : list A) : list A :=
  match l with
  | [] => [x]
  | y :: l' =>
      if lt (key y) (key x) then y :: insert_sorted x l' else x :: y :: l'
  end.

Definition stable_sort (l : list A) : list A := foldr insert_sorted [] l.

Definition sorted (reverse : bool) (l : list A) : list A :=
  if reverse then rev (stable_sort (rev l)) else stable_sort l.
End Sorted.

(** [zip(a, b, c)] stops at the shortest argument. *)
Fixpoint zip3 {A B C} (a : list A) (b : list B) (c : list C) : list (A * B * C) :=
  match a, b, c with
  | x :: a', y :: b', z :: c' => (x, y, z) :: zip3 a' b' c'
  | _, _, _ => []
  end.

(** [l.pop()] removes and returns the last item. *)
Definition pop {A} (l : list A) : option (A * list A) :=
  match rev l with
  | [] => None
  | x :: r => Some (x, rev r)
  end.

End Py.

(** ** Configuration values

    The objects a YAML or JSON configuration is made of.  A [dict] keeps
    its keys in insertion order; keys are strings. *)

Inductive value : Type :=
| VNone
| VBool (b : bool)
| VInt (z : Z)
| VStr (s : string)
| VList (l : list value)
| VDict (d : list (string * value)).

Inductive exn : Type :=
| KeyError (k : value)
| IndexError
| TypeError
| AttributeError
| ValueError
| StopIteration
| FileNotFoundError (path : string)
| RecursionError
| SystemError
| CollaboratorError (what : string).

Inductive result (A : Type) : Type :=
| Ok (a : A)
| Err (e : exn).
Arguments Ok {A} a.
Arguments Err {A} e.

Definition rbind {A B} (r : result A) (k : A -> result B) : result B :=
  match r with
  | Ok a => k a
  | Err e => Err e
  end.

Fixpoint assoc {V} (k : string) (d : list (string * V)) : option V :=
  match d with
  | [] => None
  | (k', v) :: d' => if String.eqb k k' then Some v else assoc k d'
  end.

(** [d[k] = v] on a [dict]: replaces in place or appends. *)
Fixpoint assoc_set {V} (k : string) (v : V) (d : list (string * V)) : list (string * V) :=
  match d with
  | [] => [(k, v)]
  | (k', v') :: d' =>
      if String.eqb k k' then (k, v) :: d' else (k', v') :: assoc_set k v d'
  end.

(** [bool(v)] *)
Definition truthy (v : value) : bool :=
  match v with
  | VNone => false
  | VBool b => b
  | VInt z => negb (Z.eqb z 0)
  | VStr s => negb (String.eqb s EmptyString)
  | VList l => match l with [] => false | _ => true end
  | VDict d => match d with [] => false | _ => true end
  end.

(** [v[k]] for a string [k]. *)
Definition getitem (v : value) (k : string) : result value :=
  match v with
  | VDict d => match assoc k d with Some x => Ok x | None => Err (KeyError (VStr k)) end
  | _ => Err TypeError
  end.

(** [v.get(k, dflt)] *)
Definition dict_get (v : value) (k : string) (dflt : value) : result value :=
  match v with
  | VDict d => Ok (default dflt (assoc k d))
  | _ => Err AttributeError
  end.

(** An operand that has to be a [str]. *)
Definition as_str (v : value) : result string :=
  match v with
  | VStr s => Ok s
  | _ => Err TypeError
  end.

(** An operand that has to be an [int]; [bool] is a subclass of [int]. *)
Definition as_int (v : value) : result Z :=
  match v with
  | VInt z => Ok z
  | VBool b => Ok (if b then 1 else 0)%Z
  | _ => Err TypeError
  end.

(** ** Rendering values as text

    [str(v)] and [repr(v)], as [str.format] uses them.  [repr] of a
    string puts it between single quotes, or between double quotes when
    it holds a single quote and no double one, and escapes the quote in
    use, the backslash and what is not printable. *)

Definition quote : ascii := ascii_of_nat 39.
Definition double_quote : ascii := ascii_of_nat 34.
Definition backslash : ascii := ascii_of_nat 92.
Definition tab : ascii := ascii_of_nat 9.

Definition hex_digit (n : N) : ascii :=
  match String.get (N.to_nat n) "0123456789abcdef" with
  | Some c => c
  | None => "0"%char
  end.

(** [c.isprintable()] for a code point below 256. *)
Definition isprintable (c : ascii) : bool :=
  let n := N_of_ascii c in
  ((32 <=? n) && (n <=? 126) || (161 <=? n) && negb (n =? 173))%N.

Fixpoint has_char (c : ascii) (s : string) : bool :=
  match s with
  | EmptyString => false
  | String c' s' => Ascii.eqb c c' || has_char c s'
  end.

Fixpoint escape (q : ascii) (s : string) : string :=
  match s with
  | EmptyString => EmptyString
  | String c s' =>
      (if Ascii.eqb c q || Ascii.eqb c backslash then String backslash (String c EmptyString)
       else if Ascii.eqb c Py.newline then String backslash "n"
       else if Ascii.eqb c Py.carriage_return then String backslash "r"
       else if Ascii.eqb c tab then String backslash "t"
       else if isprintable c then String c EmptyString
       else String backslash
              (String "x"%char
                 (String (hex_digit (N_of_ascii c / 16))
                    (String (hex_digit (N_of_ascii c mod 16)) EmptyString))))
      +:+ escape q s'
  end.

Definition repr_str (s : string) : string :=
  let q := if has_char quote s && negb (has_char double_quote s)
           then double_quote else quote in
  String q (escape q s +:+ String q EmptyString).

(** [str(z)] for an [int] *)
Definition digits (z : Z) : string := NilZero.string_of_int (Z.to_int z).

Fixpoint repr (v : value) : string :=
  match v with
  | VNone => "None"
  | VBool b => if b then "True" else "False"
  | VInt z => digits z
  | VStr s => repr_str s
  | VList l => "[" +:+ String.concat ", " (map repr l) +:+ "]"
  | VDict d =>
      "{" +:+ String.concat ", "
                (map (fun kv => let '(k, x) := kv in repr_str k +:+ ": " +:+ repr x) d)
      +:+ "}"
  end.

(** [str(v)], which is what a replacement field of [str.format] puts
    in for [v]. *)
Definition py_str (v : value) : string :=
  match v with
  | VStr s => s
  | _ => repr v
  end.

Definition chars (s : string) : list value :=
  map (fun c => VStr (String c EmptyString)) (list_ascii_of_string s).

(** The items [for x in v] runs through. *)
Definition py_iter (v : value) : result (list value) :=
  match v with
  | VList l => Ok l
  | VDict d => Ok (map (fun kv => VStr (fst kv)) d)
  | VStr s => Ok (chars s)
  | _ => Err TypeError
  end.

(** [l[i]] on a list, with Python's negative indices. *)
Definition list_index {A} (l : list A) (i : Z) : option A :=
  let n := Z.of_nat (length l) in
  let j := if (i <? 0)%Z then (i + n)%Z else i in
  if (j <? 0)%Z then None else l !! Z.to_nat j.

(** [v[i]] for an integer [i]. *)
Definition subscript (v : value) (i : Z) : result value :=
  match v with
  | VList l => match list_index l i with Some x => Ok x | None => Err IndexError end
  | VStr s => match list_index (chars s) i with Some x => Ok x | None => Err IndexError end
  | VDict _ => Err (KeyError (VInt i))
  | _ => Err TypeError
  end.

(** [k in v] for a string [k]. *)
Definition contains (k : string) (v : value) : result bool :=
  match v with
  | VDict d => Ok (bool_decide (is_Some (assoc k d)))
  | VList l =>
      Ok (existsb (fun x => match x with VStr s => String.eqb s k | _ => false end) l)
  | VStr s => Ok (bool_decide (is_Some (String.index 0 k s)))
  | _ => Err TypeError
  end.

(** ** The file system *)

Inductive fs_op : Type :=
| Truncate (path : string)
| Append (path : string) (data : string).

Record FS : Type := mkFS {
  files : gmap string string;
  journal : list fs_op
}.

(** What a collaborator may do: act on the file system and return or raise. *)
Definition Action (A : Type) : Type := FS -> FS * result A.

(** [os.path.isfile] *)
Definition isfile (f : FS) (path : string) : bool :=
  bool_decide (is_Some (files f !! path)).

(** Opening for writing creates the file or empties it. *)
Definition fs_open_w (path : string) (f : FS) : FS :=
  mkFS (<[path := EmptyString]> (files f)) (journal f ++ [Truncate path]).

Definition fs_write (path data : string) (f : FS) : FS :=
  mkFS (<[path := default EmptyString (files f !! path) +:+ data]> (files f))
       (journal f ++ [Append path data]).

(** The text a reader of [path] sees. *)
Definition fs_text (f : FS) (path : string) : string :=
  Py.universal_newlines (default EmptyString (files f !! path)).

Definition fs_lines (f : FS) (path : string) : list string :=
  Py.readlines (fs_text f path).

(** ** Collaborators

    Python's global random generator and the modules the engine calls
    but does not define. *)

(** The values [random.seed] takes: [None], an [int] (a [bool] is one)
    and a [str]. *)
Definition seedable (a : value) : bool :=
  match a with
  | VList _ | VDict _ => false
  | _ => true
  end.

Record Random : Type := mkRandom {
  Rng : Type;
  (** the state [random.seed(a)] installs *)
  random_seed : value -> Rng -> Rng;
  (** [k] indices drawn from [range(n)], for [0 <= k <= n] *)
  random_draw : nat -> nat -> Rng -> list nat * Rng;
  (** the order [random.shuffle] leaves a list in *)
  random_shuffle : list string -> Rng -> list string * Rng
}.

(** What the [random] module promises. *)
Record RandomSpec (R : Random) : Prop := mkRandomSpec {
  draw_length : forall n k g, k <= n -> length (fst (random_draw R n k g)) = k;
  draw_NoDup : forall n k g, k <= n -> NoDup (fst (random_draw R n k g));
  draw_bound : forall n k g, k <= n -> Forall (fun i => i < n) (fst (random_draw R n k g));
  shuffle_Permutation : forall l g, Permutation l (fst (random_shuffle R l g))
}.

Record Collaborators : Type := mkCollaborators {
  Pipeline : Type;
  Classifier : Type;
  Model : Type;
  (** [OpusRead(...).printPairs()] *)
  opus_read : value -> value -> value -> value -> value ->
              string -> string -> string -> Action unit;
  (** [pipeline.FilterPipeline.from_config] and the three views *)
  from_config : value -> Action Pipeline;
  pipe_filter : Pipeline -> list (value * value) -> list (value * value);
  pipe_filterfalse : Pipeline -> list (value * value) -> list (value * value);
  (** each score record as [json.dumps(score, sort_keys=True)] renders it *)
  pipe_score : Pipeline -> list (value * value) -> list string;
  (** [lm.LMTokenizer(...).tokenize] and [lm.train] *)
  lm_tokenizer : value -> result (string -> list string);
  lm_train : string -> string -> value -> Action unit;
  (** [tokenization.get_tokenize] for a configured tokenizer *)
  tokenizer_of : value -> result (string -> value);
  (** [word_alignment.make_priors]; the pair generator reads the files
      when the trainer first asks for a pair *)
  make_priors : (FS -> result (list (value * value))) -> string -> value -> Action unit;
  (** [classifier.FilterClassifier] *)
  new_classifier : value -> Action Classifier;
  find_best_model : Classifier -> value -> Action Model;
  assign_probabilities : Classifier -> Model -> Action unit
}.

Notation "'let?' x ':=' r 'in' k" := (rbind r (fun x => k))
  (at level 10, x name, r at level 100, k at level 200).

Fixpoint map_result {A B} (f : A -> result B) (l : list A) : result (list B) :=
  match l with
  | [] => Ok []
  | x :: l' =>
      let? y := f x in
      let? ys := map_result f l' in
      Ok (y :: ys)
  end.

(** [os.path.join(out, v)] *)
Definition join_item (out : string) (v : value) : result value :=
  let? s := as_str v in Ok (VStr (Py.path_join out s)).

(** [d[k] = v] *)
Definition setitem (d : value) (k : string) (v : value) : result value :=
  match d with
  | VDict l => Ok (VDict (assoc_set k v l))
  | _ => Err TypeError
  end.

(** ** The path rewriting of [score_data], on a configuration tree

    [filter_params] is a deep copy of [parameters['filters']].  The engine
    takes a configuration as a tree, in which every dict and list is an
    object of its own; there the in-place updates of the copy amount to
    building the updated tree.  A configuration in which one object is
    reached along two paths is not a tree: the copy keeps the sharing,
    and an object that is updated is updated for every path to it.  For
    those configurations the rewriting is [Store.score_data_filter_params]
    below, on the object store; the two agree where nothing is
    rewritten. *)

(** [interpolate[idx][0] = os.path.join(out, interpolate[idx][0])] *)
Definition rewrite_interpolate_item (out : string) (e : value) : result value :=
  let? x := subscript e 0 in
  let? x' := join_item out x in
  match e with
  | VList (_ :: l) => Ok (VList (x' :: l))
  | _ => Err TypeError
  end.

Definition rewrite_interpolate (out : string) (interp : value) : result value :=
  match interp with
  | VList l => let? l' := map_result (rewrite_interpolate_item out) l in Ok (VList l')
  | VDict _ => Err (KeyError (VInt 0))
  | _ => Err TypeError
  end.

Definition rewrite_lm_params (out : string) (lm_params : value) : result value :=
  let? fn := getitem lm_params "filename" in
  let? fn' := join_item out fn in
  let? p1 := setitem lm_params "filename" fn' in
  let? i := dict_get p1 "interpolate" VNone in
  if truthy i then
    let? i' := rewrite_interpolate out i in
    setitem p1 "interpolate" i'
  else Ok p1.

Definition rewrite_filter (out : string) (f : value) : result value :=
  match f with
  | VDict [] => Err StopIteration
  | VDict ((filter_name, _) :: _) =>
      let? f1 :=
        if String.eqb filter_name "WordAlignFilter" then
          let? inner := getitem f filter_name in
          let? has := contains "priors" inner in
          if has then
            let? p := getitem inner "priors" in
            let? p' := join_item out p in
            let? inner' := setitem inner "priors" p' in
            setitem f filter_name inner'
          else Ok f
        else Ok f in
      if String.eqb filter_name "CrossEntropyFilter" then
        let? inner := getitem f1 filter_name in
        let? sp := getitem inner "src_lm_params" in
        let? sp' := rewrite_lm_params out sp in
        let? inner1 := setitem inner "src_lm_params" sp' in
        let? tp := getitem inner1 "tgt_lm_params" in
        let? tp' := rewrite_lm_params out tp in
        let? inner2 := setitem inner1 "tgt_lm_params" tp' in
        setitem f1 filter_name inner2
      else Ok f1
  | _ => Err AttributeError
  end.

Definition rewrite_filters (out : string) (filters : value) : result value :=
  match filters with
  | VList l => let? l' := map_result (rewrite_filter out) l in Ok (VList l')
  | VDict [] => Ok filters
  | VStr EmptyString => Ok filters
  | VDict _ => Err AttributeError
  | VStr _ => Err AttributeError
  | _ => Err TypeError
  end.

(** ** Subset extraction *)

(** The loop of [_yield_subset]: [cur] is the index waited for and
    [remaining] the stack of the later ones. *)
Fixpoint yield_loop {A} (items : list A) (idx cur : nat) (remaining : list nat) : list A :=
  match items with
  | [] => []
  | item :: rest =>
      if Nat.eqb idx cur then
        item :: match Py.pop remaining with
                | Some (cur', remaining') => yield_loop rest (S idx) cur' remaining'
                | None => []
                end
      else yield_loop rest (S idx) cur remaining
  end.

Definition _yield_subset {A} (iterable : list A) (indices : list nat) : list A :=
  match indices with
  | [] => []
  | _ =>
      let remaining := Py.sorted Nat.ltb (fun i => i) true indices in
      match Py.pop remaining with
      | Some (cur, remaining') => yield_loop iterable 0 cur remaining'
      | None => []
      end
  end.

(** The counting loop of [_get_total_lines]. *)
Definition count_lines {A} (fobj : list A) : Z :=
  let total := fold_left (fun _ p => Z.of_nat (fst p)) (imap pair fobj) (-1)%Z in
  (total + 1)%Z.

(** [target_file.readline()] next to each source line: the empty string
    once the target is exhausted. *)
Fixpoint readline_zip (src tgt : list string) : list (string * string) :=
  match src with
  | [] => []
  | s :: src' =>
      match tgt with
      | [] => (s, EmptyString) :: readline_zip src' []
      | t :: tgt' => (s, t) :: readline_zip src' tgt'
      end
  end.

Record OpusFilter : Type := mkOpusFilter {
  configuration : value;
  output_dir : string
}.

(** ** The engine *)

Section Engine.
Variable R : Random.
Variable X : Collaborators.

Record State : Type := mkState {
  fs : FS;
  rng : Rng R
}.

(** Computations: state passing with exceptions; the state reached when
    an exception is raised is kept. *)
Definition M (A : Type) : Type := State -> State * result A.

Definition ret {A} (a : A) : M A := fun st => (st, Ok a).
Definition raise {A} (e : exn) : M A := fun st => (st, Err e).
Definition bind {A B} (m : M A) (k : A -> M B) : M B :=
  fun st =>
    match m st with
    | (st', Ok a) => k a st'
    | (st', Err e) => (st', Err e)
    end.
Definition lift {A} (r : result A) : M A := fun st => (st, r).
Definition act {A} (a : Action A) : M A :=
  fun st => let (f, r) := a (fs st) in (mkState f (rng st), r).
Definition get_fs : M FS := fun st => (st, Ok (fs st)).
Definition modify_fs (g : FS -> FS) : M unit :=
  fun st => (mkState (g (fs st)) (rng st), Ok tt).

Notation "x <- m ;; k" := (bind m (fun x => k))
  (at level 100, m at next level, right associativity).
Notation "m ;; k" := (bind m (fun _ => k))
  (at level 100, right associativity).

(** [file_open(path)] and [open(path)]: the file has to exist. *)
Definition file_open (path : string) : M unit :=
  f <- get_fs ;;
  if isfile f path then ret tt else raise (FileNotFoundError path).

(** [file_open(path, 'w')] and [open(path, 'w')] *)
Definition file_open_w (path : string) : M unit := modify_fs (fs_open_w path).

Definition write (path data : string) : M unit := modify_fs (fs_write path data).

(** [for line in lines: outf.write(line)] *)
Fixpoint write_lines (path : string) (lines : list string) : M unit :=
  match lines with
  | [] => ret tt
  | line :: rest => write path line ;; write_lines path rest
  end.

(** The lines of an open file, as a reader meets them. *)
Definition lines_of (path : string) : M (list string) :=
  f <- get_fs ;; ret (fs_lines f path).

(** [os.path.join(self.output_dir, parameters[k])] *)
Definition path_item (self : OpusFilter) (parameters : value) (k : string) : M string :=
  lift (let? v := getitem parameters k in
        let? s := as_str v in
        Ok (Py.path_join (output_dir self) s)).

(** Modelled from the spec: [tokenization.get_tokenize], which is not
    part of this file.  Without a configured tokenizer the line is passed
    through as it is; a configured one is a collaborator. *)
Definition get_tokenize (specs : value) : result (string -> value) :=
  match specs with
  | VNone => Ok VStr
  | _ => tokenizer_of X specs
  end.

(** [pair_generator]: the pairs it yields until the source is exhausted. *)
Definition pair_generator (source_file_name target_file_name : string)
    (src_tokenizer tgt_tokenizer : value) (f : FS) : result (list (value * value)) :=
  let? src_tokenize := get_tokenize src_tokenizer in
  let? tgt_tokenize := get_tokenize tgt_tokenizer in
  if negb (isfile f source_file_name) then Err (FileNotFoundError source_file_name)
  else if negb (isfile f target_file_name) then Err (FileNotFoundError target_file_name)
  else Ok (map (fun p => (src_tokenize (Py.rstrip (fst p)), tgt_tokenize (Py.rstrip (snd p))))
               (readline_zip (fs_lines f source_file_name) (fs_lines f target_file_name))).

(** [get_pairs]: the file names are put behind the output directory by
    [str.format], which renders a name that is not a string as [str]
    does. *)
Definition get_pairs (self : OpusFilter) (src_filename tgt_filename : value)
    : FS -> result (list (value * value)) :=
  pair_generator (output_dir self +:+ "/" +:+ py_str src_filename)
                 (output_dir self +:+ "/" +:+ py_str tgt_filename)
                 VNone VNone.

(** Pulling the first pair runs the generator on the files as they are. *)
Definition pull {A} (gen : FS -> result A) : M A :=
  f <- get_fs ;; lift (gen f).

Definition read_from_opus (self : OpusFilter) (parameters : value) (overwrite : bool) : M unit :=
  src_out <- path_item self parameters "src_output" ;;
  tgt_out <- path_item self parameters "tgt_output" ;;
  f <- get_fs ;;
  if negb overwrite && isfile f src_out && isfile f tgt_out then ret tt
  else
    corpus_name <- lift (getitem parameters "corpus_name") ;;
    source_language <- lift (getitem parameters "source_language") ;;
    target_language <- lift (getitem parameters "target_language") ;;
    release <- lift (getitem parameters "release") ;;
    preprocessing <- lift (getitem parameters "preprocessing") ;;
    act (opus_read X corpus_name source_language target_language release
           preprocessing src_out tgt_out (output_dir self)).

(** The writing loop of [filter_data]. *)
Fixpoint write_pairs (src_out tgt_out : string) (limit : value) (idx : Z)
    (pairs : list (value * value)) : M unit :=
  match pairs with
  | [] => ret tt
  | pr :: rest =>
      s <- lift (as_str (fst pr)) ;;
      write src_out (s +:+ Py.nl) ;;
      t <- lift (as_str (snd pr)) ;;
      write tgt_out (t +:+ Py.nl) ;;
      if truthy limit then
        n <- lift (as_int limit) ;;
        if (n - 1 <=? idx)%Z then ret tt
        else write_pairs src_out tgt_out limit (idx + 1)%Z rest
      else write_pairs src_out tgt_out limit (idx + 1)%Z rest
  end.

Definition filter_data (self : OpusFilter) (parameters : value) (overwrite : bool) : M unit :=
  src_out <- path_item self parameters "src_output" ;;
  tgt_out <- path_item self parameters "tgt_output" ;;
  f <- get_fs ;;
  if negb overwrite && isfile f src_out && isfile f tgt_out then ret tt
  else
    filters <- lift (getitem parameters "filters") ;;
    filter_pipe <- act (from_config X filters) ;;
    filterfalse <- lift (dict_get parameters "filterfalse" (VBool false)) ;;
    src_input <- lift (getitem parameters "src_input") ;;
    tgt_input <- lift (getitem parameters "tgt_input") ;;
    let pairs_gen := get_pairs self src_input tgt_input in
    limit <- lift (dict_get parameters "limit" VNone) ;;
    file_open_w src_out ;;
    file_open_w tgt_out ;;
    pairs <- pull pairs_gen ;;
    write_pairs src_out tgt_out limit 0
      (if truthy filterfalse then pipe_filterfalse X filter_pipe pairs
       else pipe_filter X filter_pipe pairs).

(** The loop of [concatenate] over [parameters['inputs']]. *)
Fixpoint concatenate_inputs (self : OpusFilter) (outfile : string) (inputs : list value) : M unit :=
  match inputs with
  | [] => ret tt
  | infile :: rest =>
      name <- lift (as_str infile) ;;
      file_open (Py.path_join (output_dir self) name) ;;
      lines <- lines_of (Py.path_join (output_dir self) name) ;;
      write_lines outfile lines ;;
      concatenate_inputs self outfile rest
  end.

Definition concatenate (self : OpusFilter) (parameters : value) (overwrite : bool) : M unit :=
  outfile <- path_item self parameters "output" ;;
  f <- get_fs ;;
  if negb overwrite && isfile f outfile then ret tt
  else
    file_open_w outfile ;;
    inputs <- lift (getitem parameters "inputs") ;;
    items <- lift (py_iter inputs) ;;
    concatenate_inputs self outfile items.

Definition _get_total_lines (fname : string) : M nat :=
  file_open fname ;;
  fobj <- lines_of fname ;;
  ret (Z.to_nat (count_lines fobj)).

(** [random.seed(a)]: a [TypeError] for a list or a dict, which are
    not among the types a seed may have. *)
Definition seed (a : value) : M unit :=
  if seedable a
  then fun st => (mkState (fs st) (random_seed R a (rng st)), Ok tt)
  else raise TypeError.

(** [random.sample(range(total), size)]: a [ValueError] when the sample
    is larger than the population or negative. *)
Definition sample (total : nat) (size : value) : M (list nat) :=
  k <- lift (as_int size) ;;
  if (k <? 0)%Z || (Z.of_nat total <? k)%Z then raise ValueError
  else fun st =>
         let (l, g) := random_draw R total (Z.to_nat k) (rng st) in
         (mkState (fs st) g, Ok l).

(** [random.shuffle(lines)] *)
Definition shuffle (lines : list string) : M (list string) :=
  fun st =>
    let (l, g) := random_shuffle R lines (rng st) in
    (mkState (fs st) g, Ok l).

Definition get_subset (self : OpusFilter) (parameters : value) (overwrite : bool) : M unit :=
  src_in <- path_item self parameters "src_input" ;;
  tgt_in <- path_item self parameters "tgt_input" ;;
  src_out <- path_item self parameters "src_output" ;;
  tgt_out <- path_item self parameters "tgt_output" ;;
  f <- get_fs ;;
  if negb overwrite && isfile f src_out && isfile f tgt_out then ret tt
  else
    a <- lift (dict_get parameters "seed" VNone) ;;
    seed a ;;
    size <- lift (getitem parameters "size") ;;
    shuffle_target <- lift (dict_get parameters "shuffle_target" (VBool false)) ;;
    total <- _get_total_lines src_in ;;
    if truthy shuffle_target then
      smp <- sample total size ;;
      file_open src_in ;;
      file_open_w src_out ;;
      inf <- lines_of src_in ;;
      write_lines src_out (_yield_subset inf smp) ;;
      smp <- sample total size ;;
      file_open tgt_in ;;
      inf <- lines_of tgt_in ;;
      lines <- shuffle (_yield_subset inf smp) ;;
      file_open_w tgt_out ;;
      write_lines tgt_out lines
    else
      smp <- sample total size ;;
      file_open src_in ;;
      file_open_w src_out ;;
      inf <- lines_of src_in ;;
      write_lines src_out (_yield_subset inf smp) ;;
      file_open tgt_in ;;
      file_open_w tgt_out ;;
      inf <- lines_of tgt_in ;;
      write_lines tgt_out (_yield_subset inf smp).

Definition train_ngram (self : OpusFilter) (parameters : value) (overwrite : bool) : M unit :=
  model_out <- path_item self parameters "model" ;;
  f <- get_fs ;;
  if negb overwrite && isfile f model_out then ret tt
  else
    data_name <- lift (let? d := getitem parameters "data" in as_str d) ;;
    let seg_name := data_name +:+ ".seg.gz" in
    kw <- lift (getitem parameters "parameters") ;;
    tokenize <- lift (lm_tokenizer X kw) ;;
    file_open (Py.path_join (output_dir self) data_name) ;;
    file_open_w (Py.path_join (output_dir self) seg_name) ;;
    infile <- lines_of (Py.path_join (output_dir self) data_name) ;;
    write_lines (Py.path_join (output_dir self) seg_name)
      (map (fun line => String.concat " " (tokenize (Py.strip line)) +:+ Py.nl) infile) ;;
    act (lm_train X (Py.path_join (output_dir self) seg_name) model_out kw).

Definition train_alignment (self : OpusFilter) (parameters : value) (overwrite : bool) : M unit :=
  model_out <- path_item self parameters "output" ;;
  f <- get_fs ;;
  if negb overwrite && isfile f model_out then ret tt
  else
    src_data <- path_item self parameters "src_data" ;;
    tgt_data <- path_item self parameters "tgt_data" ;;
    src_tokenizer <- lift (let? kw := getitem parameters "parameters" in
                           dict_get kw "src_tokenizer" VNone) ;;
    tgt_tokenizer <- lift (let? kw := getitem parameters "parameters" in
                           dict_get kw "tgt_tokenizer" VNone) ;;
    model <- lift (let? kw := getitem parameters "parameters" in
                   dict_get kw "model" (VInt 3)) ;;
    act (make_priors X (pair_generator src_data tgt_data src_tokenizer tgt_tokenizer)
           model_out model).

Definition score_data (self : OpusFilter) (parameters : value) (overwrite : bool) : M unit :=
  score_out <- path_item self parameters "output" ;;
  f <- get_fs ;;
  if negb overwrite && isfile f score_out then ret tt
  else
    filters <- lift (getitem parameters "filters") ;;
    filter_params <- lift (rewrite_filters (output_dir self) filters) ;;
    src_input <- lift (getitem parameters "src_input") ;;
    tgt_input <- lift (getitem parameters "tgt_input") ;;
    let pairs_gen := get_pairs self src_input tgt_input in
    filter_pipe <- act (from_config X filter_params) ;;
    file_open_w score_out ;;
    pairs <- pull pairs_gen ;;
    write_lines score_out
      (map (fun score => score +:+ Py.nl) (pipe_score X filter_pipe pairs)).

Definition classify (self : OpusFilter) (parameters : value) (overwrite : bool) : M unit :=
  cls <- act (new_classifier X parameters) ;;
  criterion <- lift (getitem parameters "criterion") ;;
  model <- act (find_best_model X cls criterion) ;;
  act (assign_probabilities X cls model).

(** [open(parameters[k])] and [open(parameters[k], 'w')]: the name is
    used as it stands. *)
Definition open_item (parameters : value) (k : string) : M string :=
  path <- lift (let? v := getitem parameters k in as_str v) ;;
  file_open path ;;
  ret path.

Definition open_item_w (parameters : value) (k : string) : M string :=
  path <- lift (let? v := getitem parameters k in as_str v) ;;
  file_open_w path ;;
  ret path.

(** The writing loop of [order_by_rank]. *)
Fixpoint write_rows (output_src output_tgt output_ranks : string)
    (zipped : list (string * string * string)) : M unit :=
  match zipped with
  | [] => ret tt
  | (src, tgt, rank) :: rest =>
      write output_src (src +:+ Py.nl) ;;
      write output_tgt (tgt +:+ Py.nl) ;;
      write output_ranks (rank +:+ Py.nl) ;;
      write_rows output_src output_tgt output_ranks rest
  end.

Definition order_by_rank (self : OpusFilter) (parameters : value) (overwrite : bool) : M unit :=
  input_src <- open_item parameters "input_src" ;;
  input_tgt <- open_item parameters "input_tgt" ;;
  input_ranks <- open_item parameters "input_ranks" ;;
  output_src <- open_item_w parameters "output_src" ;;
  output_tgt <- open_item_w parameters "output_tgt" ;;
  output_ranks <- open_item_w parameters "output_ranks" ;;
  f <- get_fs ;;
  let zipped := Py.zip3 (Py.splitlines (fs_text f input_src))
                        (Py.splitlines (fs_text f input_tgt))
                        (Py.splitlines (fs_text f input_ranks)) in
  let zipped := Py.sorted Py.str_lt (fun t => snd t) true zipped in
  write_rows output_src output_tgt output_ranks zipped.

(** ** Dispatch *)

Definition handler : Type := value -> bool -> M unit.

Definition step_functions (self : OpusFilter) : list (string * handler) :=
  [ ("opus_read", read_from_opus self);
    ("filter", filter_data self);
    ("concatenate", concatenate self);
    ("subset", get_subset self);
    ("train_ngram", train_ngram self);
    ("train_alignment", train_alignment self);
    ("score", score_data self);
    ("classify", classify self);
    ("order_by_rank", order_by_rank self) ].

(** [self.step_functions[kind]]; lists and dicts cannot be hashed. *)
Definition step_function (self : OpusFilter) (kind : value) : result handler :=
  match kind with
  | VStr s =>
      match assoc s (step_functions self) with
      | Some h => Ok h
      | None => Err (KeyError kind)
      end
  | VList _ => Err TypeError
  | VDict _ => Err TypeError
  | _ => Err (KeyError kind)
  end.

(** [self.step_functions[step['type']](step['parameters'], overwrite=overwrite)] *)
Definition run_step (self : OpusFilter) (step : value) (overwrite : bool) : M unit :=
  kind <- lift (getitem step "type") ;;
  h <- lift (step_function self kind) ;;
  parameters <- lift (getitem step "parameters") ;;
  h parameters overwrite.

(** The loop of [execute_steps]; [num] counts the steps gone through. *)
Fixpoint execute_steps_from (self : OpusFilter) (overwrite : bool) (last : option Z)
    (num : nat) (steps : list value) : M unit :=
  match steps with
  | [] => ret tt
  | step :: rest =>
      if match last with
         | Some n => (n <? Z.of_nat num + 1)%Z
         | None => false
         end
      then ret tt
      else
        run_step self step overwrite ;;
        execute_steps_from self overwrite last (S num) rest
  end.

Definition execute_steps (self : OpusFilter) (overwrite : bool) (last : option Z) : M unit :=
  steps <- lift (let? s := getitem (configuration self) "steps" in py_iter s) ;;
  execute_steps_from self overwrite last 0 steps.

Definition execute_step (self : OpusFilter) (num : Z) (overwrite : bool) : M unit :=
  step <- lift (let? s := getitem (configuration self) "steps" in
                subscript s (if (num <? 0)%Z then num else (num - 1)%Z)) ;;
  run_step self step overwrite.

End Engine.

Arguments fs {R} _.
Arguments rng {R} _.
Arguments mkState {R} _ _.
Arguments ret {R A} _ _.
Arguments raise {R A} _ _.
Arguments bind {R A B} _ _ _.
Arguments lift {R A} _ _.
Arguments act {R A} _ _.
Arguments get_fs {R} _.
Arguments modify_fs {R} _ _.

(** ** A concrete generator and idle collaborators

    Used to run the engine on examples.  The generator's state is a
    counter: an odd state draws the highest indices, largest first, an even
    one the lowest; shuffling reverses. *)

Definition counter_random : Random :=
  mkRandom nat
    (fun a _ => match a with VInt z => Z.to_nat z | _ => 0 end)
    (fun n k g => (take k (if Nat.odd g then rev (seq 0 n) else seq 0 n), S g))
    (fun l g => (rev l, S g)).

Definition idle {A} (a : A) : Action A := fun f => (f, Ok a).

Definition idle_collaborators : Collaborators :=
  mkCollaborators unit unit unit
    (fun _ _ _ _ _ _ _ _ => idle tt)
    (fun _ => idle tt)
    (fun _ pairs => pairs)
    (fun _ _ => [])
    (fun _ pairs => map (fun _ => "{}") pairs)
    (fun _ => Ok (fun line => [line]))
    (fun _ _ _ => idle tt)
    (fun _ => Err (CollaboratorError "tokenizer"))
    (fun _ _ _ => idle tt)
    (fun _ => idle tt)
    (fun _ _ => idle tt)
    (fun _ _ => idle tt).

Definition fs_of (l : list (string * string)) : FS := mkFS (list_to_map l) [].

Definition state0 (l : list (string * string)) : State counter_random :=
  @mkState counter_random (fs_of l) 0.

(** ** The object store

    [score_data] changes objects in place.  Here dicts and lists live in a
    store and are referred to by address, so that two references to one
    object see each other's updates. *)

Module Store.

Inductive pyval : Type :=
| PNone
| PBool (b : bool)
| PInt (z : Z)
| PStr (s : string)
| PRef (l : nat).

Inductive cell : Type :=
| CList (items : list pyval)
| CDict (items : list (string * pyval)).

Abbreviation heap := (gmap nat cell).
Abbreviation memo := (gmap nat nat).

Definition H (A : Type) : Type := heap -> heap * result A.

Definition hret {A} (a : A) : H A := fun h => (h, Ok a).
Definition hraise {A} (e : exn) : H A := fun h => (h, Err e).
Definition hbind {A B} (m : H A) (k : A -> H B) : H B :=
  fun h =>
    match m h with
    | (h', Ok a) => k a h'
    | (h', Err e) => (h', Err e)
    end.

Notation "x <- m ;; k" := (hbind m (fun x => k))
  (at level 100, m at next level, right associativity).
Notation "m ;; k" := (hbind m (fun _ => k))
  (at level 100, right associativity).

(** The object behind a reference; an address without object cannot
    arise in Python and is reported as [SystemError]. *)
Definition load (l : nat) : H cell :=
  fun h =>
    match h !! l with
    | Some c => (h, Ok c)
    | None => (h, Err SystemError)
    end.

Definition store (l : nat) (c : cell) : H unit :=
  fun h => (<[l := c]> h, Ok tt).

(** [v[k]] for a string [k] *)
Definition py_getitem (v : pyval) (k : string) : H pyval :=
  match v with
  | PRef l =>
      c <- load l ;;
      match c with
      | CDict d =>
          match assoc k d with
          | Some x => hret x
          | None => hraise (KeyError (VStr k))
          end
      | CList _ => hraise TypeError
      end
  | _ => hraise TypeError
  end.

(** [v.get(k)] *)
Definition py_get (v : pyval) (k : string) : H pyval :=
  match v with
  | PRef l =>
      c <- load l ;;
      match c with
      | CDict d => hret (default PNone (assoc k d))
      | CList _ => hraise AttributeError
      end
  | _ => hraise AttributeError
  end.

(** [next(iter(v.items()))[0]] *)
Definition py_first_key (v : pyval) : H string :=
  match v with
  | PRef l =>
      c <- load l ;;
      match c with
      | CDict [] => hraise StopIteration
      | CDict ((k, _) :: _) => hret k
      | CList _ => hraise AttributeError
      end
  | _ => hraise AttributeError
  end.

(** [k in v] *)
Definition py_contains (k : string) (v : pyval) : H bool :=
  match v with
  | PRef l =>
      c <- load l ;;
      match c with
      | CDict d => hret (bool_decide (is_Some (assoc k d)))
      | CList items =>
          hret (existsb (fun x => match x with PStr s => String.eqb s k | _ => false end) items)
      end
  | PStr s => hret (bool_decide (is_Some (String.index 0 k s)))
  | _ => hraise TypeError
  end.

(** [bool(v)] *)
Definition py_truthy (v : pyval) : H bool :=
  match v with
  | PNone => hret false
  | PBool b => hret b
  | PInt z => hret (negb (Z.eqb z 0))
  | PStr s => hret (negb (String.eqb s EmptyString))
  | PRef l =>
      c <- load l ;;
      match c with
      | CList items => hret (match items with [] => false | _ => true end)
      | CDict d => hret (match d with [] => false | _ => true end)
      end
  end.

(** [len(v)] *)
Definition py_len (v : pyval) : H nat :=
  match v with
  | PRef l =>
      c <- load l ;;
      match c with
      | CList items => hret (length items)
      | CDict d => hret (length d)
      end
  | PStr s => hret (String.length s)
  | _ => hraise TypeError
  end.

(** [v[i]] for an integer [i] *)
Definition py_subscript (v : pyval) (i : Z) : H pyval :=
  match v with
  | PRef l =>
      c <- load l ;;
      match c with
      | CList items =>
          match list_index items i with
          | Some x => hret x
          | None => hraise IndexError
          end
      | CDict _ => hraise (KeyError (VInt i))
      end
  | PStr s =>
      match list_index (list_ascii_of_string s) i with
      | Some c => hret (PStr (String c EmptyString))
      | None => hraise IndexError
      end
  | _ => hraise TypeError
  end.

(** [v[k] = x] for a string [k] *)
Definition py_setitem (v : pyval) (k : string) (x : pyval) : H unit :=
  match v with
  | PRef l =>
      c <- load l ;;
      match c with
      | CDict d => store l (CDict (assoc_set k x d))
      | CList _ => hraise TypeError
      end
  | _ => hraise TypeError
  end.

(** [v[i] = x] for an integer [i].  Keys of dicts are strings here; the
    engine reads [v[i]] before it writes it, and that read raises on a
    dict. *)
Definition py_setindex (v : pyval) (i : Z) (x : pyval) : H unit :=
  match v with
  | PRef l =>
      c <- load l ;;
      match c with
      | CList items =>
          let n := Z.of_nat (length items) in
          let j := if (i <? 0)%Z then (i + n)%Z else i in
          if (j <? 0)%Z || (n <=? j)%Z then hraise IndexError
          else store l (CList (<[Z.to_nat j := x]> items))
      | CDict _ => hraise (KeyError (VInt i))
      end
  | _ => hraise TypeError
  end.

(** [os.path.join(out, v)] *)
Definition py_join (out : string) (v : pyval) : H pyval :=
  match v with
  | PStr s => hret (PStr (Py.path_join out s))
  | _ => hraise TypeError
  end.

Fixpoint for_each {A} (l : list A) (body : A -> H unit) : H unit :=
  match l with
  | [] => hret tt
  | x :: l' => body x ;; for_each l' body
  end.

(** [for x in v: body]; a list is gone through by position. *)
Definition for_in (v : pyval) (body : pyval -> H unit) : H unit :=
  match v with
  | PRef l =>
      c <- load l ;;
      match c with
      | CList items =>
          for_each (seq 0 (length items))
            (fun i => x <- py_subscript v (Z.of_nat i) ;; body x)
      | CDict d => for_each (map (fun kv => PStr (fst kv)) d) body
      end
  | PStr s =>
      for_each (map (fun c => PStr (String c EmptyString)) (list_ascii_of_string s)) body
  | _ => hraise TypeError
  end.

(** *** [copy.deepcopy]

    [fuel] bounds the depth of the recursion, as Python's recursion limit
    does; the memo maps the address of an object to that of its copy. *)

Definition append_item (y : nat) (a : pyval) (h : heap) : heap :=
  match h !! y with
  | Some (CList items) => <[y := CList (items ++ [a])]> h
  | _ => h
  end.

Definition set_entry (y : nat) (k : string) (a : pyval) (h : heap) : heap :=
  match h !! y with
  | Some (CDict d) => <[y := CDict (assoc_set k a d)]> h
  | _ => h
  end.

Section Copy.
Variable deepcopy : pyval -> memo * heap -> (memo * heap) * result pyval.

(** [for a in x: y.append(deepcopy(a, memo))] *)
Fixpoint deepcopy_list (y : nat) (x : list pyval) (s : memo * heap)
    : (memo * heap) * result unit :=
  match x with
  | [] => (s, Ok tt)
  | a :: x' =>
      match deepcopy a s with
      | (s', Ok a') => deepcopy_list y x' (fst s', append_item y a' (snd s'))
      | (s', Err e) => (s', Err e)
      end
  end.

(** [for key, value in x.items(): y[key] = deepcopy(value, memo)] *)
Fixpoint deepcopy_dict (y : nat) (x : list (string * pyval)) (s : memo * heap)
    : (memo * heap) * result unit :=
  match x with
  | [] => (s, Ok tt)
  | (key, a) :: x' =>
      match deepcopy a s with
      | (s', Ok a') => deepcopy_dict y x' (fst s', set_entry y key a' (snd s'))
      | (s', Err e) => (s', Err e)
      end
  end.
End Copy.

Fixpoint deepcopy (fuel : nat) (x : pyval) (s : memo * heap)
    : (memo * heap) * result pyval :=
  match x with
  | PRef l =>
      match fst s !! l with
      | Some y => (s, Ok (PRef y))
      | None =>
          match fuel with
          | 0 => (s, Err RecursionError)
          | S fuel' =>
              match snd s !! l with
              | None => (s, Err SystemError)
              | Some (CList items) =>
                  let y := fresh (dom (snd s)) in
                  match deepcopy_list (deepcopy fuel') y items
                          (<[l := y]> (fst s), <[y := CList []]> (snd s)) with
                  | (s', Ok _) => (s', Ok (PRef y))
                  | (s', Err e) => (s', Err e)
                  end
              | Some (CDict d) =>
                  let y := fresh (dom (snd s)) in
                  match deepcopy_dict (deepcopy fuel') y d
                          (<[l := y]> (fst s), <[y := CDict []]> (snd s)) with
                  | (s', Ok _) => (s', Ok (PRef y))
                  | (s', Err e) => (s', Err e)
                  end
              end
          end
      end
  | _ => (s, Ok x)
  end.

(** [copy.deepcopy(x)] *)
Definition copy_deepcopy (fuel : nat) (x : pyval) : H pyval :=
  fun h => let (s, r) := deepcopy fuel x (∅, h) in (snd s, r).

(** *** The rewriting of [score_data] *)

(** [lm_params['interpolate'][idx][0] =
       os.path.join(out, lm_params['interpolate'][idx][0])] *)
Definition rewrite_interpolate_item (out : string) (lm_params : pyval) (idx : nat) : H unit :=
  a <- py_getitem lm_params "interpolate" ;;
  e <- py_subscript a (Z.of_nat idx) ;;
  x <- py_subscript e 0 ;;
  p <- py_join out x ;;
  a' <- py_getitem lm_params "interpolate" ;;
  e' <- py_subscript a' (Z.of_nat idx) ;;
  py_setindex e' 0 p.

Definition rewrite_lm_params (out : string) (f : pyval) (filter_name key : string) : H unit :=
  inner <- py_getitem f filter_name ;;
  lm_params <- py_getitem inner key ;;
  fn <- py_getitem lm_params "filename" ;;
  p <- py_join out fn ;;
  py_setitem lm_params "filename" p ;;
  i <- py_get lm_params "interpolate" ;;
  t <- py_truthy i ;;
  if t then
    a <- py_getitem lm_params "interpolate" ;;
    n <- py_len a ;;
    for_each (seq 0 n) (rewrite_interpolate_item out lm_params)
  else hret tt.

Definition rewrite_filter (out : string) (f : pyval) : H unit :=
  filter_name <- py_first_key f ;;
  (if String.eqb filter_name "WordAlignFilter" then
     inner <- py_getitem f filter_name ;;
     has <- py_contains "priors" inner ;;
     if has then
       inner1 <- py_getitem f filter_name ;;
       x <- py_getitem inner1 "priors" ;;
       p <- py_join out x ;;
       inner2 <- py_getitem f filter_name ;;
       py_setitem inner2 "priors" p
     else hret tt
   else hret tt) ;;
  if String.eqb filter_name "CrossEntropyFilter" then
    rewrite_lm_params out f filter_name "src_lm_params" ;;
    rewrite_lm_params out f filter_name "tgt_lm_params"
  else hret tt.

(** Lines 257 to 278 of [score_data]: the copy of [parameters['filters']]
    and its rewriting; the result is [filter_params]. *)
Definition score_data_filter_params (fuel : nat) (out : string) (parameters : pyval) : H pyval :=
  filters <- py_getitem parameters "filters" ;;
  filter_params <- copy_deepcopy fuel filters ;;
  for_in filter_params (rewrite_filter out) ;;
  hret filter_params.

End Store.

(** ** Notions used to state the properties *)

(** What [order_by_rank] writes in one of its three files for the rows
    [rows]: the chosen field of every row, each followed by a newline. *)
Definition column {A} (field : A -> string) (rows : list A) : string :=
  Py.concat (map (fun r => field r +:+ Py.nl) rows).

Definition row_src (r : string * string * string) : string := fst (fst r).
Definition row_tgt (r : string * string * string) : string := snd (fst r).
Definition row_rank (r : string * string * string) : string := snd r.

(** The rows [order_by_rank] sorts: the three files as they are when read. *)
Definition ranked_rows (f : FS) (input_src input_tgt input_ranks : string)
    : list (string * string * string) :=
  Py.sorted Py.str_lt (fun t => snd t) true
    (Py.zip3 (Py.splitlines (fs_text f input_src))
             (Py.splitlines (fs_text f input_tgt))
             (Py.splitlines (fs_text f input_ranks))).

(** The text of three lines. *)
Definition text3 (a b c : string) : string :=
  a +:+ Py.nl +:+ b +:+ Py.nl +:+ c +:+ Py.nl.

(** Concrete scenario 2 of the specification: ranks 3, 1, 2 next to the
    source lines A, B, C. *)
Definition scenario2_parameters : value :=
  VDict [("input_src", VStr "src"); ("input_tgt", VStr "tgt"); ("input_ranks", VStr "ranks");
         ("output_src", VStr "src.sorted"); ("output_tgt", VStr "tgt.sorted");
         ("output_ranks", VStr "ranks.sorted")].

Definition scenario2_state : State counter_random :=
  state0 [("src", text3 "A" "B" "C"); ("tgt", text3 "x" "y" "z");
          ("ranks", text3 "3" "1" "2")].

Definition here : OpusFilter := mkOpusFilter (VDict []) ".".

(** A two-step configuration whose second step has a kind that is not in
    the table; its first step concatenates the file [a] into [all]. *)
Definition newline_text (s : string) : string := s +:+ Py.nl.

Definition concatenate_step : value :=
  VDict [("type", VStr "concatenate");
         ("parameters", VDict [("inputs", VList [VStr "a"]); ("output", VStr "all")])].

Definition bogus_step : value :=
  VDict [("type", VStr "bogus"); ("parameters", VDict [])].

Definition bogus_pipeline : OpusFilter :=
  mkOpusFilter (VDict [("steps", VList [concatenate_step; bogus_step])]) ".".

Definition bogus_state : State counter_random := state0 [("./a", newline_text "x")].

(** A configuration of two known steps. *)
Definition rank_step : value :=
  VDict [("type", VStr "order_by_rank"); ("parameters", scenario2_parameters)].

Definition two_steps : OpusFilter :=
  mkOpusFilter (VDict [("steps", VList [concatenate_step; rank_step])]) ".".

(** An engine whose working directory is [work], and two states for it:
    one with the three inputs in the working directory only, one with
    other files of the same names in the current directory as well. *)
Definition work : OpusFilter := mkOpusFilter (VDict []) "work".

Definition work_state : State counter_random :=
  state0 [("work/src", text3 "A" "B" "C"); ("work/tgt", text3 "x" "y" "z");
          ("work/ranks", text3 "3" "1" "2")].

Definition both_state : State counter_random :=
  state0 [("work/src", text3 "A" "B" "C"); ("work/tgt", text3 "x" "y" "z");
          ("work/ranks", text3 "3" "1" "2");
          ("src", text3 "P" "Q" "R"); ("tgt", text3 "p" "q" "r");
          ("ranks", text3 "1" "2" "3")].

Definition concatenate_src : value :=
  VDict [("inputs", VList [VStr "src"]); ("output", VStr "all")].

(** A source of three lines next to a target of one. *)
Definition ragged_fs : FS :=
  fs_of [("src", text3 "a" "b  " "c"); ("tgt", newline_text "x")].

(** The four files and the size of a [subset] step. *)
Definition subset_parameters (size : Z) (shuffle_target : bool) : value :=
  VDict [("src_input", VStr "src"); ("tgt_input", VStr "tgt");
         ("src_output", VStr "src.sub"); ("tgt_output", VStr "tgt.sub");
         ("size", VInt size); ("seed", VInt 1); ("shuffle_target", VBool shuffle_target)].

Definition subset_state : State counter_random :=
  state0 [("./src", text3 "a" "b" "c"); ("./tgt", text3 "x" "y" "z")].

(** The state of [subset_state] after an earlier run: both outputs of
    the [subset] step are there, each with a line of old. *)
Definition subset_done_state : State counter_random :=
  state0 [("./src", text3 "a" "b" "c"); ("./tgt", text3 "x" "y" "z");
          ("./src.sub", newline_text "old"); ("./tgt.sub", newline_text "old")].

(** The indices of a sample in the order [_yield_subset] meets them. *)
Definition ascending (indices : list nat) : list nat :=
  rev (Py.sorted Nat.ltb (fun i => i) true indices).

(** Lines as a text file holds them: a complete line ends with its only
    newline, a partial one is not empty and has none.  In a well-formed
    sequence of lines only the last one may be partial. *)
Fixpoint has_newline (s : string) : bool :=
  match s with
  | EmptyString => false
  | String c s' => Py.is_newline c || has_newline s'
  end.

Fixpoint has_cr (s : string) : bool :=
  match s with
  | EmptyString => false
  | String c s' => Ascii.eqb c Py.carriage_return || has_cr s'
  end.

Fixpoint is_complete (l : string) : bool :=
  match l with
  | EmptyString => false
  | String c l' => if Py.is_newline c then String.eqb l' EmptyString else is_complete l'
  end.

Definition is_partial (l : string) : bool :=
  negb (String.eqb l EmptyString) && negb (has_newline l).

Inductive lines_ok : list string -> Prop :=
| lines_ok_nil : lines_ok []
| lines_ok_partial l : is_partial l = true -> lines_ok [l]
| lines_ok_cons l ls : is_complete l = true -> lines_ok ls -> lines_ok (l :: ls).

(** A target whose last line has no newline, next to a source of two
    lines. *)
Definition unterminated_state : State counter_random :=
  state0 [("./src", newline_text "a" +:+ newline_text "b");
          ("./tgt", newline_text "x" +:+ "y")].

(** Notions for the object store.  With respect to a store [h0], a value
    is new when it is not a reference to an object of [h0]; a store [h]
    extends [h0] when it holds every object of [h0] as it is in [h0] and
    its other objects refer to new values only. *)
Definition new_value (h0 : Store.heap) (v : Store.pyval) : Prop :=
  match v with
  | Store.PRef l => h0 !! l = None
  | _ => True
  end.

Definition cell_values (c : Store.cell) : list Store.pyval :=
  match c with
  | Store.CList items => items
  | Store.CDict d => map snd d
  end.

Definition extends (h0 h : Store.heap) : Prop :=
  (forall l c, h0 !! l = Some c -> h !! l = Some c) /\
  (forall l c, h0 !! l = None -> h !! l = Some c -> Forall (new_value h0) (cell_values c)).

(** A computation keeps [h0] when, from a store that extends [h0], it
    leads to one that does, and returns, if it returns, a result that
    satisfies [P]. *)
Definition keeps {A} (h0 : Store.heap) (P : A -> Prop) (m : Store.H A) : Prop :=
  forall h, extends h0 h ->
    extends h0 (fst (m h)) /\ forall a, snd (m h) = Ok a -> P a.

(** The memo of a copy in progress refers to new objects only. *)
Definition memo_new (h0 : Store.heap) (m : Store.memo) : Prop :=
  forall l y, m !! l = Some y -> h0 !! y = None.

(** A configuration of one [CrossEntropyFilter] in a store: the dict of
    parameters at address 0, the list of filters at 1, the filter at 2,
    its parameters at 3, the two dicts of language-model parameters at 4
    and 5, and a list of interpolation at 6 with its one entry at 7. *)
Definition score_store : Store.heap :=
  list_to_map
    [(0, Store.CDict [("filters", Store.PRef 1); ("output", Store.PStr "scores")]);
     (1, Store.CList [Store.PRef 2]);
     (2, Store.CDict [("CrossEntropyFilter", Store.PRef 3)]);
     (3, Store.CDict [("src_lm_params", Store.PRef 4); ("tgt_lm_params", Store.PRef 5)]);
     (4, Store.CDict [("filename", Store.PStr "src.arpa"); ("interpolate", Store.PRef 6)]);
     (5, Store.CDict [("filename", Store.PStr "tgt.arpa")]);
     (6, Store.CList [Store.PRef 7]);
     (7, Store.CList [Store.PStr "bg.arpa"; Store.PInt 1])].

(** The state of a copy in progress: the memo and the store. *)
Definition copy_inv (h0 : Store.heap) (s : Store.memo * Store.heap) : Prop :=
  memo_new h0 (fst s) /\ extends h0 (snd s).

(** ** Notions for the further properties *)

(** The number of newline characters of a text, and whether the text
    ends with a line that has none. *)
Fixpoint newlines (s : string) : nat :=
  match s with
  | EmptyString => 0
  | String c s' => (if Py.is_newline c then 1 else 0) + newlines s'
  end.

Fixpoint unterminated (s : string) : bool :=
  match s with
  | EmptyString => false
  | String c EmptyString => negb (Py.is_newline c)
  | String _ s' => unterminated s'
  end.

(** The indices [_yield_subset] meets among sorted ones: from [c] on, as
    long as each is below [n] and above the one before. *)
Fixpoint strict_run (n c : nat) (rest : list nat) : list nat :=
  if Nat.ltb c n then
    c :: match rest with
         | c' :: rest' => if Nat.ltb c c' then strict_run n c' rest' else []
         | [] => []
         end
  else [].

Definition met_indices (n : nat) (indices : list nat) : list nat :=
  match ascending indices with
  | [] => []
  | c :: rest => strict_run n c rest
  end.

(** A string without line boundary. *)
Fixpoint no_break (s : string) : bool :=
  match s with
  | EmptyString => true
  | String c s' => negb (Py.is_linebreak c) && no_break s'
  end.

(** The rows three files make, line by line. *)
Definition file_rows (f : FS) (p1 p2 p3 : string) : list (string * string * string) :=
  Py.zip3 (Py.splitlines (fs_text f p1)) (Py.splitlines (fs_text f p2))
          (Py.splitlines (fs_text f p3)).

(** An [order_by_rank] step that has its six names, finds its three
    inputs and writes to three files other than the inputs. *)
Definition rank_step_ready {R : Random} (st : State R) (parameters : value)
    (i1 i2 i3 o1 o2 o3 : string) : Prop :=
  getitem parameters "input_src" = Ok (VStr i1) /\
  getitem parameters "input_tgt" = Ok (VStr i2) /\
  getitem parameters "input_ranks" = Ok (VStr i3) /\
  getitem parameters "output_src" = Ok (VStr o1) /\
  getitem parameters "output_tgt" = Ok (VStr o2) /\
  getitem parameters "output_ranks" = Ok (VStr o3) /\
  isfile (fs st) i1 = true /\ isfile (fs st) i2 = true /\ isfile (fs st) i3 = true /\
  NoDup [o1; o2; o3] /\
  (forall i, i ∈ [i1; i2; i3] -> i ∉ [o1; o2; o3]).

(** Ranks with a tie and inputs of different lengths: four source lines,
    four target lines and three ranks. *)
Definition tie_state : State counter_random :=
  state0 [("src", text3 "A" "B" "C" +:+ newline_text "D");
          ("tgt", text3 "x" "y" "z" +:+ newline_text "w");
          ("ranks", text3 "1" "2" "1")].

(** A step that sorts the source file in place. *)
Definition in_place_parameters : value :=
  VDict [("input_src", VStr "src"); ("input_tgt", VStr "tgt"); ("input_ranks", VStr "ranks");
         ("output_src", VStr "src"); ("output_tgt", VStr "tgt.sorted");
         ("output_ranks", VStr "ranks.sorted")].

(** A [concatenate] step over the files [a] and [b], and one whose
    second input [missing] is not there. *)
Definition concatenate_parameters (inputs : list string) : value :=
  VDict [("inputs", VList (map VStr inputs)); ("output", VStr "all")].

Definition concatenate_state : State counter_random :=
  state0 [("./a", newline_text "x" +:+ "y"); ("./b", newline_text "z")].

(** A state in which the outputs of the steps of the examples exist. *)
Definition done_state : State counter_random :=
  state0 [("./src.sub", EmptyString); ("./tgt.sub", EmptyString); ("./all", EmptyString)].

Definition filter_parameters : value :=
  VDict [("src_output", VStr "src.sub"); ("tgt_output", VStr "tgt.sub")].

(** The pairs the writing loop of [filter_data] gets to, from the index
    [idx] on: all of them without limit or with the limit 0, else as many
    as the limit says and at least one. *)
Definition take_from {A} (limit : value) (idx : Z) (l : list A) : list A :=
  match limit with
  | VInt z => if Z.eqb z 0 then l else take (Z.to_nat (Z.max 1 (z - idx))) l
  | _ => l
  end.

Definition str_pair (p : string * string) : value * value := (VStr (fst p), VStr (snd p)).

Definition limited_filter_parameters : value :=
  VDict [("src_input", VStr "src"); ("tgt_input", VStr "tgt");
         ("src_output", VStr "src.sub"); ("tgt_output", VStr "tgt.sub");
         ("filters", VList []); ("limit", VInt 2)].

(** A state without the target input of the [subset] step, and one
    without its source input. *)
Definition missing_target_state : State counter_random :=
  state0 [("./src", text3 "a" "b" "c")].

Definition missing_source_state : State counter_random :=
  state0 [("./tgt", text3 "x" "y" "z")].

(** A [filter] step whose source output is its source input. *)
Definition in_place_filter_parameters : value :=
  VDict [("src_input", VStr "src"); ("tgt_input", VStr "tgt");
         ("src_output", VStr "src"); ("tgt_output", VStr "tgt.out");
         ("filters", VList [])].

(** A [train_ngram] step over the file [src], and a state in which its
    model is there. *)
Definition ngram_parameters : value :=
  VDict [("model", VStr "lm"); ("data", VStr "src"); ("parameters", VDict [])].

Definition trained_state : State counter_random :=
  state0 [("./src", text3 "a" "b" "c"); ("./lm", newline_text "model")].

(** What [train_ngram] writes for a line of data: the tokens of the
    stripped line with single spaces between them. *)
Definition segmented (tokenize : string -> list string) (line : string) : string :=
  String.concat " " (tokenize (Py.strip line)).

(** A filter that [score_data] does not rewrite: a dict whose first key
    is neither [WordAlignFilter] nor [CrossEntropyFilter]. *)
Definition plain_filter (f : value) : bool :=
  match f with
  | VDict ((filter_name, _) :: _) =>
      negb (String.eqb filter_name "WordAlignFilter") &&
      negb (String.eqb filter_name "CrossEntropyFilter")
  | _ => false
  end.

Definition plain_filters : list value :=
  [VDict [("LengthFilter", VDict [("priors", VStr "p"); ("filename", VStr "f")])];
   VDict [("LanguageIDFilter", VDict []);
          ("WordAlignFilter", VDict [("priors", VStr "p")])]].

(** A [score] step, and a state in which its output is there. *)
Definition score_parameters : value :=
  VDict [("output", VStr "scores"); ("filters", VList plain_filters);
         ("src_input", VStr "src"); ("tgt_input", VStr "tgt")].

Definition scored_state : State counter_random :=
  state0 [("./src", text3 "a" "b" "c"); ("./tgt", text3 "x" "y" "z");
          ("./scores", newline_text "{}")].


(** * Properties *)

(** ** Strings and lines *)

Lemma app_cons (c : ascii) (s t : string) : String c s +:+ t = String c (s +:+ t).
Proof. reflexivity. Qed.

Lemma app_empty_r (s : string) : s +:+ EmptyString = s.
Proof. induction s as [|c s IH]; [reflexivity|]. rewrite app_cons. by rewrite IH. Qed.

Lemma app_assoc_str (s t u : string) : (s +:+ t) +:+ u = s +:+ t +:+ u.
Proof.
  induction s as [|c s IH]; [reflexivity|].
  rewrite !app_cons. by rewrite IH.
Qed.

(** ** The monad and the file system *)

Section MonadFacts.
Context {R : Random}.
Implicit Types st : State R.

Lemma bind_Ok {A B} (m : M R A) (k : A -> M R B) st st' a :
  m st = (st', Ok a) -> bind m k st = k a st'.
Proof. intros Hm. unfold bind. by rewrite Hm. Qed.

Lemma bind_Err {A B} (m : M R A) (k : A -> M R B) st st' e :
  m st = (st', Err e) -> bind m k st = (st', Err e).
Proof. intros Hm. unfold bind. by rewrite Hm. Qed.

Lemma lift_Ok {A B} (r : result A) (k : A -> M R B) st a :
  r = Ok a -> bind (lift r) k st = k a st.
Proof. by intros ->. Qed.

Lemma get_fs_bind {B} (k : FS -> M R B) st : bind get_fs k st = k (fs st) st.
Proof. reflexivity. Qed.

Lemma file_open_Ok path st :
  isfile (fs st) path = true -> file_open R path st = (st, Ok tt).
Proof. intros Hf. unfold file_open. rewrite get_fs_bind. by rewrite Hf. Qed.

Lemma file_open_Err path st :
  isfile (fs st) path = false -> file_open R path st = (st, Err (FileNotFoundError path)).
Proof. intros Hf. unfold file_open. rewrite get_fs_bind. by rewrite Hf. Qed.
End MonadFacts.

Lemma isfile_Some (f : FS) (path c : string) : files f !! path = Some c -> isfile f path = true.
Proof. intros Hc. unfold isfile. rewrite Hc. by apply bool_decide_eq_true. Qed.

Lemma isfile_None (f : FS) (path : string) : files f !! path = None -> isfile f path = false.
Proof.
  intros Hc. unfold isfile. rewrite Hc. apply bool_decide_eq_false. by intros [? ?].
Qed.

Lemma files_open_w_eq (f : FS) (path : string) :
  files (fs_open_w path f) !! path = Some EmptyString.
Proof. apply lookup_insert_eq. Qed.

Lemma files_open_w_ne (f : FS) (path q : string) :
  path <> q -> files (fs_open_w path f) !! q = files f !! q.
Proof. intros. by apply lookup_insert_ne. Qed.

Lemma files_write_eq (f : FS) (path data : string) :
  files (fs_write path data f) !! path
  = Some (default EmptyString (files f !! path) +:+ data).
Proof. apply lookup_insert_eq. Qed.

Lemma files_write_ne (f : FS) (path data q : string) :
  path <> q -> files (fs_write path data f) !! q = files f !! q.
Proof. intros. by apply lookup_insert_ne. Qed.

Lemma fs_text_Some (f : FS) (path c : string) :
  files f !! path = Some c -> fs_text f path = Py.universal_newlines c.
Proof. intros Hc. unfold fs_text. by rewrite Hc. Qed.

Lemma isfile_open_w_ne (f : FS) (path q : string) :
  path <> q -> isfile (fs_open_w path f) q = isfile f q.
Proof. intros. unfold isfile. by rewrite files_open_w_ne. Qed.

Lemma fs_text_open_w_ne (f : FS) (path q : string) :
  path <> q -> fs_text (fs_open_w path f) q = fs_text f q.
Proof. intros. unfold fs_text. by rewrite files_open_w_ne. Qed.

(** ** Rank reordering *)

Section OrderByRank.
Context {R : Random}.
Implicit Types st : State R.

Lemma write_Ok {B} (path data : string) (k : unit -> M R B) st :
  bind (write R path data) k st = k tt (mkState (fs_write path data (fs st)) (rng st)).
Proof. reflexivity. Qed.

Lemma write_rows_spec (o1 o2 o3 c1 c2 c3 : string) rows st :
  o1 <> o2 -> o1 <> o3 -> o2 <> o3 ->
  files (fs st) !! o1 = Some c1 ->
  files (fs st) !! o2 = Some c2 ->
  files (fs st) !! o3 = Some c3 ->
  let r := write_rows R o1 o2 o3 rows st in
  snd r = Ok tt /\
  rng (fst r) = rng st /\
  files (fs (fst r)) !! o1 = Some (c1 +:+ column row_src rows) /\
  files (fs (fst r)) !! o2 = Some (c2 +:+ column row_tgt rows) /\
  files (fs (fst r)) !! o3 = Some (c3 +:+ column row_rank rows) /\
  forall q, q <> o1 -> q <> o2 -> q <> o3 ->
    files (fs (fst r)) !! q = files (fs st) !! q.
Proof.
  intros H12 H13 H23. revert st c1 c2 c3.
  induction rows as [|[[s t] k] rows IH]; intros st c1 c2 c3 Hc1 Hc2 Hc3.
  - cbn. unfold column; cbn. rewrite !app_empty_r. by repeat split.
  - cbn [write_rows]. rewrite !write_Ok.
    set (st' := mkState _ _).
    assert (files (fs st') !! o1 = Some (c1 +:+ s +:+ Py.nl)) as Hc1'.
    { subst st'; cbn [fs]. rewrite !files_write_ne by done.
      rewrite files_write_eq, Hc1. reflexivity. }
    assert (files (fs st') !! o2 = Some (c2 +:+ t +:+ Py.nl)) as Hc2'.
    { subst st'; cbn [fs]. rewrite files_write_ne by done.
      rewrite files_write_eq, files_write_ne, Hc2 by done. reflexivity. }
    assert (files (fs st') !! o3 = Some (c3 +:+ k +:+ Py.nl)) as Hc3'.
    { subst st'; cbn [fs]. rewrite files_write_eq, !files_write_ne, Hc3 by done.
      reflexivity. }
    destruct (IH st' _ _ _ Hc1' Hc2' Hc3') as (Hr & Hg & H1 & H2 & H3 & Hq).
    cbn zeta. split; [done|]. split; [by rewrite Hg|].
    unfold column in *. cbn [map Py.concat row_src row_tgt row_rank fst snd].
    rewrite H1, H2, H3, !app_assoc_str. repeat split; [].
    intros q ? ? ?. rewrite Hq by done.
    subst st'; cbn [fs]. by rewrite !files_write_ne.
Qed.
Lemma order_by_rank_run self parameters overwrite st (i1 i2 i3 o1 o2 o3 : string) :
  getitem parameters "input_src" = Ok (VStr i1) ->
  getitem parameters "input_tgt" = Ok (VStr i2) ->
  getitem parameters "input_ranks" = Ok (VStr i3) ->
  getitem parameters "output_src" = Ok (VStr o1) ->
  getitem parameters "output_tgt" = Ok (VStr o2) ->
  getitem parameters "output_ranks" = Ok (VStr o3) ->
  isfile (fs st) i1 = true -> isfile (fs st) i2 = true -> isfile (fs st) i3 = true ->
  order_by_rank R self parameters overwrite st
  = let f := fs_open_w o3 (fs_open_w o2 (fs_open_w o1 (fs st))) in
    write_rows R o1 o2 o3 (ranked_rows f i1 i2 i3) (mkState f (rng st)).
Proof.
  intros Hi1 Hi2 Hi3 Ho1 Ho2 Ho3 Hf1 Hf2 Hf3.
  unfold order_by_rank, open_item, open_item_w, file_open, file_open_w,
    modify_fs, get_fs, bind, lift, ret, raise.
  rewrite Hi1, Hi2, Hi3, Ho1, Ho2, Ho3. cbn. rewrite Hf1, Hf2, Hf3. reflexivity.
Qed.

(** The three outputs of [order_by_rank] hold the sorted rows, one field
    each, when the outputs are three files other than the inputs. *)
Lemma order_by_rank_spec self parameters overwrite st (i1 i2 i3 o1 o2 o3 : string) :
  getitem parameters "input_src" = Ok (VStr i1) ->
  getitem parameters "input_tgt" = Ok (VStr i2) ->
  getitem parameters "input_ranks" = Ok (VStr i3) ->
  getitem parameters "output_src" = Ok (VStr o1) ->
  getitem parameters "output_tgt" = Ok (VStr o2) ->
  getitem parameters "output_ranks" = Ok (VStr o3) ->
  isfile (fs st) i1 = true -> isfile (fs st) i2 = true -> isfile (fs st) i3 = true ->
  NoDup [o1; o2; o3] ->
  (forall i, i ∈ [i1; i2; i3] -> i ∉ [o1; o2; o3]) ->
  let rows := ranked_rows (fs st) i1 i2 i3 in
  let r := order_by_rank R self parameters overwrite st in
  snd r = Ok tt /\
  files (fs (fst r)) !! o1 = Some (column row_src rows) /\
  files (fs (fst r)) !! o2 = Some (column row_tgt rows) /\
  files (fs (fst r)) !! o3 = Some (column row_rank rows).
Proof.
  intros Hi1 Hi2 Hi3 Ho1 Ho2 Ho3 Hf1 Hf2 Hf3 Hnd Hio rows r.
  assert (o1 <> o2 /\ o1 <> o3 /\ o2 <> o3) as (H12 & H13 & H23).
  { apply NoDup_cons in Hnd as [Hn1 Hnd]. apply NoDup_cons in Hnd as [Hn2 _].
    set_solver. }
  assert (forall i, i ∈ [i1; i2; i3] -> i <> o1 /\ i <> o2 /\ i <> o3) as Hio'.
  { intros i Hi. specialize (Hio i Hi). set_solver. }
  subst r. rewrite (order_by_rank_run _ _ _ _ i1 i2 i3 o1 o2 o3) by done.
  cbn zeta.
  set (f := fs_open_w o3 (fs_open_w o2 (fs_open_w o1 (fs st)))).
  assert (ranked_rows f i1 i2 i3 = rows) as ->.
  { subst rows f. unfold ranked_rows.
    destruct (Hio' i1) as (? & ? & ?); [set_solver|].
    destruct (Hio' i2) as (? & ? & ?); [set_solver|].
    destruct (Hio' i3) as (? & ? & ?); [set_solver|].
    by rewrite !fs_text_open_w_ne. }
  destruct (write_rows_spec o1 o2 o3 EmptyString EmptyString EmptyString rows
              (mkState f (rng st))) as (Hr & _ & H1 & H2 & H3 & _); try done.
  - subst f; cbn [fs]. rewrite !files_open_w_ne by done. apply files_open_w_eq.
  - subst f; cbn [fs]. rewrite files_open_w_ne by done. apply files_open_w_eq.
  - subst f; cbn [fs]. apply files_open_w_eq.
Qed.
End OrderByRank.

(** C1, as amended.  With the ranks 3, 1, 2 next to the source lines
    A, B, C and any three target lines, [order_by_rank] writes the source
    lines in the order A, C, B, the ranks in the order 3, 2, 1 and the
    target lines accordingly: the row of rank 3 is the one of A, that of
    rank 2 the one of C. *)
Theorem order_by_rank_scenario (R : Random) (self : OpusFilter) (overwrite : bool)
    (st : State R) (parameters : value)
    (i1 i2 i3 o1 o2 o3 tgt t1 t2 t3 : string) :
  getitem parameters "input_src" = Ok (VStr i1) ->
  getitem parameters "input_tgt" = Ok (VStr i2) ->
  getitem parameters "input_ranks" = Ok (VStr i3) ->
  getitem parameters "output_src" = Ok (VStr o1) ->
  getitem parameters "output_tgt" = Ok (VStr o2) ->
  getitem parameters "output_ranks" = Ok (VStr o3) ->
  files (fs st) !! i1 = Some (text3 "A" "B" "C") ->
  files (fs st) !! i2 = Some tgt ->
  Py.splitlines (Py.universal_newlines tgt) = [t1; t2; t3] ->
  files (fs st) !! i3 = Some (text3 "3" "1" "2") ->
  NoDup [o1; o2; o3] ->
  (forall i, i ∈ [i1; i2; i3] -> i ∉ [o1; o2; o3]) ->
  let r := order_by_rank R self parameters overwrite st in
  snd r = Ok tt /\
  files (fs (fst r)) !! o1 = Some (text3 "A" "C" "B") /\
  Py.splitlines (fs_text (fs (fst r)) o1) = ["A"; "C"; "B"] /\
  files (fs (fst r)) !! o2 = Some (text3 t1 t3 t2) /\
  files (fs (fst r)) !! o3 = Some (text3 "3" "2" "1").
Proof.
  intros Hi1 Hi2 Hi3 Ho1 Ho2 Ho3 Hs Ht Htl Hr Hnd Hio r.
  destruct (order_by_rank_spec (R:=R) self parameters overwrite st i1 i2 i3 o1 o2 o3)
    as (Hok & H1 & H2 & H3); eauto using isfile_Some.
  assert (ranked_rows (fs st) i1 i2 i3 = [("A", t1, "3"); ("C", t3, "2"); ("B", t2, "1")])
    as Hrows.
  { unfold ranked_rows.
    rewrite (fs_text_Some _ _ _ Hs), (fs_text_Some _ _ _ Ht), (fs_text_Some _ _ _ Hr), Htl.
    reflexivity. }
  rewrite Hrows in H1, H2, H3. subst r.
  split; [done|]. split; [rewrite H1; reflexivity|]. split.
  - rewrite (fs_text_Some _ _ _ H1). reflexivity.
  - split; [|rewrite H3; reflexivity].
    rewrite H2. unfold column, text3. cbn [map Py.concat row_tgt fst snd].
    by rewrite !app_assoc_str, app_empty_r.
Qed.

Lemma order_by_rank_scenario_witness :
  let r := order_by_rank counter_random here scenario2_parameters false scenario2_state in
  snd r = Ok tt /\
  files (fs (fst r)) !! "src.sorted" = Some (text3 "A" "C" "B") /\
  Py.splitlines (fs_text (fs (fst r)) "src.sorted") = ["A"; "C"; "B"] /\
  files (fs (fst r)) !! "tgt.sorted" = Some (text3 "x" "z" "y") /\
  files (fs (fst r)) !! "ranks.sorted" = Some (text3 "3" "2" "1").
Proof.
  apply (order_by_rank_scenario counter_random here false scenario2_state
           scenario2_parameters "src" "tgt" "ranks" "src.sorted" "tgt.sorted"
           "ranks.sorted" (text3 "x" "y" "z") "x" "y" "z");
    try reflexivity.
  - vm_compute. repeat constructor; set_solver.
  - intros i Hi. vm_compute in Hi. set_solver.
Defined.

(** C1, as stated, fails: the source output of the scenario is not the
    sequence C, A, B. *)
Lemma order_by_rank_scenario_not_CAB :
  let r := order_by_rank counter_random here scenario2_parameters false scenario2_state in
  snd r = Ok tt /\
  Py.splitlines (fs_text (fs (fst r)) "src.sorted") <> ["C"; "A"; "B"].
Proof. vm_compute. split; [reflexivity | discriminate]. Qed.

(** ** Dispatch *)

Section Dispatch.
Context {R : Random} {X : Collaborators}.
Implicit Types st : State R.

Lemma list_index_minus_one {A} (l : list A) : list_index l (-1) = last l.
Proof.
  unfold list_index. rewrite last_lookup.
  destruct l as [|x l]; [reflexivity|].
  cbn [length]. replace (-1 <? 0)%Z with true by reflexivity.
  destruct (Z.ltb_spec (-1 + Z.of_nat (S (length l))) 0) as [Hlt|Hge]; [lia|].
  f_equal. lia.
Qed.

Lemma execute_step_index self num overwrite st steps i :
  getitem (configuration self) "steps" = Ok (VList steps) ->
  (if (num <? 0)%Z then num else (num - 1)%Z) = i ->
  execute_step R X self num overwrite st
  = match list_index steps i with
    | Some step => run_step R X self step overwrite st
    | None => (st, Err IndexError)
    end.
Proof.
  intros Hs Hi. unfold execute_step. rewrite Hs, Hi. cbn [rbind subscript].
  unfold bind at 1, lift. by destruct (list_index steps i).
Qed.

(** Without a [last] bound the loop goes through a list by going
    through its front and then through its back. *)
Lemma execute_steps_from_app self overwrite num pre rest st :
  execute_steps_from R X self overwrite None num (pre ++ rest) st
  = match execute_steps_from R X self overwrite None num pre st with
    | (st', Ok _) => execute_steps_from R X self overwrite None (num + length pre) rest st'
    | (st', Err e) => (st', Err e)
    end.
Proof.
  revert num st. induction pre as [|step pre IH]; intros num st.
  - cbn. by rewrite Nat.add_0_r.
  - cbn [app execute_steps_from length]. unfold bind.
    destruct (run_step R X self step overwrite st) as [st1 [[]|e]]; [|done].
    rewrite IH. by replace (S num + length pre) with (num + S (length pre)) by lia.
Qed.

(** A step whose kind is in the table is run by calling the handler of
    that kind on the parameters of the step. *)
Lemma run_step_handler self overwrite step kind (h : handler R) parameters st :
  getitem step "type" = Ok kind ->
  step_function R X self kind = Ok h ->
  getitem step "parameters" = Ok parameters ->
  run_step R X self step overwrite st = h parameters overwrite st.
Proof.
  intros Hk Hh Hp. unfold run_step.
  by rewrite (lift_Ok _ _ _ _ Hk), (lift_Ok _ _ _ _ Hh), (lift_Ok _ _ _ _ Hp).
Qed.

(** The numbers 0 and -1 select the same index, whatever the
    configuration. *)
Lemma execute_step_zero_as_minus_one self overwrite st :
  execute_step R X self 0 overwrite st = execute_step R X self (-1) overwrite st.
Proof. reflexivity. Qed.

Lemma run_step_unknown self overwrite step kind st :
  getitem step "type" = Ok (VStr kind) ->
  assoc kind (step_functions R X self) = None ->
  run_step R X self step overwrite st = (st, Err (KeyError (VStr kind))).
Proof.
  intros Hk Hn. unfold run_step. rewrite (lift_Ok _ _ _ _ Hk).
  unfold step_function. by rewrite Hn.
Qed.
End Dispatch.

(** C2, as amended.  When the step list holds a step of a kind that is
    not in the table, the full run first goes through the steps before
    it, in order, with their effects; if they all return, the run then
    raises [KeyError] for the unknown kind, at the state those steps have
    left, and neither that step nor a later one is run.  If one of the
    earlier steps raises, the run ends there with that exception. *)
Theorem execute_steps_unknown_kind (R : Random) (X : Collaborators) (self : OpusFilter)
    (overwrite : bool) (st : State R) (pre post : list value) (bad : value) (kind : string) :
  getitem (configuration self) "steps" = Ok (VList (pre ++ bad :: post)) ->
  getitem bad "type" = Ok (VStr kind) ->
  assoc kind (step_functions R X self) = None ->
  execute_steps R X self overwrite None st
  = match execute_steps_from R X self overwrite None 0 pre st with
    | (st', Ok _) => (st', Err (KeyError (VStr kind)))
    | (st', Err e) => (st', Err e)
    end.
Proof.
  intros Hs Hk Hn. unfold execute_steps. rewrite Hs. cbn [rbind py_iter].
  rewrite (lift_Ok _ _ _ _ eq_refl), execute_steps_from_app.
  destruct (execute_steps_from R X self overwrite None 0 pre st) as [st' [[]|e]]; [|done].
  cbn [execute_steps_from]. unfold bind.
  by rewrite (run_step_unknown self overwrite bad kind st' Hk Hn).
Qed.

Lemma execute_steps_unknown_kind_witness :
  execute_steps counter_random idle_collaborators bogus_pipeline false None bogus_state
  = match execute_steps_from counter_random idle_collaborators bogus_pipeline false None 0
            [concatenate_step] bogus_state with
    | (st', Ok _) => (st', Err (KeyError (VStr "bogus")))
    | (st', Err e) => (st', Err e)
    end.
Proof.
  apply (execute_steps_unknown_kind counter_random idle_collaborators bogus_pipeline false
           bogus_state [concatenate_step] [] bogus_step "bogus"); reflexivity.
Defined.

(** C2, as stated, fails: the run of [bogus_pipeline] raises the
    [KeyError] only after the handler of its first step has created and
    filled the file [./all]. *)
Lemma execute_steps_runs_earlier_steps :
  let r := execute_steps counter_random idle_collaborators bogus_pipeline false None
             bogus_state in
  snd r = Err (KeyError (VStr "bogus")) /\
  journal (fs bogus_state) = [] /\
  journal (fs (fst r)) = [Truncate "./all"; Append "./all" (newline_text "x")] /\
  files (fs bogus_state) !! "./all" = None /\
  files (fs (fst r)) !! "./all" = Some (newline_text "x").
Proof. vm_compute. repeat split. Qed.

(** C10.  On a configuration with at least one step, [execute_step] with
    the number 0 executes the last step of the list: it calls the handler
    of the kind of that step on the parameters of that step, and its
    outcome is the outcome of that call.  It is the outcome of
    [execute_step] with the number -1 as well. *)
Theorem execute_step_zero_runs_last (R : Random) (X : Collaborators) (self : OpusFilter)
    (overwrite : bool) (st : State R) (steps : list value) (step kind : value)
    (h : handler R) (parameters : value) :
  getitem (configuration self) "steps" = Ok (VList steps) ->
  last steps = Some step ->
  getitem step "type" = Ok kind ->
  step_function R X self kind = Ok h ->
  getitem step "parameters" = Ok parameters ->
  execute_step R X self 0 overwrite st = h parameters overwrite st /\
  execute_step R X self (-1) overwrite st = h parameters overwrite st.
Proof.
  intros Hs Hlast Hk Hh Hp.
  rewrite <- (execute_step_zero_as_minus_one self overwrite st).
  rewrite (execute_step_index self 0 overwrite st steps (-1) Hs eq_refl).
  rewrite list_index_minus_one, Hlast.
  by rewrite (run_step_handler self overwrite step kind h parameters st Hk Hh Hp).
Qed.

Lemma execute_step_zero_runs_last_witness :
  execute_step counter_random idle_collaborators two_steps 0 false scenario2_state
  = order_by_rank counter_random two_steps scenario2_parameters false scenario2_state /\
  execute_step counter_random idle_collaborators two_steps (-1) false scenario2_state
  = order_by_rank counter_random two_steps scenario2_parameters false scenario2_state.
Proof.
  apply (execute_step_zero_runs_last counter_random idle_collaborators two_steps false
           scenario2_state [concatenate_step; rank_step] rank_step (VStr "order_by_rank")
           (order_by_rank counter_random two_steps) scenario2_parameters);
    reflexivity.
Defined.

(** The run of the witness, spelled out: with the number 0 the second
    and last step of [two_steps] sorts the rows by rank, and the first
    step is not run, so that its output [./all] is not created. *)
Example execute_step_zero_example :
  let r := execute_step counter_random idle_collaborators two_steps 0 false scenario2_state in
  snd r = Ok tt /\
  files (fs (fst r)) !! "src.sorted" = Some (text3 "A" "C" "B") /\
  files (fs (fst r)) !! "ranks.sorted" = Some (text3 "3" "2" "1") /\
  files (fs (fst r)) !! "./all" = None.
Proof. vm_compute. repeat split. Qed.

(** *** What [order_by_rank] does whatever [overwrite] and the directory *)

Section OrderByRankAlways.
Context {R : Random}.
Implicit Types st : State R.

Lemma write_rows_journal (o1 o2 o3 : string) rows st :
  journal (fs (fst (write_rows R o1 o2 o3 rows st)))
  = journal (fs st)
    ++ flat_map (fun r => [Append o1 (row_src r +:+ Py.nl); Append o2 (row_tgt r +:+ Py.nl);
                           Append o3 (row_rank r +:+ Py.nl)]) rows.
Proof.
  revert st. induction rows as [|[[s t] k] rows IH]; intros st.
  - cbn. by rewrite app_nil_r.
  - cbn [write_rows]. rewrite !write_Ok, IH. cbn. by rewrite <- !app_assoc.
Qed.

(** Once its parameters and inputs are there, [order_by_rank] empties its
    three outputs and writes every row, for either value of [overwrite]
    and whether the outputs exist or not. *)
Lemma order_by_rank_never_skips self parameters overwrite st (i1 i2 i3 o1 o2 o3 : string) :
  getitem parameters "input_src" = Ok (VStr i1) ->
  getitem parameters "input_tgt" = Ok (VStr i2) ->
  getitem parameters "input_ranks" = Ok (VStr i3) ->
  getitem parameters "output_src" = Ok (VStr o1) ->
  getitem parameters "output_tgt" = Ok (VStr o2) ->
  getitem parameters "output_ranks" = Ok (VStr o3) ->
  isfile (fs st) i1 = true -> isfile (fs st) i2 = true -> isfile (fs st) i3 = true ->
  exists rows,
    journal (fs (fst (order_by_rank R self parameters overwrite st)))
    = journal (fs st) ++ [Truncate o1; Truncate o2; Truncate o3]
      ++ flat_map (fun r => [Append o1 (row_src r +:+ Py.nl); Append o2 (row_tgt r +:+ Py.nl);
                             Append o3 (row_rank r +:+ Py.nl)]) rows.
Proof.
  intros Hi1 Hi2 Hi3 Ho1 Ho2 Ho3 Hf1 Hf2 Hf3.
  rewrite (order_by_rank_run _ _ _ _ i1 i2 i3 o1 o2 o3) by done.
  eexists. cbn zeta. rewrite write_rows_journal. cbn. by rewrite <- !app_assoc.
Qed.

(** The working directory has no part in [order_by_rank]. *)
Lemma order_by_rank_any_directory (self self' : OpusFilter) parameters overwrite st :
  order_by_rank R self parameters overwrite st = order_by_rank R self' parameters overwrite st.
Proof. reflexivity. Qed.
End OrderByRankAlways.

(** ** The output-exists guard *)

Section Guard.
Context {R : Random} {X : Collaborators}.
Implicit Types st : State R.

Lemma path_item_Ok {B} self parameters k s (c : string -> M R B) st :
  getitem parameters k = Ok (VStr s) ->
  bind (path_item R self parameters k) c st = c (Py.path_join (output_dir self) s) st.
Proof. intros Hk. unfold path_item. rewrite Hk. reflexivity. Qed.

(** With [overwrite] off and the declared outputs present, the handlers
    that carry the guard return at once and leave the state as it is. *)
Lemma filter_data_skips self parameters st so to :
  getitem parameters "src_output" = Ok (VStr so) ->
  getitem parameters "tgt_output" = Ok (VStr to) ->
  isfile (fs st) (Py.path_join (output_dir self) so) = true ->
  isfile (fs st) (Py.path_join (output_dir self) to) = true ->
  filter_data R X self parameters false st = (st, Ok tt).
Proof.
  intros Hso Hto Hfs Hft. unfold filter_data.
  rewrite (path_item_Ok _ _ _ _ _ _ Hso), (path_item_Ok _ _ _ _ _ _ Hto), get_fs_bind.
  by rewrite Hfs, Hft.
Qed.

Lemma read_from_opus_skips self parameters st so to :
  getitem parameters "src_output" = Ok (VStr so) ->
  getitem parameters "tgt_output" = Ok (VStr to) ->
  isfile (fs st) (Py.path_join (output_dir self) so) = true ->
  isfile (fs st) (Py.path_join (output_dir self) to) = true ->
  read_from_opus R X self parameters false st = (st, Ok tt).
Proof.
  intros Hso Hto Hfs Hft. unfold read_from_opus.
  rewrite (path_item_Ok _ _ _ _ _ _ Hso), (path_item_Ok _ _ _ _ _ _ Hto), get_fs_bind.
  by rewrite Hfs, Hft.
Qed.

Lemma get_subset_skips self parameters st si ti so to :
  getitem parameters "src_input" = Ok (VStr si) ->
  getitem parameters "tgt_input" = Ok (VStr ti) ->
  getitem parameters "src_output" = Ok (VStr so) ->
  getitem parameters "tgt_output" = Ok (VStr to) ->
  isfile (fs st) (Py.path_join (output_dir self) so) = true ->
  isfile (fs st) (Py.path_join (output_dir self) to) = true ->
  get_subset R self parameters false st = (st, Ok tt).
Proof.
  intros Hsi Hti Hso Hto Hfs Hft. unfold get_subset.
  rewrite (path_item_Ok _ _ _ _ _ _ Hsi), (path_item_Ok _ _ _ _ _ _ Hti),
    (path_item_Ok _ _ _ _ _ _ Hso), (path_item_Ok _ _ _ _ _ _ Hto), get_fs_bind.
  by rewrite Hfs, Hft.
Qed.

Lemma single_output_skips (h : OpusFilter -> value -> bool -> M R unit) key self parameters st o :
  h = concatenate R /\ key = "output" \/ h = train_ngram R X /\ key = "model" \/
  h = train_alignment R X /\ key = "output" \/ h = score_data R X /\ key = "output" ->
  getitem parameters key = Ok (VStr o) ->
  isfile (fs st) (Py.path_join (output_dir self) o) = true ->
  h self parameters false st = (st, Ok tt).
Proof.
  intros Hh Ho Hf.
  destruct Hh as [[-> ->]|[[-> ->]|[[-> ->]|[-> ->]]]];
    unfold concatenate, train_ngram, train_alignment, score_data;
    rewrite (path_item_Ok _ _ _ _ _ _ Ho), get_fs_bind; by rewrite Hf.
Qed.
End Guard.

(** C3.  [order_by_rank] has no guard: run twice with [overwrite] off, it
    finds its three outputs present the second time and empties and
    rewrites them all the same, where [filter_data] and the other guarded
    handlers return at once (lemmas [filter_data_skips] and the like). *)
Theorem order_by_rank_second_run_rewrites :
  let r1 := order_by_rank counter_random here scenario2_parameters false scenario2_state in
  let r2 := order_by_rank counter_random here scenario2_parameters false (fst r1) in
  snd r1 = Ok tt /\
  isfile (fs (fst r1)) "src.sorted" && isfile (fs (fst r1)) "tgt.sorted"
    && isfile (fs (fst r1)) "ranks.sorted" = true /\
  snd r2 = Ok tt /\
  journal (fs (fst r2))
  = journal (fs (fst r1))
    ++ [Truncate "src.sorted"; Truncate "tgt.sorted"; Truncate "ranks.sorted";
        Append "src.sorted" (newline_text "A"); Append "tgt.sorted" (newline_text "x");
        Append "ranks.sorted" (newline_text "3");
        Append "src.sorted" (newline_text "C"); Append "tgt.sorted" (newline_text "z");
        Append "ranks.sorted" (newline_text "2");
        Append "src.sorted" (newline_text "B"); Append "tgt.sorted" (newline_text "y");
        Append "ranks.sorted" (newline_text "1")].
Proof. vm_compute. repeat split. Qed.

(** C4.  [order_by_rank] opens the names of its parameters as they
    stand.  With the working directory [work] it does not find inputs that
    are in [work] only; with files of the same names in the current
    directory it reads those and writes its outputs next to them, not
    into [work].  [concatenate], like the other handlers, reads [work/src]
    and writes [work/all]. *)
Theorem order_by_rank_ignores_output_dir :
  snd (order_by_rank counter_random work scenario2_parameters false work_state)
    = Err (FileNotFoundError "src") /\
  (let r := order_by_rank counter_random work scenario2_parameters false both_state in
   snd r = Ok tt /\
   files (fs (fst r)) !! "src.sorted" = Some (text3 "R" "Q" "P") /\
   files (fs (fst r)) !! "work/src.sorted" = None) /\
  (let r := concatenate counter_random work concatenate_src false work_state in
   snd r = Ok tt /\
   files (fs (fst r)) !! "work/all" = Some (text3 "A" "B" "C") /\
   files (fs (fst r)) !! "all" = None).
Proof. vm_compute. repeat split. Qed.

(** ** The pair generator *)

Lemma readline_zip_length (src tgt : list string) :
  length (readline_zip src tgt) = length src.
Proof.
  revert tgt. induction src as [|s src IH]; intros tgt; [reflexivity|].
  destruct tgt; cbn; by rewrite IH.
Qed.

Lemma readline_zip_lookup (src tgt : list string) (i : nat) :
  readline_zip src tgt !! i
  = (fun s => (s, default EmptyString (tgt !! i))) <$> src !! i.
Proof.
  revert tgt i. induction src as [|s src IH]; intros tgt i; [reflexivity|].
  destruct tgt as [|t tgt], i as [|i]; cbn; try reflexivity.
  - rewrite IH. by destruct (src !! i).
  - by rewrite IH.
Qed.

(** C7.  On two files that exist, [pair_generator] yields one pair for
    each line of the source file and then stops; the pair of a source line
    holds that line and the target line of the same position, both
    stripped on the right and tokenized.  Past the end of the target file
    the target line is the empty string, so that the pair holds what the
    tokenizer makes of the empty line (the empty string itself when no
    tokenizer is configured), and nothing is raised. *)
Theorem pair_generator_one_pair_per_source_line (X : Collaborators) (f : FS)
    (source_file_name target_file_name : string) (src_tokenizer tgt_tokenizer : value)
    (src_tokenize tgt_tokenize : string -> value) :
  get_tokenize X src_tokenizer = Ok src_tokenize ->
  get_tokenize X tgt_tokenizer = Ok tgt_tokenize ->
  isfile f source_file_name = true ->
  isfile f target_file_name = true ->
  exists pairs,
    pair_generator X source_file_name target_file_name src_tokenizer tgt_tokenizer f
      = Ok pairs /\
    length pairs = length (fs_lines f source_file_name) /\
    (forall i s, fs_lines f source_file_name !! i = Some s ->
       pairs !! i
       = Some (src_tokenize (Py.rstrip s),
               tgt_tokenize (Py.rstrip (default EmptyString
                                          (fs_lines f target_file_name !! i))))) /\
    (forall i p, length (fs_lines f target_file_name) <= i -> pairs !! i = Some p ->
       snd p = tgt_tokenize EmptyString /\
       (tgt_tokenizer = VNone -> snd p = VStr EmptyString)).
Proof.
  intros Hs Ht Hfs Hft. eexists. split.
  { unfold pair_generator. rewrite Hs, Ht. cbn [rbind]. rewrite Hfs, Hft. reflexivity. }
  split; [by rewrite length_map, readline_zip_length|]. split.
  - intros i s Hi. rewrite list_lookup_fmap, readline_zip_lookup, Hi. reflexivity.
  - intros i p Hi Hp. rewrite list_lookup_fmap, readline_zip_lookup in Hp.
    destruct (fs_lines f source_file_name !! i) as [s|]; [|discriminate].
    rewrite (lookup_ge_None_2 _ _ Hi) in Hp. cbn in Hp. injection Hp as <-.
    cbn [snd]. split; [reflexivity|].
    intros ->. cbn in Ht. by injection Ht as <-.
Qed.

Lemma pair_generator_one_pair_per_source_line_witness :
  exists pairs,
    pair_generator idle_collaborators "src" "tgt" VNone VNone ragged_fs = Ok pairs /\
    length pairs = length (fs_lines ragged_fs "src") /\
    (forall i s, fs_lines ragged_fs "src" !! i = Some s ->
       pairs !! i
       = Some (VStr (Py.rstrip s),
               VStr (Py.rstrip (default EmptyString (fs_lines ragged_fs "tgt" !! i))))) /\
    (forall i p, length (fs_lines ragged_fs "tgt") <= i -> pairs !! i = Some p ->
       snd p = VStr EmptyString /\ (VNone = VNone -> snd p = VStr EmptyString)).
Proof.
  apply (pair_generator_one_pair_per_source_line idle_collaborators ragged_fs "src" "tgt"
           VNone VNone VStr VStr); reflexivity.
Defined.

(** ** Subset sampling *)

Lemma fold_enumerate_last {A} (l : list A) (k : nat) (acc : Z) :
  fold_left (fun _ p => Z.of_nat (fst p)) (imap (fun i x => (k + i, x)) l) acc
  = match l with
    | [] => acc
    | _ => (Z.of_nat (k + length l) - 1)%Z
    end.
Proof.
  revert k acc. induction l as [|x l IH]; intros k acc; [reflexivity|].
  cbn [imap fold_left fst length].
  rewrite (imap_ext _ (fun i x => (S k + i, x))) by (intros; cbn; f_equal; lia).
  rewrite IH. destruct l; cbn [length]; lia.
Qed.

Lemma count_lines_length {A} (fobj : list A) : count_lines fobj = Z.of_nat (length fobj).
Proof.
  unfold count_lines.
  rewrite (imap_ext _ (fun i x => (0 + i, x))) by done.
  rewrite fold_enumerate_last. destruct fobj; cbn [length]; lia.
Qed.

Section Subset.
Context {R : Random}.
Implicit Types st : State R.

Lemma get_total_lines_Ok {B} fname (k : nat -> M R B) st :
  isfile (fs st) fname = true ->
  bind (_get_total_lines R fname) k st = k (length (fs_lines (fs st) fname)) st.
Proof.
  intros Hf. unfold _get_total_lines, lines_of, bind, get_fs, ret.
  rewrite (file_open_Ok _ _ Hf).
  by rewrite count_lines_length, Nat2Z.id.
Qed.

Lemma sample_too_large {B} total (K : Z) (k : list nat -> M R B) st :
  (Z.of_nat total < K)%Z ->
  bind (sample R total (VInt K)) k st = (st, Err ValueError).
Proof.
  intros HK. unfold sample, bind, lift, raise. cbn [as_int].
  destruct (Z.ltb_spec (Z.of_nat total) K); [|lia]. by rewrite orb_true_r.
Qed.

Lemma seed_bind {B} (a : value) (k : unit -> M R B) st :
  seedable a = true ->
  bind (seed R a) k st = k tt (mkState (fs st) (random_seed R a (rng st))).
Proof. intros Ha. unfold bind, seed. by rewrite Ha. Qed.

Lemma seed_bind_Err {B} (a : value) (k : unit -> M R B) st :
  seedable a = false -> bind (seed R a) k st = (st, Err TypeError).
Proof. intros Ha. unfold bind, seed. by rewrite Ha. Qed.

Lemma guard_open overwrite (f : FS) so to :
  overwrite = true \/ isfile f so = false \/ isfile f to = false ->
  negb overwrite && isfile f so && isfile f to = false.
Proof.
  intros [->|[->| ->]]; [reflexivity| |]; by rewrite ?andb_false_r.
Qed.
End Subset.

(** C9, as amended.  When the [subset] step is run (that is, [overwrite]
    is on or one of its outputs is missing) on a source file of fewer
    lines than the requested size, it raises and the file system is as it
    was: nothing has been opened for writing.  The exception is the
    [ValueError] of [random.sample]; with a seed that is a list or a dict
    it is the [TypeError] of [random.seed], which comes first.  This
    holds with and without [shuffle_target]. *)
Theorem get_subset_sample_too_large (R : Random) (self : OpusFilter) (parameters : value)
    (overwrite : bool) (st : State R) (si ti so to : string) (K : Z) (a : value) :
  getitem parameters "src_input" = Ok (VStr si) ->
  getitem parameters "tgt_input" = Ok (VStr ti) ->
  getitem parameters "src_output" = Ok (VStr so) ->
  getitem parameters "tgt_output" = Ok (VStr to) ->
  getitem parameters "size" = Ok (VInt K) ->
  dict_get parameters "seed" VNone = Ok a ->
  isfile (fs st) (Py.path_join (output_dir self) si) = true ->
  (Z.of_nat (length (fs_lines (fs st) (Py.path_join (output_dir self) si))) < K)%Z ->
  overwrite = true \/
    isfile (fs st) (Py.path_join (output_dir self) so) = false \/
    isfile (fs st) (Py.path_join (output_dir self) to) = false ->
  let r := get_subset R self parameters overwrite st in
  snd r = Err (if seedable a then ValueError else TypeError) /\ fs (fst r) = fs st.
Proof.
  intros Hsi Hti Hso Hto Hsz Hseed Hf HK Hrun.
  intros r.
  assert (exists g, r = (mkState (fs st) g,
                         Err (if seedable a then ValueError else TypeError)))
    as (g & ->); [|done].
  subst r. unfold get_subset.
  rewrite (path_item_Ok _ _ _ _ _ _ Hsi), (path_item_Ok _ _ _ _ _ _ Hti),
    (path_item_Ok _ _ _ _ _ _ Hso), (path_item_Ok _ _ _ _ _ _ Hto), get_fs_bind.
  rewrite (guard_open _ _ _ _ Hrun). cbv beta iota.
  rewrite (lift_Ok _ _ _ _ Hseed).
  destruct (seedable a) eqn:Ha.
  - rewrite (seed_bind _ _ _ Ha).
    rewrite (lift_Ok _ _ _ _ Hsz).
    destruct parameters as [| | | | |d]; try discriminate.
    cbn [dict_get]. rewrite (lift_Ok _ _ _ _ eq_refl).
    rewrite get_total_lines_Ok by done. cbn [fs].
    eexists. destruct (truthy _); by rewrite sample_too_large.
  - rewrite (seed_bind_Err _ _ _ Ha). exists (rng st). by destruct st.
Qed.

Lemma get_subset_sample_too_large_witness :
  let r := get_subset counter_random here (subset_parameters 4 false) false subset_state in
  snd r = Err ValueError /\ fs (fst r) = fs subset_state.
Proof.
  apply (get_subset_sample_too_large counter_random here (subset_parameters 4 false) false
           subset_state "src" "tgt" "src.sub" "tgt.sub" 4 (VInt 1)); try reflexivity.
  right; left. reflexivity.
Defined.

(** C9, as stated, fails: with [overwrite] off and both outputs there,
    the step asked for four lines of a source of three returns without an
    error, and the state is as it was. *)
Lemma get_subset_too_large_skipped :
  length (fs_lines (fs subset_done_state) "./src") = 3 /\
  get_subset counter_random here (subset_parameters 4 false) false subset_done_state
  = (subset_done_state, Ok tt).
Proof. vm_compute. split; reflexivity. Qed.

(** *** Sorting the sample *)

Lemma insert_sorted_Permutation {A K} (lt : K -> K -> bool) (key : A -> K) x l :
  Permutation (Py.insert_sorted lt key x l) (x :: l).
Proof.
  induction l as [|y l IH]; [done|]. cbn.
  destruct (lt (key y) (key x)); [|done].
  rewrite IH. apply perm_swap.
Qed.

Lemma stable_sort_Permutation {A K} (lt : K -> K -> bool) (key : A -> K) l :
  Permutation (Py.stable_sort lt key l) l.
Proof.
  induction l as [|x l IH]; [done|]. cbn.
  rewrite insert_sorted_Permutation. by constructor.
Qed.

Lemma insert_sorted_nat_Sorted x l :
  Sorted le l -> Sorted le (Py.insert_sorted Nat.ltb (fun i => i) x l).
Proof.
  induction 1 as [|y l Hl IH Hhd]; cbn [Py.insert_sorted]; [by repeat constructor|].
  destruct (Nat.ltb_spec y x) as [Hlt|Hge].
  - constructor; [done|].
    destruct Hhd as [|z l Hz]; cbn [Py.insert_sorted].
    + constructor. lia.
    + destruct (Nat.ltb_spec z x); constructor; lia.
  - constructor; [by constructor|]. by constructor.
Qed.

Lemma stable_sort_nat_Sorted l : Sorted le (Py.stable_sort Nat.ltb (fun i => i) l).
Proof.
  induction l as [|x l IH]; cbn; [constructor|]. by apply insert_sorted_nat_Sorted.
Qed.

Lemma StronglySorted_le_NoDup_lt (l : list nat) :
  StronglySorted le l -> NoDup l -> StronglySorted lt l.
Proof.
  induction 1 as [|x l Hl IH Hx]; intros Hnd; [constructor|].
  apply NoDup_cons in Hnd as [Hnin Hnd].
  constructor; [by apply IH|].
  rewrite Forall_forall in Hx |- *. intros y Hy.
  specialize (Hx y Hy). assert (x <> y) by (intros ->; by apply Hnin). lia.
Qed.

Lemma ascending_stable_sort indices :
  ascending indices = Py.stable_sort Nat.ltb (fun i => i) (rev indices).
Proof. unfold ascending, Py.sorted. apply rev_involutive. Qed.

Lemma ascending_Permutation indices : Permutation (ascending indices) indices.
Proof.
  rewrite ascending_stable_sort, stable_sort_Permutation.
  symmetry. apply Permutation_rev.
Qed.

Lemma ascending_StronglySorted indices :
  NoDup indices -> StronglySorted lt (ascending indices).
Proof.
  intros Hnd. apply StronglySorted_le_NoDup_lt.
  - rewrite ascending_stable_sort. apply Sorted_StronglySorted; [|apply stable_sort_nat_Sorted].
    intros ? ? ?; lia.
  - by rewrite ascending_Permutation.
Qed.

(** *** Extraction *)

Lemma pop_rev_cons {A} (x : A) (l : list A) : Py.pop (rev (x :: l)) = Some (x, rev l).
Proof. unfold Py.pop. by rewrite rev_involutive. Qed.

Lemma yield_loop_sublist {A} (items : list A) idx cur remaining :
  sublist (yield_loop items idx cur remaining) items.
Proof.
  revert idx cur remaining. induction items as [|x items IH]; intros idx cur remaining.
  - constructor.
  - cbn. destruct (Nat.eqb idx cur).
    + apply sublist_skip_cons || constructor.
      destruct (Py.pop remaining) as [[c r]|]; [apply IH | apply sublist_nil_l].
    + constructor. apply IH.
Qed.

Lemma yield_subset_sublist {A} (items : list A) indices :
  sublist (_yield_subset items indices) items.
Proof.
  unfold _yield_subset. destruct indices; [apply sublist_nil_l|].
  destruct (Py.pop _) as [[c r]|]; [apply yield_loop_sublist | apply sublist_nil_l].
Qed.

Lemma yield_loop_spec {A} (items : list A) idx c rest :
  StronglySorted lt (c :: rest) ->
  idx <= c ->
  Forall (fun i => i < idx + length items) (c :: rest) ->
  Forall2 (fun y i => idx <= i /\ items !! (i - idx) = Some y)
          (yield_loop items idx c (rev rest)) (c :: rest).
Proof.
  revert idx c rest. induction items as [|x items IH]; intros idx c rest Hs Hle Hb.
  - apply Forall_cons in Hb as [Hc _]. cbn in Hc. lia.
  - assert (forall out l, Forall2 (fun y i => S idx <= i /\ items !! (i - S idx) = Some y) out l ->
                     Forall2 (fun y i => idx <= i /\ (x :: items) !! (i - idx) = Some y) out l)
      as Hshift.
    { intros out l Hout. eapply Forall2_impl; [exact Hout|].
      intros y i [Hi Hy]. split; [lia|].
      replace (i - idx) with (S (i - S idx)) by lia. done. }
    assert (Forall (fun i => i < S idx + length items) (c :: rest)) as Hb'.
    { eapply Forall_impl; [exact Hb|]. cbn. intros; lia. }
    cbn [yield_loop]. destruct (Nat.eqb_spec idx c) as [->|Hne].
    + constructor; [split; [done|]; by rewrite Nat.sub_diag|].
      apply StronglySorted_inv in Hs as [Hs Hc].
      destruct rest as [|c' rest]; [constructor|].
      rewrite pop_rev_cons. apply Hshift, IH; [done| |].
      * apply Forall_cons in Hc as [Hc _]. lia.
      * by apply Forall_cons in Hb' as [_ Hb'].
    + apply Hshift, IH; [done|lia|done].
Qed.

(** [_yield_subset] yields the items at the indices of the sample, in
    ascending order of the indices. *)
Lemma yield_subset_spec {A} (items : list A) indices :
  NoDup indices ->
  Forall (fun i => i < length items) indices ->
  Forall2 (fun y i => items !! i = Some y) (_yield_subset items indices) (ascending indices).
Proof.
  intros Hnd Hb. unfold _yield_subset.
  pose proof (ascending_StronglySorted indices Hnd) as Hs.
  pose proof (ascending_Permutation indices) as Hp.
  destruct indices as [|i0 indices].
  { apply Permutation_nil_r in Hp as ->. constructor. }
  fold (ascending (i0 :: indices)).
  destruct (ascending (i0 :: indices)) as [|c rest] eqn:Hasc.
  { by apply Permutation_nil_cons in Hp. }
  replace (Py.sorted Nat.ltb (fun i => i) true (i0 :: indices)) with (rev (c :: rest)).
  2:{ rewrite <- Hasc. unfold ascending. by rewrite rev_involutive. }
  rewrite pop_rev_cons.
  eapply Forall2_impl; [apply yield_loop_spec; [done|lia|]|].
  - cbn [Nat.add]. by rewrite Hp.
  - cbn beta. intros y i [_ Hy]. by rewrite Nat.sub_0_r in Hy.
Qed.

(** *** Lines *)

Lemma readlines_lines_ok (s : string) : lines_ok (Py.readlines s).
Proof.
  induction s as [|c s IH]; cbn [Py.readlines]; [constructor|].
  destruct (Py.is_newline c) eqn:Hc.
  - apply lines_ok_cons; [|done]. cbn. by rewrite Hc.
  - destruct (Py.readlines s) as [|l ls].
    + apply lines_ok_partial. unfold is_partial. cbn. by rewrite Hc.
    + inversion IH as [|l' Hp|l' ls' Hl Hls]; subst.
      * apply lines_ok_partial. unfold is_partial in *. cbn.
        rewrite Hc. cbn. by apply andb_true_iff in Hp as [_ ->].
      * apply lines_ok_cons; [|done]. cbn. by rewrite Hc.
Qed.

Lemma readlines_complete_app (l s : string) :
  is_complete l = true -> Py.readlines (l +:+ s) = l :: Py.readlines s.
Proof.
  induction l as [|c l IH]; [done|]. cbn [is_complete]. rewrite app_cons.
  cbn [Py.readlines]. destruct (Py.is_newline c).
  - intros ->%String.eqb_eq. reflexivity.
  - intros Hl. by rewrite (IH Hl).
Qed.

Lemma readlines_partial (l : string) : is_partial l = true -> Py.readlines l = [l].
Proof.
  unfold is_partial. induction l as [|c l IH]; [done|].
  cbn. intros Hl. destruct (Py.is_newline c); [done|].
  destruct l as [|c' l]; [done|]. by rewrite IH.
Qed.

Lemma readlines_concat (ls : list string) :
  lines_ok ls -> Py.readlines (Py.concat ls) = ls.
Proof.
  induction 1 as [|l Hl|l ls Hl Hls IH]; cbn [Py.concat].
  - done.
  - rewrite app_empty_r. by apply readlines_partial.
  - by rewrite readlines_complete_app, IH.
Qed.

Lemma lines_ok_sublist (l1 l2 : list string) :
  sublist l1 l2 -> lines_ok l2 -> lines_ok l1.
Proof.
  induction 1 as [|x l1 l2 Hsub IH|x l1 l2 Hsub IH]; intros Hok.
  - constructor.
  - inversion Hok as [|l' Hp|l' ls' Hl Hls]; subst.
    + apply sublist_nil_r in Hsub as ->. by constructor.
    + apply lines_ok_cons; auto.
  - apply IH. inversion Hok; subst; [constructor|done].
Qed.

Lemma universal_newlines_no_cr_upto (n : nat) (s : string) :
  String.length s <= n -> has_cr (Py.universal_newlines s) = false.
Proof.
  revert s. induction n as [|n IH]; intros [|c s] Hn; cbn in Hn; try done; try lia.
  cbn [Py.universal_newlines].
  destruct (Ascii.eqb c Py.carriage_return) eqn:Hc.
  - destruct s as [|c' s]; [done|]. cbn in Hn.
    destruct (Ascii.eqb c' Py.newline); cbn [has_cr]; rewrite IH; cbn; try done; lia.
  - cbn [has_cr]. rewrite Hc, IH; [done|lia].
Qed.

Lemma universal_newlines_no_cr (s : string) : has_cr (Py.universal_newlines s) = false.
Proof. by apply (universal_newlines_no_cr_upto (String.length s)). Qed.

Lemma universal_newlines_id (s : string) :
  has_cr s = false -> Py.universal_newlines s = s.
Proof.
  induction s as [|c s IH]; [done|]. cbn [has_cr Py.universal_newlines].
  intros [Hc Hs]%orb_false_iff. rewrite Hc. by rewrite IH.
Qed.

Lemma has_cr_app (s t : string) : has_cr (s +:+ t) = has_cr s || has_cr t.
Proof.
  induction s as [|c s IH]; [done|]. rewrite app_cons. cbn [has_cr].
  by rewrite IH, orb_assoc.
Qed.

Lemma concat_readlines (s : string) : Py.concat (Py.readlines s) = s.
Proof.
  induction s as [|c s IH]; [done|]. cbn [Py.readlines].
  destruct (Py.is_newline c).
  - cbn [Py.concat]. rewrite IH. reflexivity.
  - destruct (Py.readlines s) as [|l ls].
    + cbn in IH. subst s. reflexivity.
    + cbn [Py.concat] in *. rewrite app_cons. by rewrite IH.
Qed.

Lemma has_cr_concat (ls : list string) :
  has_cr (Py.concat ls) = false <-> Forall (fun l => has_cr l = false) ls.
Proof.
  induction ls as [|l ls IH]; cbn [Py.concat].
  - split; [constructor|done].
  - rewrite has_cr_app, orb_false_iff, IH, Forall_cons. done.
Qed.

Lemma Forall_of_sublist {A} (P : A -> Prop) (l1 l2 : list A) :
  sublist l1 l2 -> Forall P l2 -> Forall P l1.
Proof.
  induction 1 as [|x l1 l2 Hsub IH|x l1 l2 Hsub IH]; intros Hall.
  - constructor.
  - apply Forall_cons in Hall as [Hx Hall]. constructor; auto.
  - apply Forall_cons in Hall as [_ Hall]. auto.
Qed.

(** Lines read from a file and written back one after the other, some of
    them left out, are read again as they were written. *)
Lemma lines_written_read_back (text : string) (out : list string) :
  sublist out (Py.readlines (Py.universal_newlines text)) ->
  Py.readlines (Py.universal_newlines (Py.concat out)) = out.
Proof.
  intros Hsub.
  rewrite universal_newlines_id.
  - apply readlines_concat. eapply lines_ok_sublist; [exact Hsub|].
    apply readlines_lines_ok.
  - apply has_cr_concat.
    eapply (Forall_of_sublist _ _ _ Hsub). apply has_cr_concat.
    rewrite concat_readlines. apply universal_newlines_no_cr.
Qed.

(** *** Writing lines *)

Section SubsetRun.
Context {R : Random}.
Implicit Types st : State R.

Lemma write_lines_spec path (ls : list string) (c : string) st :
  files (fs st) !! path = Some c ->
  exists st',
    write_lines R path ls st = (st', Ok tt) /\
    rng st' = rng st /\
    files (fs st') !! path = Some (c +:+ Py.concat ls) /\
    forall q, q <> path -> files (fs st') !! q = files (fs st) !! q.
Proof.
  revert c st. induction ls as [|l ls IH]; intros c st Hc.
  - exists st. cbn. by rewrite app_empty_r.
  - cbn [write_lines]. rewrite write_Ok.
    set (st1 := mkState _ _).
    destruct (IH (c +:+ l) st1) as (st' & Hrun & Hg & Hp & Hq).
    { subst st1; cbn [fs]. by rewrite files_write_eq, Hc. }
    exists st'. split; [done|]. split; [done|]. split.
    + rewrite Hp. cbn [Py.concat]. by rewrite app_assoc_str.
    + intros q Hne. rewrite (Hq q Hne). subst st1; cbn [fs].
      by rewrite files_write_ne.
Qed.

Lemma sample_Ok {B} total (K : Z) (k : list nat -> M R B) st :
  (0 <= K <= Z.of_nat total)%Z ->
  bind (sample R total (VInt K)) k st
  = k (fst (random_draw R total (Z.to_nat K) (rng st)))
      (mkState (fs st) (snd (random_draw R total (Z.to_nat K) (rng st)))).
Proof.
  intros HK. unfold sample, bind, lift. cbn [as_int].
  destruct (Z.ltb_spec K 0); [lia|]. destruct (Z.ltb_spec (Z.of_nat total) K); [lia|].
  cbn [orb]. by destruct (random_draw R total (Z.to_nat K) (rng st)).
Qed.

Lemma file_open_bind {B} path (k : unit -> M R B) st :
  isfile (fs st) path = true -> bind (file_open R path) k st = k tt st.
Proof. intros Hf. by rewrite (bind_Ok _ _ _ _ _ (file_open_Ok _ _ Hf)). Qed.

Lemma file_open_w_bind {B} path (k : unit -> M R B) st :
  bind (file_open_w R path) k st = k tt (mkState (fs_open_w path (fs st)) (rng st)).
Proof. reflexivity. Qed.

Lemma lines_of_bind {B} path (k : list string -> M R B) st :
  bind (lines_of R path) k st = k (fs_lines (fs st) path) st.
Proof. reflexivity. Qed.

Lemma fs_lines_ext (f g : FS) path :
  files f !! path = files g !! path -> fs_lines f path = fs_lines g path.
Proof. intros Heq. unfold fs_lines, fs_text. by rewrite Heq. Qed.

Lemma isfile_ext (f g : FS) path :
  files f !! path = files g !! path -> isfile f path = isfile g path.
Proof. intros Heq. unfold isfile. by rewrite Heq. Qed.

(** The run of [get_subset] without [shuffle_target], when it is not
    skipped and the outputs are two files other than the inputs: both
    outputs hold what [_yield_subset] picks, with one sample, from the
    lines of the inputs. *)
Lemma get_subset_paired_run self (d : list (string * value)) overwrite st
    (si ti so to : string) (K : Z) :
  let src_in := Py.path_join (output_dir self) si in
  let tgt_in := Py.path_join (output_dir self) ti in
  let src_out := Py.path_join (output_dir self) so in
  let tgt_out := Py.path_join (output_dir self) to in
  let total := length (fs_lines (fs st) src_in) in
  let smp := fst (random_draw R total (Z.to_nat K)
                    (random_seed R (default VNone (assoc "seed" d)) (rng st))) in
  getitem (VDict d) "src_input" = Ok (VStr si) ->
  getitem (VDict d) "tgt_input" = Ok (VStr ti) ->
  getitem (VDict d) "src_output" = Ok (VStr so) ->
  getitem (VDict d) "tgt_output" = Ok (VStr to) ->
  getitem (VDict d) "size" = Ok (VInt K) ->
  seedable (default VNone (assoc "seed" d)) = true ->
  truthy (default (VBool false) (assoc "shuffle_target" d)) = false ->
  isfile (fs st) src_in = true ->
  isfile (fs st) tgt_in = true ->
  (0 <= K <= Z.of_nat total)%Z ->
  overwrite = true \/ isfile (fs st) src_out = false \/ isfile (fs st) tgt_out = false ->
  src_out <> tgt_out ->
  src_in <> src_out -> src_in <> tgt_out -> tgt_in <> src_out -> tgt_in <> tgt_out ->
  let r := get_subset R self (VDict d) overwrite st in
  snd r = Ok tt /\
  files (fs (fst r)) !! src_out
    = Some (Py.concat (_yield_subset (fs_lines (fs st) src_in) smp)) /\
  files (fs (fst r)) !! tgt_out
    = Some (Py.concat (_yield_subset (fs_lines (fs st) tgt_in) smp)).
Proof.
  intros src_in tgt_in src_out tgt_out total smp
    Hsi Hti Hso Hto Hsz Hseed Hsh Hfs Hft HK Hrun Hoo Hss Hst Hts Htt r.
  assert (exists st', r = (st', Ok tt) /\
            files (fs st') !! src_out
              = Some (Py.concat (_yield_subset (fs_lines (fs st) src_in) smp)) /\
            files (fs st') !! tgt_out
              = Some (Py.concat (_yield_subset (fs_lines (fs st) tgt_in) smp)))
    as (st' & -> & ? & ?); [|done].
  subst r src_in tgt_in src_out tgt_out total smp. unfold get_subset.
  rewrite (path_item_Ok _ _ _ _ _ _ Hsi), (path_item_Ok _ _ _ _ _ _ Hti),
    (path_item_Ok _ _ _ _ _ _ Hso), (path_item_Ok _ _ _ _ _ _ Hto), get_fs_bind.
  rewrite (guard_open _ _ _ _ Hrun). cbv beta iota. cbn [dict_get].
  rewrite (lift_Ok _ _ _ _ eq_refl), seed_bind by done.
  rewrite (lift_Ok _ _ _ _ Hsz), (lift_Ok _ _ _ _ eq_refl).
  rewrite get_total_lines_Ok by done. cbn [fs rng]. rewrite Hsh.
  set (src_in := Py.path_join (output_dir self) si) in *.
  set (tgt_in := Py.path_join (output_dir self) ti) in *.
  set (src_out := Py.path_join (output_dir self) so) in *.
  set (tgt_out := Py.path_join (output_dir self) to) in *.
  set (total := length (fs_lines (fs st) src_in)) in *.
  rewrite sample_Ok by done. cbn [fs rng].
  set (smp := fst (random_draw R total _ _)).
  rewrite file_open_bind by done. rewrite file_open_w_bind, lines_of_bind. cbn [fs rng].
  rewrite (fs_lines_ext _ (fs st) src_in) by (by apply files_open_w_ne).
  set (st3 := mkState (fs_open_w src_out (fs st)) _).
  destruct (write_lines_spec src_out (_yield_subset (fs_lines (fs st) src_in) smp)
              EmptyString st3) as (st4 & Hrun4 & _ & Hp4 & Hq4).
  { apply files_open_w_eq. }
  rewrite (bind_Ok _ _ _ _ _ Hrun4).
  assert (files (fs st4) !! tgt_in = files (fs st) !! tgt_in) as Htin.
  { rewrite Hq4 by done. subst st3; cbn [fs]. by apply files_open_w_ne. }
  rewrite file_open_bind by (by rewrite (isfile_ext _ (fs st) tgt_in)).
  rewrite file_open_w_bind, lines_of_bind. cbn [fs rng].
  rewrite (fs_lines_ext (fs_open_w tgt_out (fs st4)) (fs st) tgt_in).
  2:{ rewrite files_open_w_ne by done. exact Htin. }
  set (st5 := mkState (fs_open_w tgt_out (fs st4)) _).
  destruct (write_lines_spec tgt_out (_yield_subset (fs_lines (fs st) tgt_in) smp)
              EmptyString st5) as (st6 & Hrun6 & _ & Hp6 & Hq6).
  { apply files_open_w_eq. }
  rewrite Hrun6. exists st6. split; [done|]. split; [|done].
  rewrite Hq6 by done. subst st5; cbn [fs]. rewrite files_open_w_ne by done.
  exact Hp4.
Qed.
End SubsetRun.

Lemma counter_random_spec : RandomSpec counter_random.
Proof.
  split; cbn [random_draw random_shuffle counter_random fst].
  - intros n k g Hk. rewrite length_take.
    destruct (Nat.odd g); rewrite ?length_rev, length_seq; lia.
  - intros n k g _. eapply sublist_NoDup; [|apply sublist_take].
    destruct (Nat.odd g); [rewrite <- Permutation_rev|]; apply NoDup_seq.
  - intros n k g _. apply Forall_take.
    destruct (Nat.odd g); [rewrite <- Permutation_rev|]; apply Forall_seq; intros; lia.
  - intros l g. apply Permutation_rev.
Qed.

Lemma fs_lines_written_read_back (f g : FS) (path_in path_out : string) (out : list string) :
  sublist out (fs_lines f path_in) ->
  files g !! path_out = Some (Py.concat out) ->
  fs_lines g path_out = out.
Proof.
  intros Hsub Hout. unfold fs_lines. rewrite (fs_text_Some _ _ _ Hout).
  by apply (lines_written_read_back (default EmptyString (files f !! path_in))).
Qed.

(** C5, as amended.  When the [subset] step is run (that is, [overwrite]
    is on or one of its outputs is missing) without [shuffle_target] on
    two inputs of [T] lines each, with a seed that [random.seed] takes, a
    size [K] between 0 and [T] and two outputs that are files other than
    the inputs and than each other, it returns, and there
    is a list of [K] distinct indices, in ascending order, such that line
    [N] of the source output is the line of the source input at the
    index of position [N], and line [N] of the target output is the line
    of the target input at the same index; both outputs have [K] lines. *)
Theorem get_subset_paired (R : Random) (HR : RandomSpec R) (self : OpusFilter)
    (parameters : value) (overwrite : bool) (st : State R)
    (si ti so to : string) (K : Z) (T : nat) (shuffle_target a : value) :
  let src_in := Py.path_join (output_dir self) si in
  let tgt_in := Py.path_join (output_dir self) ti in
  let src_out := Py.path_join (output_dir self) so in
  let tgt_out := Py.path_join (output_dir self) to in
  getitem parameters "src_input" = Ok (VStr si) ->
  getitem parameters "tgt_input" = Ok (VStr ti) ->
  getitem parameters "src_output" = Ok (VStr so) ->
  getitem parameters "tgt_output" = Ok (VStr to) ->
  getitem parameters "size" = Ok (VInt K) ->
  dict_get parameters "seed" VNone = Ok a ->
  seedable a = true ->
  dict_get parameters "shuffle_target" (VBool false) = Ok shuffle_target ->
  truthy shuffle_target = false ->
  isfile (fs st) src_in = true ->
  isfile (fs st) tgt_in = true ->
  length (fs_lines (fs st) src_in) = T ->
  length (fs_lines (fs st) tgt_in) = T ->
  (0 <= K <= Z.of_nat T)%Z ->
  overwrite = true \/ isfile (fs st) src_out = false \/ isfile (fs st) tgt_out = false ->
  src_out <> tgt_out ->
  src_in <> src_out -> src_in <> tgt_out -> tgt_in <> src_out -> tgt_in <> tgt_out ->
  let r := get_subset R self parameters overwrite st in
  snd r = Ok tt /\
  exists idxs : list nat,
    length idxs = Z.to_nat K /\
    NoDup idxs /\
    StronglySorted lt idxs /\
    length (fs_lines (fs (fst r)) src_out) = Z.to_nat K /\
    length (fs_lines (fs (fst r)) tgt_out) = Z.to_nat K /\
    Forall2 (fun line i => fs_lines (fs st) src_in !! i = Some line)
            (fs_lines (fs (fst r)) src_out) idxs /\
    Forall2 (fun line i => fs_lines (fs st) tgt_in !! i = Some line)
            (fs_lines (fs (fst r)) tgt_out) idxs.
Proof.
  intros src_in tgt_in src_out tgt_out Hsi Hti Hso Hto Hsz Hseed Ha Hsh Hfalse Hfs Hft
    HTs HTt HK Hrun Hoo Hss Hst Hts Htt r.
  destruct parameters as [| | | | |d]; try discriminate.
  cbn [dict_get] in Hsh, Hseed. injection Hsh as <-. injection Hseed as <-.
  destruct (get_subset_paired_run (R:=R) self d overwrite st si ti so to K)
    as (Hok & Hsrc & Htgt); try done.
  { fold src_in. by rewrite HTs. }
  fold src_in tgt_in src_out tgt_out r in Hsrc, Htgt, Hok.
  rewrite HTs in Hsrc, Htgt.
  set (smp := fst (random_draw R T (Z.to_nat K) _)) in *.
  assert (Z.to_nat K <= T) as HKT by lia.
  assert (NoDup smp) as Hnd by (by apply (draw_NoDup R HR)).
  assert (length smp = Z.to_nat K) as Hlen by (by apply (draw_length R HR)).
  assert (Forall (fun i => i < T) smp) as Hb by (by apply (draw_bound R HR)).
  pose proof (ascending_Permutation smp) as Hperm.
  rewrite (fs_lines_written_read_back (fs st) _ src_in src_out _
             (yield_subset_sublist _ _) Hsrc).
  rewrite (fs_lines_written_read_back (fs st) _ tgt_in tgt_out _
             (yield_subset_sublist _ _) Htgt).
  assert (Forall2 (fun line i => fs_lines (fs st) src_in !! i = Some line)
            (_yield_subset (fs_lines (fs st) src_in) smp) (ascending smp)) as Hs2.
  { apply yield_subset_spec; [done|]. by rewrite HTs. }
  assert (Forall2 (fun line i => fs_lines (fs st) tgt_in !! i = Some line)
            (_yield_subset (fs_lines (fs st) tgt_in) smp) (ascending smp)) as Ht2.
  { apply yield_subset_spec; [done|]. by rewrite HTt. }
  split; [done|]. exists (ascending smp).
  split; [by rewrite Hperm|]. split; [by rewrite Hperm|].
  split; [by apply ascending_StronglySorted|].
  split; [by rewrite (Forall2_length _ _ _ Hs2), Hperm|].
  split; [by rewrite (Forall2_length _ _ _ Ht2), Hperm|]. done.
Qed.

Lemma get_subset_paired_witness :
  let r := get_subset counter_random here (subset_parameters 2 false) false subset_state in
  snd r = Ok tt /\
  exists idxs : list nat,
    length idxs = Z.to_nat 2 /\
    NoDup idxs /\
    StronglySorted lt idxs /\
    length (fs_lines (fs (fst r)) "./src.sub") = Z.to_nat 2 /\
    length (fs_lines (fs (fst r)) "./tgt.sub") = Z.to_nat 2 /\
    Forall2 (fun line i => fs_lines (fs subset_state) "./src" !! i = Some line)
            (fs_lines (fs (fst r)) "./src.sub") idxs /\
    Forall2 (fun line i => fs_lines (fs subset_state) "./tgt" !! i = Some line)
            (fs_lines (fs (fst r)) "./tgt.sub") idxs.
Proof.
  apply (get_subset_paired counter_random counter_random_spec here (subset_parameters 2 false)
           false subset_state "src" "tgt" "src.sub" "tgt.sub" 2 3 (VBool false) (VInt 1));
    try reflexivity; try discriminate.
  - vm_compute. split; discriminate.
  - right; left. reflexivity.
Defined.

(** C5, as stated, fails: with [overwrite] off and both outputs there,
    the step asked for two lines of inputs of three returns at once, and
    its source output holds the one line it held before. *)
Lemma get_subset_paired_skipped :
  let r := get_subset counter_random here (subset_parameters 2 false) false
             subset_done_state in
  length (fs_lines (fs subset_done_state) "./src") = 3 /\
  length (fs_lines (fs subset_done_state) "./tgt") = 3 /\
  snd r = Ok tt /\
  fs_lines (fs (fst r)) "./src.sub" = [newline_text "old"].
Proof. vm_compute. repeat split. Qed.

(** The run of the witness, spelled out: the sample holds the indices 2
    and 1, and the outputs hold the lines of the indices 1 and 2. *)
Example get_subset_paired_run_example :
  let r := get_subset counter_random here (subset_parameters 2 false) false subset_state in
  files (fs (fst r)) !! "./src.sub" = Some (newline_text "b" +:+ newline_text "c") /\
  files (fs (fst r)) !! "./tgt.sub" = Some (newline_text "y" +:+ newline_text "z").
Proof. vm_compute. split; reflexivity. Qed.

(** *** The shuffled target *)

Section Shuffled.
Context {R : Random}.
Implicit Types st : State R.

Lemma shuffle_bind {B} (lines : list string) (k : list string -> M R B) st :
  bind (shuffle R lines) k st
  = k (fst (random_shuffle R lines (rng st)))
      (mkState (fs st) (snd (random_shuffle R lines (rng st)))).
Proof. unfold shuffle, bind. by destruct (random_shuffle R lines (rng st)). Qed.

(** The run of [get_subset] with [shuffle_target]: the source output
    holds what [_yield_subset] picks with a first sample; the target
    output holds, in the order the shuffle leaves them in, the lines
    picked with a second sample. *)
Lemma get_subset_shuffled_run self (d : list (string * value)) overwrite st
    (si ti so to : string) (K : Z) :
  let src_in := Py.path_join (output_dir self) si in
  let tgt_in := Py.path_join (output_dir self) ti in
  let src_out := Py.path_join (output_dir self) so in
  let tgt_out := Py.path_join (output_dir self) to in
  let total := length (fs_lines (fs st) src_in) in
  let draw1 := random_draw R total (Z.to_nat K)
                 (random_seed R (default VNone (assoc "seed" d)) (rng st)) in
  let draw2 := random_draw R total (Z.to_nat K) (snd draw1) in
  getitem (VDict d) "src_input" = Ok (VStr si) ->
  getitem (VDict d) "tgt_input" = Ok (VStr ti) ->
  getitem (VDict d) "src_output" = Ok (VStr so) ->
  getitem (VDict d) "tgt_output" = Ok (VStr to) ->
  getitem (VDict d) "size" = Ok (VInt K) ->
  seedable (default VNone (assoc "seed" d)) = true ->
  truthy (default (VBool false) (assoc "shuffle_target" d)) = true ->
  isfile (fs st) src_in = true ->
  isfile (fs st) tgt_in = true ->
  (0 <= K <= Z.of_nat total)%Z ->
  overwrite = true \/ isfile (fs st) src_out = false \/ isfile (fs st) tgt_out = false ->
  src_out <> tgt_out ->
  src_in <> src_out -> src_in <> tgt_out -> tgt_in <> src_out -> tgt_in <> tgt_out ->
  let r := get_subset R self (VDict d) overwrite st in
  snd r = Ok tt /\
  files (fs (fst r)) !! src_out
    = Some (Py.concat (_yield_subset (fs_lines (fs st) src_in) (fst draw1))) /\
  files (fs (fst r)) !! tgt_out
    = Some (Py.concat (fst (random_shuffle R
                              (_yield_subset (fs_lines (fs st) tgt_in) (fst draw2))
                              (snd draw2)))).
Proof.
  intros src_in tgt_in src_out tgt_out total draw1 draw2
    Hsi Hti Hso Hto Hsz Hseed Hsh Hfs Hft HK Hrun Hoo Hss Hst Hts Htt r.
  assert (exists st', r = (st', Ok tt) /\
            files (fs st') !! src_out
              = Some (Py.concat (_yield_subset (fs_lines (fs st) src_in) (fst draw1))) /\
            files (fs st') !! tgt_out
              = Some (Py.concat (fst (random_shuffle R
                        (_yield_subset (fs_lines (fs st) tgt_in) (fst draw2)) (snd draw2)))))
    as (st' & -> & ? & ?); [|done].
  subst r src_in tgt_in src_out tgt_out total draw1 draw2. unfold get_subset.
  rewrite (path_item_Ok _ _ _ _ _ _ Hsi), (path_item_Ok _ _ _ _ _ _ Hti),
    (path_item_Ok _ _ _ _ _ _ Hso), (path_item_Ok _ _ _ _ _ _ Hto), get_fs_bind.
  rewrite (guard_open _ _ _ _ Hrun). cbv beta iota. cbn [dict_get].
  rewrite (lift_Ok _ _ _ _ eq_refl), seed_bind by done.
  rewrite (lift_Ok _ _ _ _ Hsz), (lift_Ok _ _ _ _ eq_refl).
  rewrite get_total_lines_Ok by done. cbn [fs rng]. rewrite Hsh.
  set (src_in := Py.path_join (output_dir self) si) in *.
  set (tgt_in := Py.path_join (output_dir self) ti) in *.
  set (src_out := Py.path_join (output_dir self) so) in *.
  set (tgt_out := Py.path_join (output_dir self) to) in *.
  set (total := length (fs_lines (fs st) src_in)) in *.
  rewrite sample_Ok by done. cbn [fs rng].
  set (draw1 := random_draw R total _ _).
  rewrite file_open_bind by done. rewrite file_open_w_bind, lines_of_bind. cbn [fs rng].
  rewrite (fs_lines_ext _ (fs st) src_in) by (by apply files_open_w_ne).
  set (st3 := mkState (fs_open_w src_out (fs st)) _).
  destruct (write_lines_spec src_out (_yield_subset (fs_lines (fs st) src_in) (fst draw1))
              EmptyString st3) as (st4 & Hrun4 & Hg4 & Hp4 & Hq4).
  { apply files_open_w_eq. }
  rewrite (bind_Ok _ _ _ _ _ Hrun4).
  assert (files (fs st4) !! tgt_in = files (fs st) !! tgt_in) as Htin.
  { rewrite Hq4 by done. subst st3; cbn [fs]. by apply files_open_w_ne. }
  rewrite sample_Ok by done. cbn [fs rng]. rewrite Hg4. subst st3; cbn [rng].
  set (draw2 := random_draw R total _ (snd draw1)).
  rewrite file_open_bind by (by rewrite (isfile_ext _ (fs st) tgt_in)).
  rewrite lines_of_bind. cbn [fs rng].
  rewrite (fs_lines_ext (fs st4) (fs st) tgt_in) by done.
  rewrite shuffle_bind. cbn [fs rng]. rewrite file_open_w_bind. cbn [fs rng].
  set (lines := fst (random_shuffle R _ _)).
  set (st5 := mkState (fs_open_w tgt_out (fs st4)) _).
  destruct (write_lines_spec tgt_out lines EmptyString st5) as (st6 & Hrun6 & _ & Hp6 & Hq6).
  { apply files_open_w_eq. }
  rewrite Hrun6. exists st6. split; [done|]. split; [|done].
  rewrite Hq6 by done. subst st5; cbn [fs]. rewrite files_open_w_ne by done.
  exact Hp4.
Qed.
End Shuffled.

Lemma lines_ok_complete (ls : list string) :
  Forall (fun l => is_complete l = true) ls -> lines_ok ls.
Proof. induction 1; by constructor. Qed.

Lemma has_cr_lines (text : string) :
  Forall (fun l => has_cr l = false) (Py.readlines (Py.universal_newlines text)).
Proof. apply has_cr_concat. rewrite concat_readlines. apply universal_newlines_no_cr. Qed.

(** Complete lines of a file, written in any order, are read again as
    they were written. *)
Lemma complete_lines_read_back (text : string) (picked out : list string) :
  sublist picked (Py.readlines (Py.universal_newlines text)) ->
  Forall (fun l => is_complete l = true) (Py.readlines (Py.universal_newlines text)) ->
  Permutation picked out ->
  Py.readlines (Py.universal_newlines (Py.concat out)) = out.
Proof.
  intros Hsub Hall Hperm.
  rewrite universal_newlines_id.
  - apply readlines_concat, lines_ok_complete. rewrite <- Hperm.
    by apply (Forall_of_sublist _ _ _ Hsub).
  - apply has_cr_concat. rewrite <- Hperm.
    apply (Forall_of_sublist _ _ _ Hsub), has_cr_lines.
Qed.

(** Where the property of C6 holds: when every line of the target input
    ends with a newline, the lines of the source output are those of a
    sample of [K] indices in ascending order, and the lines of the target
    output are a permutation of those of a second such sample. *)
Lemma get_subset_shuffled_terminated (R : Random) (HR : RandomSpec R) (self : OpusFilter)
    (parameters : value) (overwrite : bool) (st : State R)
    (si ti so to : string) (K : Z) (T : nat) (shuffle_target a : value) :
  let src_in := Py.path_join (output_dir self) si in
  let tgt_in := Py.path_join (output_dir self) ti in
  let src_out := Py.path_join (output_dir self) so in
  let tgt_out := Py.path_join (output_dir self) to in
  getitem parameters "src_input" = Ok (VStr si) ->
  getitem parameters "tgt_input" = Ok (VStr ti) ->
  getitem parameters "src_output" = Ok (VStr so) ->
  getitem parameters "tgt_output" = Ok (VStr to) ->
  getitem parameters "size" = Ok (VInt K) ->
  dict_get parameters "seed" VNone = Ok a ->
  seedable a = true ->
  dict_get parameters "shuffle_target" (VBool false) = Ok shuffle_target ->
  truthy shuffle_target = true ->
  isfile (fs st) src_in = true ->
  isfile (fs st) tgt_in = true ->
  length (fs_lines (fs st) src_in) = T ->
  length (fs_lines (fs st) tgt_in) = T ->
  Forall (fun l => is_complete l = true) (fs_lines (fs st) tgt_in) ->
  (0 <= K <= Z.of_nat T)%Z ->
  overwrite = true \/ isfile (fs st) src_out = false \/ isfile (fs st) tgt_out = false ->
  src_out <> tgt_out ->
  src_in <> src_out -> src_in <> tgt_out -> tgt_in <> src_out -> tgt_in <> tgt_out ->
  let r := get_subset R self parameters overwrite st in
  snd r = Ok tt /\
  exists (idxs_src idxs_tgt : list nat) (picked : list string),
    length idxs_src = Z.to_nat K /\ NoDup idxs_src /\ StronglySorted lt idxs_src /\
    length idxs_tgt = Z.to_nat K /\ NoDup idxs_tgt /\ StronglySorted lt idxs_tgt /\
    Forall2 (fun line i => fs_lines (fs st) src_in !! i = Some line)
            (fs_lines (fs (fst r)) src_out) idxs_src /\
    Forall2 (fun line i => fs_lines (fs st) tgt_in !! i = Some line) picked idxs_tgt /\
    Permutation picked (fs_lines (fs (fst r)) tgt_out).
Proof.
  intros src_in tgt_in src_out tgt_out Hsi Hti Hso Hto Hsz Hseed Ha Hsh Htrue Hfs Hft
    HTs HTt Hterm HK Hrun Hoo Hss Hst Hts Htt r.
  destruct parameters as [| | | | |d]; try discriminate.
  cbn [dict_get] in Hsh, Hseed. injection Hsh as <-. injection Hseed as <-.
  destruct (get_subset_shuffled_run (R:=R) self d overwrite st si ti so to K)
    as (Hok & Hsrc & Htgt); try done.
  { fold src_in. by rewrite HTs. }
  fold src_in tgt_in src_out tgt_out r in Hsrc, Htgt, Hok.
  rewrite HTs in Hsrc, Htgt.
  set (draw1 := random_draw R T (Z.to_nat K) _) in *.
  set (draw2 := random_draw R T (Z.to_nat K) (snd draw1)) in *.
  assert (Z.to_nat K <= T) as HKT by lia.
  pose proof (draw_NoDup R HR T _ (random_seed R (default VNone (assoc "seed" d)) (rng st)) HKT)
    as Hnd1.
  pose proof (draw_length R HR T _ (random_seed R (default VNone (assoc "seed" d)) (rng st)) HKT)
    as Hlen1.
  pose proof (draw_bound R HR T _ (random_seed R (default VNone (assoc "seed" d)) (rng st)) HKT)
    as Hb1.
  pose proof (draw_NoDup R HR T _ (snd draw1) HKT) as Hnd2.
  pose proof (draw_length R HR T _ (snd draw1) HKT) as Hlen2.
  pose proof (draw_bound R HR T _ (snd draw1) HKT) as Hb2.
  fold draw1 in Hnd1, Hlen1, Hb1. fold draw2 in Hnd2, Hlen2, Hb2.
  set (picked := _yield_subset (fs_lines (fs st) tgt_in) (fst draw2)) in *.
  pose proof (shuffle_Permutation R HR picked (snd draw2)) as Hshuf.
  rewrite (fs_lines_written_read_back (fs st) _ src_in src_out _
             (yield_subset_sublist _ _) Hsrc).
  assert (fs_lines (fs (fst r)) tgt_out = fst (random_shuffle R picked (snd draw2))) as ->.
  { unfold fs_lines at 1. rewrite (fs_text_Some _ _ _ Htgt).
    apply (complete_lines_read_back (default EmptyString (files (fs st) !! tgt_in)) picked);
      [apply yield_subset_sublist|exact Hterm|exact Hshuf]. }
  split; [done|]. exists (ascending (fst draw1)), (ascending (fst draw2)), picked.
  pose proof (ascending_Permutation (fst draw1)) as Hp1.
  pose proof (ascending_Permutation (fst draw2)) as Hp2.
  split; [by rewrite Hp1|]. split; [by rewrite Hp1|].
  split; [by apply ascending_StronglySorted|].
  split; [by rewrite Hp2|]. split; [by rewrite Hp2|].
  split; [by apply ascending_StronglySorted|].
  split; [apply yield_subset_spec; [done|by rewrite HTs]|].
  split; [apply yield_subset_spec; [done|by rewrite HTt]|]. done.
Qed.

(** C6.  With [shuffle_target], the lines picked from the target are
    written one after the other in shuffled order; a last line without
    newline that the shuffle moves forward runs into the line written
    after it.  Here the target holds the lines "x" and "y", the second
    one unterminated, and the size is 2: the target output is the single
    line "yx", which is no line of the target. *)
Theorem get_subset_shuffle_joins_unterminated_line :
  let r := get_subset counter_random here (subset_parameters 2 true) false
             unterminated_state in
  snd r = Ok tt /\
  fs_lines (fs unterminated_state) "./tgt" = [newline_text "x"; "y"] /\
  fs_lines (fs (fst r)) "./src.sub" = [newline_text "a"; newline_text "b"] /\
  fs_lines (fs (fst r)) "./tgt.sub" = [newline_text "yx"] /\
  ~ Permutation (fs_lines (fs (fst r)) "./tgt.sub") (fs_lines (fs unterminated_state) "./tgt").
Proof.
  vm_compute. repeat split.
  intros Hp. apply Permutation_length in Hp. discriminate.
Qed.

(** ** The object store *)

Section StoreFacts.
Import Store.
Variable h0 : heap.

Lemma extends_refl : extends h0 h0.
Proof. split; [done|]. intros l c Hn Hs. congruence. Qed.

Lemma extends_insert (h : heap) (y : nat) (c : cell) :
  extends h0 h -> h0 !! y = None -> Forall (new_value h0) (cell_values c) ->
  extends h0 (<[y := c]> h).
Proof.
  intros [Hold Hnew] Hy Hc. split.
  - intros l c' Hl. rewrite lookup_insert_ne; [by apply Hold|]. congruence.
  - intros l c' Hl. destruct (decide (y = l)) as [->|Hne].
    + rewrite lookup_insert_eq. by intros [= <-].
    + rewrite lookup_insert_ne by done. by apply Hnew.
Qed.

Lemma extends_fresh (h : heap) : extends h0 h -> h0 !! fresh (dom h) = None.
Proof.
  intros [Hold _]. destruct (h0 !! fresh (dom h)) as [c|] eqn:Hc; [|done].
  apply Hold in Hc. exfalso. apply (is_fresh (dom h)). apply elem_of_dom. eauto.
Qed.

Lemma keeps_ret {A} (P : A -> Prop) (a : A) : P a -> keeps h0 P (hret a).
Proof. intros Ha h Hh. cbn. split; [done|]. by intros ? [= <-]. Qed.

Lemma keeps_raise {A} (P : A -> Prop) (e : exn) : keeps h0 P (hraise e).
Proof. intros h Hh. cbn. by split. Qed.

Lemma keeps_bind {A B} (P : A -> Prop) (Q : B -> Prop) (m : H A) (k : A -> H B) :
  keeps h0 P m -> (forall a, P a -> keeps h0 Q (k a)) -> keeps h0 Q (hbind m k).
Proof.
  intros Hm Hk h Hh. unfold hbind.
  destruct (Hm h Hh) as [Hext Hres]. destruct (m h) as [h' [a|e]]; cbn in *.
  - by apply Hk; [apply Hres|].
  - by split.
Qed.

Lemma keeps_weaken {A} (P Q : A -> Prop) (m : H A) :
  (forall a, P a -> Q a) -> keeps h0 P m -> keeps h0 Q m.
Proof. intros HPQ Hm h Hh. destruct (Hm h Hh) as [? Hres]. split; auto. Qed.

Lemma keeps_load (l : nat) :
  h0 !! l = None -> keeps h0 (fun c => Forall (new_value h0) (cell_values c)) (load l).
Proof.
  intros Hl h Hh. unfold load. destruct (h !! l) as [c|] eqn:Hc; cbn.
  - split; [done|]. intros ? [= <-]. destruct Hh as [_ Hnew]. by apply (Hnew l).
  - by split.
Qed.

Lemma keeps_store (l : nat) (c : cell) :
  h0 !! l = None -> Forall (new_value h0) (cell_values c) ->
  keeps h0 (fun _ => True) (store l c).
Proof. intros Hl Hc h Hh. cbn. split; [|done]. by apply extends_insert. Qed.

Lemma new_value_assoc (k : string) (d : list (string * pyval)) (x : pyval) :
  Forall (new_value h0) (map snd d) -> assoc k d = Some x -> new_value h0 x.
Proof.
  induction d as [|[k' v] d IH]; cbn; [done|].
  intros [Hv Hd]%Forall_cons. destruct (String.eqb k k'); [by intros [= <-]|auto].
Qed.

Lemma new_value_assoc_set (k : string) (d : list (string * pyval)) (x : pyval) :
  Forall (new_value h0) (map snd d) -> new_value h0 x ->
  Forall (new_value h0) (map snd (assoc_set k x d)).
Proof.
  intros Hd Hx. induction d as [|[k' v] d IH]; cbn.
  - by repeat constructor.
  - apply Forall_cons in Hd as [Hv Hd].
    destruct (String.eqb k k'); cbn; constructor; auto.
Qed.

Lemma new_value_list_index (items : list pyval) (i : Z) (x : pyval) :
  Forall (new_value h0) items -> list_index items i = Some x -> new_value h0 x.
Proof.
  intros Hall. unfold list_index. destruct (_ <? 0)%Z; [done|].
  intros Hx. by apply (Forall_lookup_1 _ _ _ _ Hall Hx).
Qed.

(** Reading through a new value gives new values. *)
Lemma keeps_getitem (v : pyval) (k : string) :
  new_value h0 v -> keeps h0 (new_value h0) (py_getitem v k).
Proof.
  intros Hv. destruct v as [| | | |l]; try apply keeps_raise. cbn in Hv.
  eapply keeps_bind; [by apply keeps_load|]. intros [items|d] Hc; [apply keeps_raise|].
  cbn in Hc. destruct (assoc k d) as [x|] eqn:Hx; [|apply keeps_raise].
  apply keeps_ret. by apply (new_value_assoc k d).
Qed.

Lemma keeps_get (v : pyval) (k : string) :
  new_value h0 v -> keeps h0 (new_value h0) (py_get v k).
Proof.
  intros Hv. destruct v as [| | | |l]; try apply keeps_raise. cbn in Hv.
  eapply keeps_bind; [by apply keeps_load|]. intros [items|d] Hc; [apply keeps_raise|].
  cbn in Hc. apply keeps_ret. destruct (assoc k d) as [x|] eqn:Hx; [|done].
  by apply (new_value_assoc k d).
Qed.

Lemma keeps_subscript (v : pyval) (i : Z) :
  new_value h0 v -> keeps h0 (new_value h0) (py_subscript v i).
Proof.
  intros Hv. destruct v as [| | |s|l]; try apply keeps_raise.
  - cbn. destruct (list_index _ i); [by apply keeps_ret|apply keeps_raise].
  - cbn in Hv. eapply keeps_bind; [by apply keeps_load|].
    intros [items|d] Hc; [|apply keeps_raise]. cbn in Hc.
    destruct (list_index items i) as [x|] eqn:Hx; [|apply keeps_raise].
    apply keeps_ret. by apply (new_value_list_index items i).
Qed.

Lemma keeps_first_key (v : pyval) :
  new_value h0 v -> keeps h0 (fun _ => True) (py_first_key v).
Proof.
  intros Hv. destruct v as [| | | |l]; try apply keeps_raise. cbn in Hv.
  eapply keeps_bind; [by apply keeps_load|]. intros [items|[|[k x] d]] Hc;
    try apply keeps_raise. by apply keeps_ret.
Qed.

Lemma keeps_contains (k : string) (v : pyval) :
  new_value h0 v -> keeps h0 (fun _ => True) (py_contains k v).
Proof.
  intros Hv. destruct v as [| | |s|l]; try apply keeps_raise; [by apply keeps_ret|].
  cbn in Hv. eapply keeps_bind; [by apply keeps_load|].
  intros [items|d] Hc; by apply keeps_ret.
Qed.

Lemma keeps_truthy (v : pyval) :
  new_value h0 v -> keeps h0 (fun _ => True) (py_truthy v).
Proof.
  intros Hv. destruct v as [| | | |l]; try by apply keeps_ret.
  cbn in Hv. eapply keeps_bind; [by apply keeps_load|].
  intros [items|d] Hc; by apply keeps_ret.
Qed.

Lemma keeps_len (v : pyval) :
  new_value h0 v -> keeps h0 (fun _ => True) (py_len v).
Proof.
  intros Hv. destruct v as [| | |s|l]; try apply keeps_raise; [by apply keeps_ret|].
  cbn in Hv. eapply keeps_bind; [by apply keeps_load|].
  intros [items|d] Hc; by apply keeps_ret.
Qed.

Lemma keeps_join (out : string) (v : pyval) : keeps h0 (new_value h0) (py_join out v).
Proof. destruct v; try apply keeps_raise. by apply keeps_ret. Qed.

(** Writing a new value into a new object keeps [h0]. *)
Lemma keeps_setitem (v : pyval) (k : string) (x : pyval) :
  new_value h0 v -> new_value h0 x -> keeps h0 (fun _ => True) (py_setitem v k x).
Proof.
  intros Hv Hx. destruct v as [| | | |l]; try apply keeps_raise. cbn in Hv.
  eapply keeps_bind; [by apply keeps_load|]. intros [items|d] Hc; [apply keeps_raise|].
  apply keeps_store; [done|]. by apply new_value_assoc_set.
Qed.

Lemma keeps_setindex (v : pyval) (i : Z) (x : pyval) :
  new_value h0 v -> new_value h0 x -> keeps h0 (fun _ => True) (py_setindex v i x).
Proof.
  intros Hv Hx. destruct v as [| | | |l]; try apply keeps_raise. cbn in Hv.
  eapply keeps_bind; [by apply keeps_load|]. intros [items|d] Hc; [|apply keeps_raise].
  cbn zeta. destruct (_ || _); [apply keeps_raise|].
  apply keeps_store; [done|]. cbn in *. by apply Forall_insert.
Qed.

Lemma keeps_for_each {A} (P : A -> Prop) (l : list A) (body : A -> H unit) :
  Forall P l -> (forall x, P x -> keeps h0 (fun _ => True) (body x)) ->
  keeps h0 (fun _ => True) (for_each l body).
Proof.
  intros Hl Hbody. induction Hl as [|x l Hx Hl IH]; cbn.
  - by apply keeps_ret.
  - eapply keeps_bind; [by apply Hbody|]. intros _ _. exact IH.
Qed.

Lemma keeps_for_in (v : pyval) (body : pyval -> H unit) :
  new_value h0 v ->
  (forall x, new_value h0 x -> keeps h0 (fun _ => True) (body x)) ->
  keeps h0 (fun _ => True) (for_in v body).
Proof.
  intros Hv Hbody. destruct v as [| | |s|l]; try apply keeps_raise.
  - cbn. apply (keeps_for_each (new_value h0)); [|done].
    apply Forall_fmap, Forall_true. done.
  - cbn in Hv. cbn [for_in]. eapply keeps_bind; [by apply keeps_load|].
    intros [items|d] Hc.
    + apply (keeps_for_each (fun _ => True)); [by apply Forall_true|].
      intros i _. eapply keeps_bind; [by apply keeps_subscript|]. done.
    + apply (keeps_for_each (new_value h0)); [|done].
      apply Forall_fmap, Forall_true. done.
Qed.
End StoreFacts.

Section DeepCopy.
Import Store.
Variable h0 : heap.

Lemma append_item_extends (y : nat) (a : pyval) (h : heap) :
  extends h0 h -> h0 !! y = None -> new_value h0 a -> extends h0 (append_item y a h).
Proof.
  intros Hh Hy Ha. unfold append_item.
  destruct (h !! y) as [[items|d]|] eqn:Hc; try done.
  apply extends_insert; [done..|]. cbn. apply Forall_app. split; [|by repeat constructor].
  destruct Hh as [_ Hnew]. by apply (Hnew y (CList items)).
Qed.

Lemma set_entry_extends (y : nat) (k : string) (a : pyval) (h : heap) :
  extends h0 h -> h0 !! y = None -> new_value h0 a -> extends h0 (set_entry y k a h).
Proof.
  intros Hh Hy Ha. unfold set_entry.
  destruct (h !! y) as [[items|d]|] eqn:Hc; try done.
  apply extends_insert; [done..|]. cbn. apply new_value_assoc_set; [|done].
  destruct Hh as [_ Hnew]. by apply (Hnew y (CDict d)).
Qed.

Section Items.
Variable dc : pyval -> memo * heap -> (memo * heap) * result pyval.
Hypothesis dc_inv : forall a s, copy_inv h0 s ->
  copy_inv h0 (fst (dc a s)) /\ forall v, snd (dc a s) = Ok v -> new_value h0 v.

Lemma deepcopy_list_inv (y : nat) (x : list pyval) (s : memo * heap) :
  h0 !! y = None -> copy_inv h0 s -> copy_inv h0 (fst (deepcopy_list dc y x s)).
Proof.
  intros Hy. revert s. induction x as [|a x IH]; intros s Hs; cbn [deepcopy_list]; [done|].
  destruct (dc_inv a s Hs) as [[Hm Hh] Hv]. destruct (dc a s) as [s' [a'|e]]; cbn in *.
  - apply IH. split; [done|]. cbn. apply append_item_extends; auto.
  - by split.
Qed.

Lemma deepcopy_dict_inv (y : nat) (x : list (string * pyval)) (s : memo * heap) :
  h0 !! y = None -> copy_inv h0 s -> copy_inv h0 (fst (deepcopy_dict dc y x s)).
Proof.
  intros Hy. revert s. induction x as [|[k a] x IH]; intros s Hs; cbn [deepcopy_dict]; [done|].
  destruct (dc_inv a s Hs) as [[Hm Hh] Hv]. destruct (dc a s) as [s' [a'|e]]; cbn in *.
  - apply IH. split; [done|]. cbn. apply set_entry_extends; auto.
  - by split.
Qed.
End Items.

Lemma copy_inv_alloc (l : nat) (c : cell) (s : memo * heap) :
  copy_inv h0 s -> cell_values c = [] ->
  copy_inv h0 (<[l := fresh (dom (snd s))]> (fst s), <[fresh (dom (snd s)) := c]> (snd s)).
Proof.
  intros [Hm Hh] Hc. pose proof (extends_fresh h0 _ Hh) as Hy. split; cbn.
  - intros l' y'. destruct (decide (l = l')) as [->|Hne].
    + rewrite lookup_insert_eq. by intros [= <-].
    + rewrite lookup_insert_ne by done. apply Hm.
  - apply extends_insert; [done..|]. rewrite Hc. constructor.
Qed.

(** A deep copy refers to new objects only and leaves the objects of
    [h0] as they are, whatever the depth it stops at. *)
Lemma deepcopy_inv (fuel : nat) (x : pyval) (s : memo * heap) :
  copy_inv h0 s ->
  copy_inv h0 (fst (deepcopy fuel x s)) /\
  forall v, snd (deepcopy fuel x s) = Ok v -> new_value h0 v.
Proof.
  revert x s. induction fuel as [|fuel IH]; intros x s Hs;
    destruct x as [| | | |l]; cbn [deepcopy];
    try (split; [done|]; by intros ? [= <-]).
  - destruct (fst s !! l) as [y|] eqn:Hy; cbn; [|by split].
    split; [done|]. intros ? [= <-]. cbn. by apply (proj1 Hs l).
  - destruct (fst s !! l) as [y|] eqn:Hy; cbn.
    { split; [done|]. intros ? [= <-]. cbn. by apply (proj1 Hs l). }
    pose proof (extends_fresh h0 _ (proj2 Hs)) as Hfresh.
    destruct (snd s !! l) as [[items|d]|] eqn:Hc; cbn; [| |by split].
    + pose proof (deepcopy_list_inv (deepcopy fuel) IH (fresh (dom (snd s))) items _ Hfresh
                    (copy_inv_alloc l (CList []) s Hs eq_refl)) as Hinv.
      destruct (deepcopy_list _ _ _ _) as [s' [[]|e]]; cbn in *; split; try done.
      by intros ? [= <-].
    + pose proof (deepcopy_dict_inv (deepcopy fuel) IH (fresh (dom (snd s))) d _ Hfresh
                    (copy_inv_alloc l (CDict []) s Hs eq_refl)) as Hinv.
      destruct (deepcopy_dict _ _ _ _) as [s' [[]|e]]; cbn in *; split; try done.
      by intros ? [= <-].
Qed.

Lemma keeps_deepcopy (fuel : nat) (x : pyval) :
  keeps h0 (new_value h0) (copy_deepcopy fuel x).
Proof.
  intros h Hh. unfold copy_deepcopy.
  assert (copy_inv h0 (∅, h)) as Hs by (split; [by intros ? ?|done]).
  destruct (deepcopy_inv fuel x _ Hs) as [[_ Hext] Hv].
  destruct (deepcopy fuel x (∅, h)) as [s r]. cbn in *. by split.
Qed.

(** Reading an entry of any dict, old or new, changes nothing. *)
Lemma keeps_getitem_any (v : pyval) (k : string) :
  keeps h0 (fun _ => True) (py_getitem v k).
Proof.
  intros h Hh. destruct v as [| | | |l]; cbn; try by split.
  unfold hbind, load. destruct (h !! l) as [[items|d]|]; cbn; try by split.
  destruct (assoc k d); cbn; by split.
Qed.

Create HintDb keeps discriminated.
Hint Resolve keeps_getitem keeps_get keeps_subscript keeps_join keeps_setitem
  keeps_setindex keeps_first_key keeps_contains keeps_truthy keeps_len : keeps.

Ltac keeps_steps :=
  repeat first
    [ by apply keeps_ret
    | apply keeps_raise
    | eapply keeps_bind; [solve [eauto with keeps]|intros ? ?]
    | match goal with
      | |- keeps _ _ (if ?b then _ else _) => destruct b
      end ].

Lemma keeps_rewrite_interpolate_item (out : string) (lm_params : pyval) (idx : nat) :
  new_value h0 lm_params ->
  keeps h0 (fun _ => True) (rewrite_interpolate_item out lm_params idx).
Proof. intros Hv. unfold rewrite_interpolate_item. keeps_steps. eauto with keeps. Qed.

Lemma keeps_rewrite_lm_params (out : string) (f : pyval) (filter_name key : string) :
  new_value h0 f -> keeps h0 (fun _ => True) (rewrite_lm_params out f filter_name key).
Proof.
  intros Hv. unfold rewrite_lm_params. keeps_steps.
  apply (keeps_for_each h0 (fun _ => True)); [by apply Forall_true|].
  intros idx _. by apply keeps_rewrite_interpolate_item.
Qed.

Lemma keeps_rewrite_filter (out : string) (f : pyval) :
  new_value h0 f -> keeps h0 (fun _ => True) (rewrite_filter out f).
Proof.
  intros Hv. unfold rewrite_filter.
  eapply keeps_bind; [by apply keeps_first_key|]. intros filter_name _.
  eapply (keeps_bind _ (fun _ => True)).
  - keeps_steps. eauto with keeps.
  - intros _ _. destruct (String.eqb filter_name "CrossEntropyFilter"); [|by apply keeps_ret].
    eapply keeps_bind; [by apply keeps_rewrite_lm_params|].
    intros _ _. by apply keeps_rewrite_lm_params.
Qed.

Lemma keeps_score_data_filter_params (fuel : nat) (out : string) (parameters : pyval) :
  keeps h0 (new_value h0) (score_data_filter_params fuel out parameters).
Proof.
  unfold score_data_filter_params.
  eapply keeps_bind; [apply keeps_getitem_any|]. intros filters _.
  eapply keeps_bind; [apply keeps_deepcopy|]. intros filter_params Hnew.
  eapply keeps_bind.
  - apply keeps_for_in; [done|]. intros f Hf. by apply keeps_rewrite_filter.
  - intros _ _. by apply keeps_ret.
Qed.
End DeepCopy.

(** C8.  Whatever the store and the parameters, and whether the rewriting
    returns or raises, every object that is in the store when the [score]
    step begins is in it unchanged after the copy and the rewriting of the
    paths; the configuration the caller supplied is among them.  The
    value returned, [filter_params], is not a reference to any of them. *)
Theorem score_data_keeps_configuration (fuel : nat) (out : string)
    (parameters : Store.pyval) (h0 : Store.heap) :
  let r := Store.score_data_filter_params fuel out parameters h0 in
  (forall l c, h0 !! l = Some c -> fst r !! l = Some c) /\
  (forall filter_params, snd r = Ok filter_params -> new_value h0 filter_params).
Proof.
  intros r.
  destruct (keeps_score_data_filter_params h0 fuel out parameters h0 (extends_refl h0))
    as [[Hold _] Hres].
  split; [exact Hold | exact Hres].
Qed.

(** On the store [score_store] the rewriting returns a copy at the
    address 8, in which the three file names are behind the directory;
    the dicts 4 and 5 and the list 7 of the original hold the names as
    they were. *)
Example score_data_filter_params_example :
  let r := Store.score_data_filter_params 8 "work" (Store.PRef 0) score_store in
  snd r = Ok (Store.PRef 8) /\
  fst r !! 11 = Some (Store.CDict [("filename", Store.PStr "work/src.arpa");
                                   ("interpolate", Store.PRef 12)]) /\
  fst r !! 13 = Some (Store.CList [Store.PStr "work/bg.arpa"; Store.PInt 1]) /\
  fst r !! 14 = Some (Store.CDict [("filename", Store.PStr "work/tgt.arpa")]) /\
  fst r !! 4 = score_store !! 4 /\ fst r !! 5 = score_store !! 5 /\
  fst r !! 7 = score_store !! 7.
Proof. vm_compute. repeat split. Qed.

(** Without the copy the same rewriting changes the configuration. *)
Example rewriting_in_place_changes_configuration :
  let r := Store.for_in (Store.PRef 1) (Store.rewrite_filter "work") score_store in
  snd r = Ok tt /\
  fst r !! 5 = Some (Store.CDict [("filename", Store.PStr "work/tgt.arpa")]) /\
  fst r !! 5 <> score_store !! 5.
Proof. vm_compute. repeat split. discriminate. Qed.


(** * Further properties *)

(** ** Counting lines *)

Lemma readlines_nil (s : string) : Py.readlines s = [] -> s = EmptyString.
Proof.
  destruct s as [|c s]; [done|]. cbn [Py.readlines].
  destruct (Py.is_newline c); [done|]. by destruct (Py.readlines s).
Qed.

Lemma readlines_length (s : string) :
  length (Py.readlines s) = newlines s + (if unterminated s then 1 else 0).
Proof.
  induction s as [|c s IH]; [done|]. cbn [Py.readlines newlines].
  destruct (Py.is_newline c) eqn:Hc; cbv iota; cbn [Nat.add].
  - cbn [length]. rewrite IH. destruct s; [cbn; by rewrite Hc|reflexivity].
  - destruct s as [|c' s]; [cbn; by rewrite Hc|].
    change (unterminated (String c (String c' s))) with (unterminated (String c' s)).
    rewrite <- IH. destruct (Py.readlines (String c' s)) as [|l ls] eqn:Hl; [|done].
    by apply readlines_nil in Hl.
Qed.

(** X1.  [_get_total_lines] raises [FileNotFoundError] for a file that is
    not there and changes nothing; for a file that is there it returns
    the number of newline characters of its text, plus one when the text
    ends with a line without newline: an empty file has 0 lines. *)
Theorem get_total_lines_counts (R : Random) (fname : string) (st : State R) :
  _get_total_lines R fname st
  = (st, if isfile (fs st) fname
         then Ok (newlines (fs_text (fs st) fname)
                  + (if unterminated (fs_text (fs st) fname) then 1 else 0))
         else Err (FileNotFoundError fname)).
Proof.
  unfold _get_total_lines, lines_of, bind, get_fs, ret.
  destruct (isfile (fs st) fname) eqn:Hf.
  - rewrite (file_open_Ok _ _ Hf). rewrite count_lines_length, Nat2Z.id.
    unfold fs_lines. by rewrite readlines_length.
  - by rewrite (file_open_Err _ _ Hf).
Qed.

(** ** Extraction by indices, in general *)

Lemma yield_loop_passed {A} (items : list A) idx cur remaining :
  cur < idx -> yield_loop items idx cur remaining = [].
Proof.
  revert idx. induction items as [|x items IH]; intros idx Hlt; [done|].
  cbn [yield_loop]. destruct (Nat.eqb_spec idx cur); [lia|]. apply IH. lia.
Qed.

Lemma yield_loop_run {A} (items : list A) idx c rest :
  Sorted le (c :: rest) ->
  idx <= c ->
  Forall2 (fun y i => idx <= i /\ items !! (i - idx) = Some y)
          (yield_loop items idx c (rev rest)) (strict_run (idx + length items) c rest).
Proof.
  revert idx c rest. induction items as [|x items IH]; intros idx c rest Hs Hle.
  - cbn [yield_loop length]. destruct rest; cbn [strict_run];
      destruct (Nat.ltb_spec c (idx + 0)); try lia; constructor.
  - assert (forall out l, Forall2 (fun y i => S idx <= i /\ items !! (i - S idx) = Some y) out l ->
                     Forall2 (fun y i => idx <= i /\ (x :: items) !! (i - idx) = Some y) out l)
      as Hshift.
    { intros out l Hout. eapply Forall2_impl; [exact Hout|].
      intros y i [Hi Hy]. split; [lia|].
      replace (i - idx) with (S (i - S idx)) by lia. done. }
    assert (forall c0 rest0, strict_run (idx + length (x :: items)) c0 rest0
                             = strict_run (S idx + length items) c0 rest0) as Hn.
    { intros. f_equal. cbn [length]. lia. }
    cbn [yield_loop]. destruct (Nat.eqb_spec idx c) as [->|Hne].
    + destruct rest as [|c' rest].
      * cbn [strict_run rev]. destruct (Nat.ltb_spec c (c + length (x :: items)));
          [|cbn [length] in *; lia].
        cbn. constructor; [|constructor]. split; [done|]. by rewrite Nat.sub_diag.
      * rewrite pop_rev_cons. cbn [strict_run].
        destruct (Nat.ltb_spec c (c + length (x :: items))); [|cbn [length] in *; lia].
        constructor; [split; [done|]; by rewrite Nat.sub_diag|].
        apply Sorted_inv in Hs as [Hs Hhd]. apply HdRel_inv in Hhd.
        destruct (Nat.ltb_spec c c') as [Hlt|Hge].
        -- rewrite Hn. apply Hshift, IH; [done|lia].
        -- rewrite yield_loop_passed by lia. constructor.
    + rewrite Hn. apply Hshift, IH; [done|lia].
Qed.

Lemma yield_subset_met {A} (items : list A) (indices : list nat) :
  Forall2 (fun y i => items !! i = Some y)
          (_yield_subset items indices) (met_indices (length items) indices).
Proof.
  unfold _yield_subset, met_indices.
  pose proof (ascending_Permutation indices) as Hp.
  pose proof (stable_sort_nat_Sorted (rev indices)) as Hs.
  rewrite <- ascending_stable_sort in Hs.
  destruct indices as [|i0 indices].
  { apply Permutation_nil_r in Hp as ->. constructor. }
  fold (ascending (i0 :: indices)).
  destruct (ascending (i0 :: indices)) as [|c rest] eqn:Hasc.
  { by apply Permutation_nil_cons in Hp. }
  replace (Py.sorted Nat.ltb (fun i => i) true (i0 :: indices)) with (rev (c :: rest)).
  2:{ rewrite <- Hasc. unfold ascending. by rewrite rev_involutive. }
  rewrite pop_rev_cons.
  eapply Forall2_impl; [apply (yield_loop_run items 0 c rest Hs); lia|].
  cbn beta. intros y i [_ Hy]. by rewrite Nat.sub_0_r in Hy.
Qed.

Lemma strict_run_length (n c : nat) (rest : list nat) :
  length (strict_run n c rest) <= S (length rest).
Proof.
  revert c. induction rest as [|c' rest IH]; intros c; cbn [strict_run].
  - destruct (Nat.ltb c n); cbn; lia.
  - destruct (Nat.ltb c n); cbn [length]; [|lia].
    destruct (Nat.ltb c c'); cbn [length]; [|lia]. specialize (IH c'). lia.
Qed.

(** X2.  For any list of indices, [_yield_subset] yields the items at
    the indices it meets: it goes through the indices in ascending order
    and stops at the first one that is not below the number of items or
    not above the one before.  So indices past the end are left out, and
    an index that occurs twice ends the extraction after its item. *)
Theorem yield_subset_any_indices {A} (items : list A) (indices : list nat) :
  Forall2 (fun y i => items !! i = Some y)
          (_yield_subset items indices) (met_indices (length items) indices).
Proof. apply yield_subset_met. Qed.

(** X3.  Whatever the indices, what [_yield_subset] yields is a
    subsequence of the items, in their order, of at most as many items
    as there are indices. *)
Theorem yield_subset_subsequence {A} (items : list A) (indices : list nat) :
  sublist (_yield_subset items indices) items /\
  length (_yield_subset items indices) <= length indices.
Proof.
  split; [apply yield_subset_sublist|].
  rewrite (Forall2_length _ _ _ (yield_subset_met items indices)).
  unfold met_indices. pose proof (ascending_Permutation indices) as Hp.
  apply Permutation_length in Hp. rewrite <- Hp.
  destruct (ascending indices) as [|c rest]; [cbn; lia|]. apply strict_run_length.
Qed.

(** ** Rank reordering, in general *)

Lemma sorted_Permutation {A K} (lt : K -> K -> bool) (key : A -> K) (reverse : bool) l :
  Permutation (Py.sorted lt key reverse l) l.
Proof.
  unfold Py.sorted. destruct reverse; [|apply stable_sort_Permutation].
  rewrite <- Permutation_rev, stable_sort_Permutation. symmetry. apply Permutation_rev.
Qed.

Lemma Sorted_snoc {A} (S : A -> A -> Prop) (l : list A) (x : A) :
  Sorted S l -> (forall y, last l = Some y -> S y x) -> Sorted S (l ++ [x]).
Proof.
  induction 1 as [|y l Hl IH Hhd]; intros Hlast; cbn.
  - by repeat constructor.
  - constructor.
    + apply IH. intros z Hz. apply Hlast. destruct l; [done|exact Hz].
    + destruct Hhd as [|z l Hz]; cbn; constructor; [|done]. by apply Hlast.
Qed.

Lemma Sorted_rev_flip {A} (S : A -> A -> Prop) (l : list A) :
  Sorted S l -> Sorted (fun a b => S b a) (rev l).
Proof.
  induction 1 as [|x l Hl IH Hhd]; cbn [rev]; [constructor|].
  apply Sorted_snoc; [done|]. intros y Hy.
  destruct Hhd as [|z l Hz]; [done|].
  assert (last (rev (z :: l)) = Some z) as Hz'.
  { cbn [rev]. apply last_snoc. }
  congruence.
Qed.

Section SortKeys.
Context {A K : Type} (lt : K -> K -> bool) (key : A -> K).
Hypothesis lt_asym : forall a b, lt a b = true -> lt b a = false.

Lemma insert_sorted_Sorted x l :
  Sorted (fun a b => lt (key b) (key a) = false) l ->
  Sorted (fun a b => lt (key b) (key a) = false) (Py.insert_sorted lt key x l).
Proof.
  induction 1 as [|y l Hl IH Hhd]; cbn [Py.insert_sorted]; [by repeat constructor|].
  destruct (lt (key y) (key x)) eqn:Hyx.
  - constructor; [done|].
    destruct Hhd as [|z l Hz]; cbn [Py.insert_sorted].
    + constructor. by apply lt_asym.
    + destruct (lt (key z) (key x)); constructor; [done|by apply lt_asym].
  - constructor; [by constructor|]. by constructor.
Qed.

Lemma stable_sort_Sorted l :
  Sorted (fun a b => lt (key b) (key a) = false) (Py.stable_sort lt key l).
Proof.
  induction l as [|x l IH]; cbn; [constructor|]. by apply insert_sorted_Sorted.
Qed.

(** In the reversed sort no item has a key below that of the next. *)
Lemma sorted_reverse_Sorted l :
  Sorted (fun a b => lt (key a) (key b) = false) (Py.sorted lt key true l).
Proof. unfold Py.sorted. apply (Sorted_rev_flip _ _ (stable_sort_Sorted (rev l))). Qed.
End SortKeys.

Section SortStable.
Context {A : Type} (key : A -> string).

Lemma ltb_irrefl (a : string) : String.ltb a a = false.
Proof.
  unfold String.ltb. assert ((a ?= a)%string = Eq) as ->; [|done].
  induction a as [|c a IH]; [done|]. cbn [String.compare].
  unfold Ascii.compare. by rewrite N.compare_refl.
Qed.

Lemma ltb_asym (a b : string) : String.ltb a b = true -> String.ltb b a = false.
Proof.
  unfold String.ltb. rewrite (String.compare_antisym a b).
  by destruct (b ?= a)%string.
Qed.

Lemma insert_sorted_filter (k : string) x l :
  List.filter (fun r => String.eqb (key r) k) (Py.insert_sorted Py.str_lt key x l)
  = List.filter (fun r => String.eqb (key r) k) (x :: l).
Proof.
  induction l as [|y l IH]; [done|]. cbn [Py.insert_sorted].
  destruct (Py.str_lt (key y) (key x)) eqn:Hyx; [|done].
  cbn [List.filter] in *. rewrite IH.
  destruct (String.eqb_spec (key x) k) as [Hx|Hx], (String.eqb_spec (key y) k) as [Hy|Hy];
    try done.
  unfold Py.str_lt in Hyx. rewrite Hx, Hy, ltb_irrefl in Hyx. done.
Qed.

Lemma stable_sort_filter (k : string) l :
  List.filter (fun r => String.eqb (key r) k) (Py.stable_sort Py.str_lt key l)
  = List.filter (fun r => String.eqb (key r) k) l.
Proof.
  induction l as [|x l IH]; [done|]. cbn [Py.stable_sort foldr].
  fold (Py.stable_sort Py.str_lt key l).
  rewrite insert_sorted_filter. cbn [List.filter]. by rewrite IH.
Qed.

Lemma filter_rev (P : A -> bool) (l : list A) :
  List.filter P (rev l) = rev (List.filter P l).
Proof.
  induction l as [|x l IH]; [done|]. cbn [rev List.filter].
  rewrite List.filter_app, IH. cbn [List.filter]. destruct (P x); [done|].
  by rewrite app_nil_r.
Qed.

(** Sorting, reversed or not, keeps the items of one key in their order. *)
Lemma sorted_filter (k : string) (reverse : bool) l :
  List.filter (fun r => String.eqb (key r) k) (Py.sorted Py.str_lt key reverse l)
  = List.filter (fun r => String.eqb (key r) k) l.
Proof.
  unfold Py.sorted. destruct reverse; [|apply stable_sort_filter].
  by rewrite filter_rev, stable_sort_filter, filter_rev, rev_involutive.
Qed.
End SortStable.

(** *** Reading the columns back *)

Lemma splitlines_no_break_upto (n : nat) (s : string) :
  String.length s <= n -> Forall (fun l => no_break l = true) (Py.splitlines s).
Proof.
  revert s. induction n as [|n IH]; intros [|c s] Hn; cbn in Hn; try lia; try constructor.
  cbn [Py.splitlines]. destruct (Py.is_linebreak c) eqn:Hc.
  - destruct s as [|c' s]; [by repeat constructor|]. cbn in Hn.
    destruct (_ && _); (constructor; [done|]); apply IH; cbn; lia.
  - assert (Forall (fun l => no_break l = true) (Py.splitlines s)) as Hs by (apply IH; lia).
    destruct (Py.splitlines s) as [|l ls].
    + repeat constructor. cbn. by rewrite Hc.
    + apply Forall_cons in Hs as [Hl Hls]. constructor; [|done]. cbn. by rewrite Hc, Hl.
Qed.

Lemma splitlines_no_break (s : string) :
  Forall (fun l => no_break l = true) (Py.splitlines s).
Proof. by apply (splitlines_no_break_upto (String.length s)). Qed.

Lemma splitlines_line (l s : string) :
  no_break l = true -> Py.splitlines (l +:+ Py.nl +:+ s) = l :: Py.splitlines s.
Proof.
  induction l as [|c l IH].
  - intros _. change (EmptyString +:+ Py.nl +:+ s) with (String Py.newline s).
    cbn [Py.splitlines]. change (Py.is_linebreak Py.newline) with true. cbv iota.
    destruct s as [|c' s]; [done|].
    by change (Ascii.eqb Py.newline Py.carriage_return) with false.
  - cbn [no_break]. intros [Hc Hl]%andb_true_iff. rewrite app_cons.
    cbn [Py.splitlines]. apply negb_true_iff in Hc. rewrite Hc. by rewrite (IH Hl).
Qed.

Lemma splitlines_column {A} (field : A -> string) (rows : list A) :
  Forall (fun r => no_break (field r) = true) rows ->
  Py.splitlines (column field rows) = map field rows.
Proof.
  unfold column. induction 1 as [|r rows Hr Hrows IH]; [done|].
  cbn [map Py.concat]. rewrite app_assoc_str. by rewrite splitlines_line, IH.
Qed.

Lemma no_break_has_cr (l : string) : no_break l = true -> has_cr l = false.
Proof.
  induction l as [|c l IH]; [done|]. cbn [no_break has_cr].
  intros [Hc Hl]%andb_true_iff. rewrite (IH Hl), orb_false_r.
  apply negb_true_iff in Hc. destruct (Ascii.eqb_spec c Py.carriage_return) as [->|]; [|done].
  discriminate Hc.
Qed.

Lemma has_cr_column {A} (field : A -> string) (rows : list A) :
  Forall (fun r => no_break (field r) = true) rows -> has_cr (column field rows) = false.
Proof.
  unfold column. induction 1 as [|r rows Hr Hrows IH]; [done|].
  cbn [map Py.concat]. rewrite !has_cr_app, IH, (no_break_has_cr _ Hr). reflexivity.
Qed.

Lemma column_read_back {A} (f : FS) (path : string) (field : A -> string) (rows : list A) :
  Forall (fun r => no_break (field r) = true) rows ->
  files f !! path = Some (column field rows) ->
  Py.splitlines (fs_text f path) = map field rows.
Proof.
  intros Hrows Hf. rewrite (fs_text_Some _ _ _ Hf).
  rewrite universal_newlines_id by (by apply has_cr_column). by apply splitlines_column.
Qed.

Lemma zip3_Forall {A B C} (P : A -> Prop) (Q : B -> Prop) (S : C -> Prop) a b c :
  Forall P a -> Forall Q b -> Forall S c ->
  Forall (fun r => P (fst (fst r)) /\ Q (snd (fst r)) /\ S (snd r)) (Py.zip3 a b c).
Proof.
  intros Ha. revert b c. induction Ha as [|x a Hx Ha IH]; intros b c Hb Hc; [constructor|].
  destruct Hb as [|y b Hy Hb]; [constructor|]. destruct Hc as [|z c Hz Hc]; [constructor|].
  cbn. constructor; [done|]. by apply IH.
Qed.

Lemma zip3_length {A B C} (a : list A) (b : list B) (c : list C) :
  length (Py.zip3 a b c) = Nat.min (length a) (Nat.min (length b) (length c)).
Proof.
  revert b c. induction a as [|x a IH]; intros [|y b] [|z c];
    cbn [Py.zip3 length]; rewrite ?IH; lia.
Qed.

Lemma zip3_columns (rows : list (string * string * string)) :
  Py.zip3 (map row_src rows) (map row_tgt rows) (map row_rank rows) = rows.
Proof. induction rows as [|[[s t] k] rows IH]; [done|]. cbn. by rewrite IH. Qed.

Section RankReadBack.
Context {R : Random}.
Implicit Types st : State R.

Lemma ranked_rows_no_break (f : FS) (i1 i2 i3 : string) :
  Forall (fun r => no_break (row_src r) = true /\ no_break (row_tgt r) = true /\
                   no_break (row_rank r) = true) (ranked_rows f i1 i2 i3).
Proof.
  unfold ranked_rows. rewrite sorted_Permutation.
  apply (zip3_Forall (fun l => no_break l = true) (fun l => no_break l = true)
           (fun l => no_break l = true)); apply splitlines_no_break.
Qed.

(** The three outputs of a ready step, read as lines, are the three
    columns of the sorted rows. *)
Lemma order_by_rank_read_back self parameters overwrite st (i1 i2 i3 o1 o2 o3 : string) :
  rank_step_ready st parameters i1 i2 i3 o1 o2 o3 ->
  let rows := ranked_rows (fs st) i1 i2 i3 in
  let r := order_by_rank R self parameters overwrite st in
  snd r = Ok tt /\
  Py.splitlines (fs_text (fs (fst r)) o1) = map row_src rows /\
  Py.splitlines (fs_text (fs (fst r)) o2) = map row_tgt rows /\
  Py.splitlines (fs_text (fs (fst r)) o3) = map row_rank rows /\
  file_rows (fs (fst r)) o1 o2 o3 = rows.
Proof.
  intros (Hi1 & Hi2 & Hi3 & Ho1 & Ho2 & Ho3 & Hf1 & Hf2 & Hf3 & Hnd & Hio) rows r.
  destruct (order_by_rank_spec (R:=R) self parameters overwrite st i1 i2 i3 o1 o2 o3)
    as (Hok & H1 & H2 & H3); try done.
  fold rows r in H1, H2, H3, Hok.
  pose proof (ranked_rows_no_break (fs st) i1 i2 i3) as Hnb. fold rows in Hnb.
  assert (Py.splitlines (fs_text (fs (fst r)) o1) = map row_src rows) as E1.
  { apply column_read_back; [|done]. eapply Forall_impl; [exact Hnb|]. by intros ? (? & ? & ?). }
  assert (Py.splitlines (fs_text (fs (fst r)) o2) = map row_tgt rows) as E2.
  { apply column_read_back; [|done]. eapply Forall_impl; [exact Hnb|]. by intros ? (? & ? & ?). }
  assert (Py.splitlines (fs_text (fs (fst r)) o3) = map row_rank rows) as E3.
  { apply column_read_back; [|done]. eapply Forall_impl; [exact Hnb|]. by intros ? (? & ? & ?). }
  repeat split; try done. unfold file_rows. rewrite E1, E2, E3. apply zip3_columns.
Qed.
End RankReadBack.

Lemma scenario2_ready :
  rank_step_ready scenario2_state scenario2_parameters
    "src" "tgt" "ranks" "src.sorted" "tgt.sorted" "ranks.sorted".
Proof.
  repeat split; try reflexivity.
  - repeat constructor; set_solver.
  - intros i Hi. set_solver.
Qed.

Lemma tie_ready :
  rank_step_ready tie_state scenario2_parameters
    "src" "tgt" "ranks" "src.sorted" "tgt.sorted" "ranks.sorted".
Proof.
  repeat split; try reflexivity.
  - repeat constructor; set_solver.
  - intros i Hi. set_solver.
Qed.

(** X4.  A ready [order_by_rank] step returns, and the rows its three
    outputs make are a permutation of the rows its three inputs make.
    The inputs are zipped: all three outputs have as many lines as the
    shortest input, and the further lines of a longer input are left
    out. *)
Theorem order_by_rank_rows (R : Random) (self : OpusFilter) (parameters : value)
    (overwrite : bool) (st : State R) (i1 i2 i3 o1 o2 o3 : string) :
  rank_step_ready st parameters i1 i2 i3 o1 o2 o3 ->
  let r := order_by_rank R self parameters overwrite st in
  let n := Nat.min (length (Py.splitlines (fs_text (fs st) i1)))
             (Nat.min (length (Py.splitlines (fs_text (fs st) i2)))
                      (length (Py.splitlines (fs_text (fs st) i3)))) in
  snd r = Ok tt /\
  Permutation (file_rows (fs (fst r)) o1 o2 o3) (file_rows (fs st) i1 i2 i3) /\
  length (Py.splitlines (fs_text (fs (fst r)) o1)) = n /\
  length (Py.splitlines (fs_text (fs (fst r)) o2)) = n /\
  length (Py.splitlines (fs_text (fs (fst r)) o3)) = n.
Proof.
  intros Hready r n.
  destruct (order_by_rank_read_back (R:=R) self parameters overwrite st i1 i2 i3 o1 o2 o3
              Hready) as (Hok & E1 & E2 & E3 & Erows).
  fold r in Hok, E1, E2, E3, Erows.
  assert (length (ranked_rows (fs st) i1 i2 i3) = n) as Hlen.
  { unfold ranked_rows. rewrite (Permutation_length (sorted_Permutation _ _ _ _)).
    apply zip3_length. }
  split; [done|]. split.
  - rewrite Erows. apply sorted_Permutation.
  - by rewrite E1, E2, E3, !length_map.
Qed.

Lemma order_by_rank_rows_witness :
  let r := order_by_rank counter_random here scenario2_parameters false tie_state in
  let n := Nat.min (length (Py.splitlines (fs_text (fs tie_state) "src")))
             (Nat.min (length (Py.splitlines (fs_text (fs tie_state) "tgt")))
                      (length (Py.splitlines (fs_text (fs tie_state) "ranks")))) in
  snd r = Ok tt /\
  Permutation (file_rows (fs (fst r)) "src.sorted" "tgt.sorted" "ranks.sorted")
              (file_rows (fs tie_state) "src" "tgt" "ranks") /\
  length (Py.splitlines (fs_text (fs (fst r)) "src.sorted")) = n /\
  length (Py.splitlines (fs_text (fs (fst r)) "tgt.sorted")) = n /\
  length (Py.splitlines (fs_text (fs (fst r)) "ranks.sorted")) = n.
Proof.
  apply (order_by_rank_rows counter_random here scenario2_parameters false tie_state
           "src" "tgt" "ranks" "src.sorted" "tgt.sorted" "ranks.sorted").
  repeat split; try reflexivity.
  - repeat constructor; set_solver.
  - intros i Hi. set_solver.
Defined.

(** X5.  In the rank output of a ready [order_by_rank] step no line is
    below the next one in the order of strings: the ranks are written in
    non-increasing order of text. *)
Theorem order_by_rank_non_increasing (R : Random) (self : OpusFilter) (parameters : value)
    (overwrite : bool) (st : State R) (i1 i2 i3 o1 o2 o3 : string) :
  rank_step_ready st parameters i1 i2 i3 o1 o2 o3 ->
  let r := order_by_rank R self parameters overwrite st in
  Sorted (fun a b => Py.str_lt a b = false) (Py.splitlines (fs_text (fs (fst r)) o3)).
Proof.
  intros Hready r.
  destruct (order_by_rank_read_back (R:=R) self parameters overwrite st i1 i2 i3 o1 o2 o3
              Hready) as (_ & _ & _ & E3 & _).
  fold r in E3. rewrite E3.
  apply (Sorted_fmap _ (fun a b : string * string * string =>
                          Py.str_lt (snd a) (snd b) = false)); [done|].
  unfold ranked_rows.
  apply (sorted_reverse_Sorted Py.str_lt (fun t : string * string * string => snd t)).
  apply ltb_asym.
Qed.

Lemma order_by_rank_non_increasing_witness :
  let r := order_by_rank counter_random here scenario2_parameters false tie_state in
  Sorted (fun a b => Py.str_lt a b = false)
         (Py.splitlines (fs_text (fs (fst r)) "ranks.sorted")).
Proof.
  apply (order_by_rank_non_increasing counter_random here scenario2_parameters false tie_state
           "src" "tgt" "ranks" "src.sorted" "tgt.sorted" "ranks.sorted").
  repeat split; try reflexivity.
  - repeat constructor; set_solver.
  - intros i Hi. set_solver.
Defined.

(** X6.  A ready [order_by_rank] step keeps rows of equal rank in the
    order of the input: for every rank, the output rows of that rank
    are the input rows of that rank, in the same order. *)
Theorem order_by_rank_stable (R : Random) (self : OpusFilter) (parameters : value)
    (overwrite : bool) (st : State R) (i1 i2 i3 o1 o2 o3 : string) (k : string) :
  rank_step_ready st parameters i1 i2 i3 o1 o2 o3 ->
  let r := order_by_rank R self parameters overwrite st in
  List.filter (fun row => String.eqb (row_rank row) k) (file_rows (fs (fst r)) o1 o2 o3)
  = List.filter (fun row => String.eqb (row_rank row) k) (file_rows (fs st) i1 i2 i3).
Proof.
  intros Hready r.
  destruct (order_by_rank_read_back (R:=R) self parameters overwrite st i1 i2 i3 o1 o2 o3
              Hready) as (_ & _ & _ & _ & Erows).
  fold r in Erows. rewrite Erows. unfold ranked_rows.
  apply (sorted_filter (fun t : string * string * string => snd t)).
Qed.

Lemma order_by_rank_stable_witness :
  let r := order_by_rank counter_random here scenario2_parameters false tie_state in
  List.filter (fun row => String.eqb (row_rank row) "1")
    (file_rows (fs (fst r)) "src.sorted" "tgt.sorted" "ranks.sorted")
  = List.filter (fun row => String.eqb (row_rank row) "1")
      (file_rows (fs tie_state) "src" "tgt" "ranks").
Proof.
  apply (order_by_rank_stable counter_random here scenario2_parameters false tie_state
           "src" "tgt" "ranks" "src.sorted" "tgt.sorted" "ranks.sorted" "1").
  repeat split; try reflexivity.
  - repeat constructor; set_solver.
  - intros i Hi. set_solver.
Defined.

(** The run of the witnesses: rank 2 first, then the two rows of rank 1
    in the order of the input; the fourth source and target lines have no
    rank and are left out. *)
Example order_by_rank_tie_example :
  let r := order_by_rank counter_random here scenario2_parameters false tie_state in
  file_rows (fs (fst r)) "src.sorted" "tgt.sorted" "ranks.sorted"
  = [("B", "y", "2"); ("A", "x", "1"); ("C", "z", "1")].
Proof. vm_compute. reflexivity. Qed.

(** *** An output that is also an input *)

Lemma opened_empty (f : FS) (o1 o2 o3 o : string) :
  o ∈ [o1; o2; o3] ->
  files (fs_open_w o3 (fs_open_w o2 (fs_open_w o1 f))) !! o = Some EmptyString.
Proof.
  intros Ho. unfold fs_open_w. cbn [files]. rewrite !lookup_insert.
  repeat case_decide; try done. set_solver.
Qed.

Lemma zip3_nil {A B C} (a : list A) (b : list B) (c : list C) :
  a = [] \/ b = [] \/ c = [] -> Py.zip3 a b c = [].
Proof. intros [->|[->| ->]]; [done| |]; destruct a; try done; by destruct b. Qed.

(** X7.  When one of the outputs of [order_by_rank] is also one of its
    inputs, that file is emptied before it is read: no row is left, and
    the step returns with all three outputs empty, the input among
    them. *)
Theorem order_by_rank_in_place_empties (R : Random) (self : OpusFilter) (parameters : value)
    (overwrite : bool) (st : State R) (i1 i2 i3 o1 o2 o3 : string) :
  getitem parameters "input_src" = Ok (VStr i1) ->
  getitem parameters "input_tgt" = Ok (VStr i2) ->
  getitem parameters "input_ranks" = Ok (VStr i3) ->
  getitem parameters "output_src" = Ok (VStr o1) ->
  getitem parameters "output_tgt" = Ok (VStr o2) ->
  getitem parameters "output_ranks" = Ok (VStr o3) ->
  isfile (fs st) i1 = true -> isfile (fs st) i2 = true -> isfile (fs st) i3 = true ->
  (exists i, i ∈ [i1; i2; i3] /\ i ∈ [o1; o2; o3]) ->
  let r := order_by_rank R self parameters overwrite st in
  snd r = Ok tt /\
  files (fs (fst r)) !! o1 = Some EmptyString /\
  files (fs (fst r)) !! o2 = Some EmptyString /\
  files (fs (fst r)) !! o3 = Some EmptyString.
Proof.
  intros Hi1 Hi2 Hi3 Ho1 Ho2 Ho3 Hf1 Hf2 Hf3 (i & Hi & Hio) r. subst r.
  rewrite (order_by_rank_run _ _ _ _ i1 i2 i3 o1 o2 o3) by done. cbn zeta.
  set (f := fs_open_w o3 (fs_open_w o2 (fs_open_w o1 (fs st)))).
  assert (ranked_rows f i1 i2 i3 = []) as ->.
  { unfold ranked_rows. rewrite zip3_nil; [done|].
    assert (Py.splitlines (fs_text f i) = []) as Hempty.
    { subst f. by rewrite (fs_text_Some _ _ _ (opened_empty (fs st) o1 o2 o3 i Hio)). }
    set_unfold in Hi. destruct Hi as [->|[->|[->|[]]]]; auto. }
  cbn [write_rows ret fst snd fs].
  repeat split; apply opened_empty; set_solver.
Qed.

Lemma order_by_rank_in_place_empties_witness :
  let r := order_by_rank counter_random here in_place_parameters false scenario2_state in
  snd r = Ok tt /\
  files (fs (fst r)) !! "src" = Some EmptyString /\
  files (fs (fst r)) !! "tgt.sorted" = Some EmptyString /\
  files (fs (fst r)) !! "ranks.sorted" = Some EmptyString.
Proof.
  apply (order_by_rank_in_place_empties counter_random here in_place_parameters false
           scenario2_state "src" "tgt" "ranks" "src" "tgt.sorted" "ranks.sorted");
    try reflexivity.
  exists "src". split; set_solver.
Defined.

(** ** Concatenation *)

Section Concatenate.
Context {R : Random}.
Implicit Types st : State R.

Lemma concatenate_inputs_spec self (out : string) (names : list string) st (c : string) :
  files (fs st) !! out = Some c ->
  Forall (fun n => Py.path_join (output_dir self) n <> out /\
                   isfile (fs st) (Py.path_join (output_dir self) n) = true) names ->
  exists st',
    concatenate_inputs R self out (map VStr names) st = (st', Ok tt) /\
    files (fs st') !! out
      = Some (c +:+ Py.concat (map (fun n => fs_text (fs st) (Py.path_join (output_dir self) n))
                                    names)) /\
    forall q, q <> out -> files (fs st') !! q = files (fs st) !! q.
Proof.
  revert st c. induction names as [|n names IH]; intros st c Hc Hall.
  - exists st. cbn. by rewrite app_empty_r.
  - apply Forall_cons in Hall as [[Hne Hf] Hall].
    cbn [map concatenate_inputs as_str]. rewrite (lift_Ok _ _ _ _ eq_refl).
    rewrite file_open_bind by done. rewrite lines_of_bind.
    destruct (write_lines_spec out (fs_lines (fs st) (Py.path_join (output_dir self) n)) c st Hc)
      as (st1 & Hrun1 & _ & Hp1 & Hq1).
    rewrite (bind_Ok _ _ _ _ _ Hrun1).
    unfold fs_lines in Hp1. rewrite concat_readlines in Hp1.
    destruct (IH st1 _ Hp1) as (st' & Hrun & Hp & Hq).
    { eapply Forall_impl; [exact Hall|]. cbn beta. intros m [Hm Hfm]. split; [done|].
      rewrite <- Hfm. apply isfile_ext. by apply Hq1. }
    exists st'. split; [done|]. split.
    + rewrite Hp, app_assoc_str. cbn [map Py.concat].
      assert (map (fun m => fs_text (fs st1) (Py.path_join (output_dir self) m)) names
              = map (fun m => fs_text (fs st) (Py.path_join (output_dir self) m)) names) as ->;
        [|done].
      apply map_ext_Forall. eapply Forall_impl; [exact Hall|]. cbn beta.
      intros m [Hm _]. unfold fs_text. by rewrite Hq1.
    + intros q Hqne. by rewrite Hq, Hq1.
Qed.

Lemma concatenate_inputs_missing self (out : string) (pre : list string) (miss : string)
    (post : list string) st (c : string) :
  files (fs st) !! out = Some c ->
  Forall (fun n => Py.path_join (output_dir self) n <> out /\
                   isfile (fs st) (Py.path_join (output_dir self) n) = true) pre ->
  Py.path_join (output_dir self) miss <> out ->
  isfile (fs st) (Py.path_join (output_dir self) miss) = false ->
  exists st',
    concatenate_inputs R self out (map VStr (pre ++ miss :: post)) st
      = (st', Err (FileNotFoundError (Py.path_join (output_dir self) miss))) /\
    files (fs st') !! out
      = Some (c +:+ Py.concat (map (fun n => fs_text (fs st) (Py.path_join (output_dir self) n))
                                    pre)).
Proof.
  revert st c. induction pre as [|n pre IH]; intros st c Hc Hall Hne Hmiss.
  - exists st. cbn [app map concatenate_inputs as_str Py.concat].
    rewrite (lift_Ok _ _ _ _ eq_refl).
    rewrite (bind_Err _ _ _ _ _ (file_open_Err _ _ Hmiss)). by rewrite app_empty_r.
  - apply Forall_cons in Hall as [[Hn Hf] Hall].
    cbn [app map concatenate_inputs as_str]. rewrite (lift_Ok _ _ _ _ eq_refl).
    rewrite file_open_bind by done. rewrite lines_of_bind.
    destruct (write_lines_spec out (fs_lines (fs st) (Py.path_join (output_dir self) n)) c st Hc)
      as (st1 & Hrun1 & _ & Hp1 & Hq1).
    rewrite (bind_Ok _ _ _ _ _ Hrun1).
    unfold fs_lines in Hp1. rewrite concat_readlines in Hp1.
    destruct (IH st1 _ Hp1) as (st' & Hrun & Hp); [|done|..].
    { eapply Forall_impl; [exact Hall|]. cbn beta. intros m [Hm Hfm]. split; [done|].
      rewrite <- Hfm. apply isfile_ext. by apply Hq1. }
    { rewrite <- Hmiss. apply isfile_ext. by apply Hq1. }
    exists st'. split; [done|].
    rewrite Hp, app_assoc_str. cbn [map Py.concat].
    assert (map (fun m => fs_text (fs st1) (Py.path_join (output_dir self) m)) pre
            = map (fun m => fs_text (fs st) (Py.path_join (output_dir self) m)) pre) as ->;
      [|done].
    apply map_ext_Forall. eapply Forall_impl; [exact Hall|]. cbn beta.
    intros m [Hm _]. unfold fs_text. by rewrite Hq1.
Qed.

Lemma guard1_open overwrite (f : FS) out :
  overwrite = true \/ isfile f out = false -> negb overwrite && isfile f out = false.
Proof. intros [->| ->]; [reflexivity|]. by rewrite andb_false_r. Qed.
End Concatenate.

(** X8.  A [concatenate] step that is run on inputs that exist and are
    not its output returns, and its output holds the texts of the inputs
    one after the other, as they are: a last line without newline runs
    into the first line of the next input.  No other file changes. *)
Theorem concatenate_joins_texts (R : Random) (self : OpusFilter) (parameters : value)
    (overwrite : bool) (st : State R) (o : string) (names : list string) :
  let out := Py.path_join (output_dir self) o in
  getitem parameters "output" = Ok (VStr o) ->
  getitem parameters "inputs" = Ok (VList (map VStr names)) ->
  overwrite = true \/ isfile (fs st) out = false ->
  Forall (fun n => Py.path_join (output_dir self) n <> out /\
                   isfile (fs st) (Py.path_join (output_dir self) n) = true) names ->
  let r := concatenate R self parameters overwrite st in
  snd r = Ok tt /\
  files (fs (fst r)) !! out
    = Some (Py.concat (map (fun n => fs_text (fs st) (Py.path_join (output_dir self) n)) names)) /\
  forall q, q <> out -> files (fs (fst r)) !! q = files (fs st) !! q.
Proof.
  intros out Ho Hin Hrun Hall r.
  assert (exists st', r = (st', Ok tt) /\
            files (fs st') !! out
              = Some (Py.concat (map (fun n => fs_text (fs st) (Py.path_join (output_dir self) n))
                                     names)) /\
            forall q, q <> out -> files (fs st') !! q = files (fs st) !! q)
    as (st' & -> & ? & ?); [|done].
  subst r. unfold concatenate.
  rewrite (path_item_Ok _ _ _ _ _ _ Ho), get_fs_bind. fold out.
  rewrite (guard1_open _ _ _ Hrun). cbv beta iota.
  rewrite file_open_w_bind, (lift_Ok _ _ _ _ Hin). cbn [py_iter].
  rewrite (lift_Ok _ _ _ _ eq_refl).
  set (st0 := mkState (fs_open_w out (fs st)) (rng st)).
  destruct (concatenate_inputs_spec (R:=R) self out names st0 EmptyString)
    as (st' & Hrun' & Hp & Hq).
  { apply files_open_w_eq. }
  { eapply Forall_impl; [exact Hall|]. cbn beta. intros n [Hn Hf]. split; [done|].
    subst st0; cbn [fs]. by rewrite isfile_open_w_ne. }
  exists st'. split; [done|]. split.
  - rewrite Hp.
    assert (map (fun m => fs_text (fs st0) (Py.path_join (output_dir self) m)) names
            = map (fun m => fs_text (fs st) (Py.path_join (output_dir self) m)) names) as ->;
      [|done].
    apply map_ext_Forall.
    eapply Forall_impl; [exact Hall|]. cbn beta. intros n [Hn _].
    subst st0; cbn [fs]. by rewrite fs_text_open_w_ne.
  - intros q Hqne. rewrite (Hq q Hqne). subst st0; cbn [fs]. by rewrite files_open_w_ne.
Qed.

Lemma concatenate_joins_texts_witness :
  let r := concatenate counter_random here (concatenate_parameters ["a"; "b"]) false
             concatenate_state in
  snd r = Ok tt /\
  files (fs (fst r)) !! "./all"
    = Some (Py.concat (map (fun n => fs_text (fs concatenate_state) (Py.path_join "." n))
                           ["a"; "b"])) /\
  forall q, q <> "./all" -> files (fs (fst r)) !! q = files (fs concatenate_state) !! q.
Proof.
  apply (concatenate_joins_texts counter_random here (concatenate_parameters ["a"; "b"]) false
           concatenate_state "all" ["a"; "b"]); try reflexivity.
  - right. reflexivity.
  - repeat constructor; try discriminate; reflexivity.
Defined.

(** The output of the witness: the unterminated line "y" of [a] and the
    line "z" of [b] have become one line. *)
Example concatenate_joins_lines_example :
  let r := concatenate counter_random here (concatenate_parameters ["a"; "b"]) false
             concatenate_state in
  fs_lines (fs (fst r)) "./all" = [newline_text "x"; newline_text "yz"].
Proof. vm_compute. reflexivity. Qed.

(** X9.  When an input of a [concatenate] step that is run is missing,
    the step raises [FileNotFoundError] for it and leaves behind an
    output that holds the texts of the inputs before the missing one;
    run again with [overwrite] off, the step finds that output and
    returns without doing anything. *)
Theorem concatenate_missing_input (R : Random) (self : OpusFilter) (parameters : value)
    (overwrite : bool) (st : State R) (o : string) (pre : list string) (miss : string)
    (post : list string) :
  let out := Py.path_join (output_dir self) o in
  getitem parameters "output" = Ok (VStr o) ->
  getitem parameters "inputs" = Ok (VList (map VStr (pre ++ miss :: post))) ->
  overwrite = true \/ isfile (fs st) out = false ->
  Forall (fun n => Py.path_join (output_dir self) n <> out /\
                   isfile (fs st) (Py.path_join (output_dir self) n) = true) pre ->
  Py.path_join (output_dir self) miss <> out ->
  isfile (fs st) (Py.path_join (output_dir self) miss) = false ->
  let r := concatenate R self parameters overwrite st in
  snd r = Err (FileNotFoundError (Py.path_join (output_dir self) miss)) /\
  files (fs (fst r)) !! out
    = Some (Py.concat (map (fun n => fs_text (fs st) (Py.path_join (output_dir self) n)) pre)) /\
  concatenate R self parameters false (fst r) = (fst r, Ok tt).
Proof.
  intros out Ho Hin Hrun Hall Hne Hmiss r.
  assert (exists st', r = (st', Err (FileNotFoundError (Py.path_join (output_dir self) miss))) /\
            files (fs st') !! out
              = Some (Py.concat (map (fun n => fs_text (fs st) (Py.path_join (output_dir self) n))
                                     pre)))
    as (st' & -> & Hout).
  { subst r. unfold concatenate.
    rewrite (path_item_Ok _ _ _ _ _ _ Ho), get_fs_bind. fold out.
    rewrite (guard1_open _ _ _ Hrun). cbv beta iota.
    rewrite file_open_w_bind, (lift_Ok _ _ _ _ Hin). cbn [py_iter].
    rewrite (lift_Ok _ _ _ _ eq_refl).
    set (st0 := mkState (fs_open_w out (fs st)) (rng st)).
    destruct (concatenate_inputs_missing (R:=R) self out pre miss post st0 EmptyString)
      as (st' & Hrun' & Hp).
    { apply files_open_w_eq. }
    { eapply Forall_impl; [exact Hall|]. cbn beta. intros n [Hn Hf]. split; [done|].
      subst st0; cbn [fs]. by rewrite isfile_open_w_ne. }
    { done. }
    { subst st0; cbn [fs]. by rewrite isfile_open_w_ne. }
    exists st'. split; [done|]. rewrite Hp.
    assert (map (fun m => fs_text (fs st0) (Py.path_join (output_dir self) m)) pre
            = map (fun m => fs_text (fs st) (Py.path_join (output_dir self) m)) pre) as ->;
      [|done].
    apply map_ext_Forall.
    eapply Forall_impl; [exact Hall|]. cbn beta. intros n [Hn _].
    subst st0; cbn [fs]. by rewrite fs_text_open_w_ne. }
  cbn [fst snd]. split; [done|]. split; [done|].
  unfold concatenate. rewrite (path_item_Ok _ _ _ _ _ _ Ho), get_fs_bind. fold out.
  by rewrite (isfile_Some _ _ _ Hout).
Qed.

Lemma concatenate_missing_input_witness :
  let r := concatenate counter_random here (concatenate_parameters ["a"; "missing"; "b"])
             false concatenate_state in
  snd r = Err (FileNotFoundError (Py.path_join "." "missing")) /\
  files (fs (fst r)) !! "./all"
    = Some (Py.concat (map (fun n => fs_text (fs concatenate_state) (Py.path_join "." n))
                           ["a"])) /\
  concatenate counter_random here (concatenate_parameters ["a"; "missing"; "b"]) false (fst r)
  = (fst r, Ok tt).
Proof.
  apply (concatenate_missing_input counter_random here
           (concatenate_parameters ["a"; "missing"; "b"]) false concatenate_state
           "all" ["a"] "missing" ["b"]); try reflexivity; try discriminate.
  - right. reflexivity.
  - repeat constructor; try discriminate; reflexivity.
Defined.

(** ** The guard, handler by handler *)

(** X10.  With [overwrite] off and both declared outputs present,
    [filter_data] and [read_from_opus] return at once with the state as it
    is, whatever their other parameters and inputs; so does [get_subset],
    provided its two input names are there, which it looks up before the
    guard. *)
Theorem two_output_handlers_skip (R : Random) (X : Collaborators) (self : OpusFilter)
    (parameters : value) (st : State R) (so to : string) :
  getitem parameters "src_output" = Ok (VStr so) ->
  getitem parameters "tgt_output" = Ok (VStr to) ->
  isfile (fs st) (Py.path_join (output_dir self) so) = true ->
  isfile (fs st) (Py.path_join (output_dir self) to) = true ->
  filter_data R X self parameters false st = (st, Ok tt) /\
  read_from_opus R X self parameters false st = (st, Ok tt) /\
  (forall si ti,
     getitem parameters "src_input" = Ok (VStr si) ->
     getitem parameters "tgt_input" = Ok (VStr ti) ->
     get_subset R self parameters false st = (st, Ok tt)) /\
  (getitem parameters "src_input" = Err (KeyError (VStr "src_input")) ->
   get_subset R self parameters false st = (st, Err (KeyError (VStr "src_input")))).
Proof.
  intros Hso Hto Hfs Hft. split; [by eapply filter_data_skips|].
  split; [by eapply read_from_opus_skips|]. split.
  - intros si ti Hsi Hti. by eapply get_subset_skips.
  - intros Hsi. unfold get_subset, path_item. by rewrite Hsi.
Qed.

Lemma two_output_handlers_skip_witness :
  filter_data counter_random idle_collaborators here filter_parameters false done_state
    = (done_state, Ok tt) /\
  read_from_opus counter_random idle_collaborators here filter_parameters false done_state
    = (done_state, Ok tt) /\
  (forall si ti,
     getitem filter_parameters "src_input" = Ok (VStr si) ->
     getitem filter_parameters "tgt_input" = Ok (VStr ti) ->
     get_subset counter_random here filter_parameters false done_state = (done_state, Ok tt)) /\
  (getitem filter_parameters "src_input" = Err (KeyError (VStr "src_input")) ->
   get_subset counter_random here filter_parameters false done_state
   = (done_state, Err (KeyError (VStr "src_input")))).
Proof.
  apply (two_output_handlers_skip counter_random idle_collaborators here filter_parameters
           done_state "src.sub" "tgt.sub"); reflexivity.
Defined.

(** X11.  With [overwrite] off and its declared output present, each of
    [concatenate], [train_alignment] and [score_data], whose output is
    named by [output], and [train_ngram], whose output is named by
    [model], returns at once with the state as it is: no input is
    opened, no collaborator is called. *)
Theorem single_output_handlers_skip (R : Random) (X : Collaborators)
    (h : OpusFilter -> value -> bool -> M R unit) (key : string) (self : OpusFilter)
    (parameters : value) (st : State R) (o : string) :
  h = concatenate R /\ key = "output" \/ h = train_ngram R X /\ key = "model" \/
  h = train_alignment R X /\ key = "output" \/ h = score_data R X /\ key = "output" ->
  getitem parameters key = Ok (VStr o) ->
  isfile (fs st) (Py.path_join (output_dir self) o) = true ->
  h self parameters false st = (st, Ok tt).
Proof. apply single_output_skips. Qed.

Lemma single_output_handlers_skip_witness :
  train_ngram counter_random idle_collaborators here ngram_parameters false trained_state
  = (trained_state, Ok tt).
Proof.
  apply (single_output_handlers_skip counter_random idle_collaborators
           (train_ngram counter_random idle_collaborators) "model" here ngram_parameters
           trained_state "lm"); [|reflexivity|reflexivity].
  right; left. split; reflexivity.
Defined.

(** The same on a [score] step whose output is there. *)
Example score_data_skips_example :
  score_data counter_random idle_collaborators here score_parameters false scored_state
  = (scored_state, Ok tt).
Proof. reflexivity. Qed.

(** ** Partial runs and step numbers *)

Section Partial.
Context {R : Random} {X : Collaborators}.
Implicit Types st : State R.

Lemma execute_steps_from_last self overwrite (n : Z) (num : nat) (steps : list value) st :
  execute_steps_from R X self overwrite (Some n) num steps st
  = execute_steps_from R X self overwrite None num (take (Z.to_nat n - num) steps) st.
Proof.
  revert num st. induction steps as [|step steps IH]; intros num st.
  - by rewrite take_nil.
  - cbn [execute_steps_from]. destruct (Z.ltb_spec n (Z.of_nat num + 1)) as [Hlt|Hge].
    + replace (Z.to_nat n - num) with 0 by lia. reflexivity.
    + replace (Z.to_nat n - num) with (S (Z.to_nat n - S num)) by lia.
      cbn [take execute_steps_from]. unfold bind.
      destruct (run_step R X self step overwrite st) as [st1 [[]|e]]; [|done].
      apply IH.
Qed.
End Partial.

(** X12.  [execute_steps] with [last = n] runs the first [n] steps of
    the list, as the full run of those steps alone would: what comes
    after them is not looked at, not even for its kind, and with [n] zero
    or negative nothing is run. *)
Theorem execute_steps_stops_after_last (R : Random) (X : Collaborators) (self : OpusFilter)
    (overwrite : bool) (n : Z) (st : State R) (steps : list value) :
  getitem (configuration self) "steps" = Ok (VList steps) ->
  execute_steps R X self overwrite (Some n) st
  = execute_steps_from R X self overwrite None 0 (take (Z.to_nat n) steps) st.
Proof.
  intros Hs. unfold execute_steps. rewrite Hs. cbn [rbind py_iter].
  rewrite (lift_Ok _ _ _ _ eq_refl), execute_steps_from_last. by rewrite Nat.sub_0_r.
Qed.

Lemma execute_steps_stops_after_last_witness :
  execute_steps counter_random idle_collaborators bogus_pipeline false (Some 1%Z) bogus_state
  = execute_steps_from counter_random idle_collaborators bogus_pipeline false None 0
      (take (Z.to_nat 1) [concatenate_step; bogus_step]) bogus_state.
Proof.
  apply (execute_steps_stops_after_last counter_random idle_collaborators bogus_pipeline false
           1%Z bogus_state [concatenate_step; bogus_step]).
  reflexivity.
Defined.

(** The run of the witness returns: the unknown kind of the second step
    goes unnoticed. *)
Example execute_steps_last_hides_unknown_kind :
  snd (execute_steps counter_random idle_collaborators bogus_pipeline false (Some 1%Z)
         bogus_state) = Ok tt.
Proof. vm_compute. reflexivity. Qed.

(** X13.  [execute_step] counts the steps from 1: a number between 1
    and the number of steps executes the step at that position, a number
    between minus the number of steps and -1 counts from the end, and a
    number beyond either bound raises [IndexError] with nothing run.
    Executing a step is calling the handler of its kind on its
    parameters: the outcome is the outcome of that call. *)
Theorem execute_step_numbering (R : Random) (X : Collaborators) (self : OpusFilter)
    (num : Z) (overwrite : bool) (st : State R) (steps : list value) :
  getitem (configuration self) "steps" = Ok (VList steps) ->
  let len := Z.of_nat (length steps) in
  ((1 <= num <= len)%Z ->
   exists step, steps !! Z.to_nat (num - 1) = Some step /\
     execute_step R X self num overwrite st = run_step R X self step overwrite st /\
     forall kind (h : handler R) parameters,
       getitem step "type" = Ok kind ->
       step_function R X self kind = Ok h ->
       getitem step "parameters" = Ok parameters ->
       execute_step R X self num overwrite st = h parameters overwrite st) /\
  ((- len <= num <= -1)%Z ->
   exists step, steps !! Z.to_nat (len + num) = Some step /\
     execute_step R X self num overwrite st = run_step R X self step overwrite st /\
     forall kind (h : handler R) parameters,
       getitem step "type" = Ok kind ->
       step_function R X self kind = Ok h ->
       getitem step "parameters" = Ok parameters ->
       execute_step R X self num overwrite st = h parameters overwrite st) /\
  ((len < num \/ num < - len)%Z ->
   execute_step R X self num overwrite st = (st, Err IndexError)).
Proof.
  intros Hs len. split; [|split].
  - intros Hnum.
    rewrite (execute_step_index self num overwrite st steps (num - 1) Hs)
      by (destruct (Z.ltb_spec num 0); [lia|done]).
    unfold list_index. destruct (Z.ltb_spec (num - 1) 0); [lia|]. cbn [Z.ltb].
    destruct (Z.ltb_spec (num - 1) 0); [lia|].
    destruct (lookup_lt_is_Some_2 steps (Z.to_nat (num - 1))) as [step Hstep]; [lia|].
    rewrite Hstep. exists step. split; [done|]. split; [done|].
    intros kind h parameters Hk Hh Hp.
    by apply (run_step_handler self overwrite step kind h parameters st).
  - intros Hnum.
    rewrite (execute_step_index self num overwrite st steps num Hs)
      by (destruct (Z.ltb_spec num 0); [done|lia]).
    unfold list_index. destruct (Z.ltb_spec num 0); [|lia].
    fold len. destruct (Z.ltb_spec (num + len) 0); [lia|].
    replace (num + len)%Z with (len + num)%Z by lia.
    destruct (lookup_lt_is_Some_2 steps (Z.to_nat (len + num))) as [step Hstep]; [lia|].
    rewrite Hstep. exists step. split; [done|]. split; [done|].
    intros kind h parameters Hk Hh Hp.
    by apply (run_step_handler self overwrite step kind h parameters st).
  - intros Hnum. destruct (Z.ltb_spec num 0) as [Hneg|Hpos].
    + rewrite (execute_step_index self num overwrite st steps num Hs)
        by (destruct (Z.ltb_spec num 0); [done|lia]).
      unfold list_index. destruct (Z.ltb_spec num 0); [|lia]. fold len.
      destruct (Z.ltb_spec (num + len) 0); [done|lia].
    + rewrite (execute_step_index self num overwrite st steps (num - 1) Hs)
        by (destruct (Z.ltb_spec num 0); [lia|done]).
      unfold list_index. destruct (Z.ltb_spec (num - 1) 0) as [Hz|Hz].
      * fold len. destruct (Z.ltb_spec (num - 1 + len) 0); [done|lia].
      * destruct (Z.ltb_spec (num - 1) 0); [lia|].
        rewrite lookup_ge_None_2; [done|lia].
Qed.

Lemma execute_step_numbering_witness :
  execute_step counter_random idle_collaborators two_steps 1 false scenario2_state
  = concatenate counter_random two_steps (concatenate_parameters ["a"]) false scenario2_state /\
  execute_step counter_random idle_collaborators two_steps (-2) false scenario2_state
  = concatenate counter_random two_steps (concatenate_parameters ["a"]) false scenario2_state /\
  execute_step counter_random idle_collaborators two_steps 2 false scenario2_state
  = order_by_rank counter_random two_steps scenario2_parameters false scenario2_state /\
  execute_step counter_random idle_collaborators two_steps 3 false scenario2_state
  = (scenario2_state, Err IndexError).
Proof.
  pose proof (fun num => execute_step_numbering counter_random idle_collaborators two_steps
                           num false scenario2_state [concatenate_step; rank_step] eq_refl)
    as Hnum.
  cbv zeta in Hnum. split; [|split; [|split]].
  - destruct (Hnum 1%Z) as [H _]. destruct H as (step & Hstep & _ & Hcall); [cbn; lia|].
    injection Hstep as <-.
    apply (Hcall (VStr "concatenate") (concatenate counter_random two_steps)); reflexivity.
  - destruct (Hnum (-2)%Z) as (_ & H & _). destruct H as (step & Hstep & _ & Hcall); [cbn; lia|].
    injection Hstep as <-.
    apply (Hcall (VStr "concatenate") (concatenate counter_random two_steps)); reflexivity.
  - destruct (Hnum 2%Z) as [H _]. destruct H as (step & Hstep & _ & Hcall); [cbn; lia|].
    injection Hstep as <-.
    apply (Hcall (VStr "order_by_rank") (order_by_rank counter_random two_steps)); reflexivity.
  - destruct (Hnum 3%Z) as (_ & _ & H). apply H. cbn. lia.
Defined.

(** The first run of the witness, spelled out: the handler of the first
    step opens its output [./all] and then misses its input [./a]. *)
Example execute_step_one_example :
  let r := execute_step counter_random idle_collaborators two_steps 1 false scenario2_state in
  snd r = Err (FileNotFoundError "./a") /\
  files (fs scenario2_state) !! "./all" = None /\
  files (fs (fst r)) !! "./all" = Some EmptyString.
Proof. vm_compute. repeat split. Qed.

(** ** Filtering *)

Section Filter.
Context {R : Random} {X : Collaborators}.
Implicit Types st : State R.

Lemma write_pairs_spec (so to : string) (limit : value) (idx : Z)
    (sp : list (string * string)) st (c1 c2 : string) :
  so <> to ->
  limit = VNone \/ (exists z, limit = VInt z) ->
  files (fs st) !! so = Some c1 ->
  files (fs st) !! to = Some c2 ->
  exists st',
    write_pairs R so to limit idx (map str_pair sp) st = (st', Ok tt) /\
    files (fs st') !! so = Some (c1 +:+ column fst (take_from limit idx sp)) /\
    files (fs st') !! to = Some (c2 +:+ column snd (take_from limit idx sp)).
Proof.
  intros Hne Hlimit. revert idx st c1 c2.
  induction sp as [|[s t] sp IH]; intros idx st c1 c2 Hc1 Hc2.
  - exists st. split; [done|].
    assert (take_from limit idx ([] : list (string * string)) = []) as ->.
    { unfold take_from. destruct limit as [| |z| | |]; try done.
      destruct (Z.eqb z 0); [done|]. by rewrite take_nil. }
    unfold column; cbn. by rewrite !app_empty_r.
  - cbn [map write_pairs str_pair fst snd as_str].
    rewrite (lift_Ok _ _ _ _ eq_refl), write_Ok, (lift_Ok _ _ _ _ eq_refl), write_Ok.
    set (st2 := mkState _ _).
    assert (files (fs st2) !! so = Some (c1 +:+ s +:+ Py.nl)) as Hc1'.
    { subst st2; cbn [fs]. rewrite files_write_ne by done.
      by rewrite files_write_eq, Hc1. }
    assert (files (fs st2) !! to = Some (c2 +:+ t +:+ Py.nl)) as Hc2'.
    { subst st2; cbn [fs]. rewrite files_write_eq, files_write_ne by done. by rewrite Hc2. }
    assert (forall l : list (string * string),
              column fst ((s, t) :: l) = (s +:+ Py.nl) +:+ column fst l /\
              column snd ((s, t) :: l) = (t +:+ Py.nl) +:+ column snd l) as Hcol by done.
    assert (exists st', write_pairs R so to limit (idx + 1) (map str_pair sp) st2 = (st', Ok tt) /\
              files (fs st') !! so = Some (c1 +:+ column fst ((s, t) :: take_from limit (idx + 1) sp)) /\
              files (fs st') !! to = Some (c2 +:+ column snd ((s, t) :: take_from limit (idx + 1) sp)))
      as Hrec.
    { destruct (IH (idx + 1)%Z st2 _ _ Hc1' Hc2') as (st' & Hrun & H1 & H2).
      exists st'. split; [done|].
      destruct (Hcol (take_from limit (idx + 1) sp)) as [-> ->].
      by rewrite H1, H2, !app_assoc_str. }
    destruct Hlimit as [->|[z ->]]; [exact Hrec|].
    cbn [truthy take_from] in *. destruct (Z.eqb z 0) eqn:Hz; cbn [negb]; [exact Hrec|].
    apply Z.eqb_neq in Hz. cbv iota. cbn [as_int]. rewrite (lift_Ok _ _ _ _ eq_refl).
    destruct (Z.leb_spec (z - 1) idx) as [Hstop|Hgo].
    + exists st2. split; [done|].
      replace (Z.to_nat (Z.max 1 (z - idx))) with 1 by lia. cbn [take].
      rewrite Hc1', Hc2'. unfold column; cbn. by rewrite !app_empty_r.
    + replace (Z.to_nat (Z.max 1 (z - idx))) with (S (Z.to_nat (Z.max 1 (z - (idx + 1)))))
        by lia.
      cbn [take]. exact Hrec.
Qed.

Lemma pull_Ok {A B} (gen : FS -> result A) (k : A -> M R B) st (a : A) :
  gen (fs st) = Ok a -> bind (pull R gen) k st = k a st.
Proof. intros Hg. unfold pull, bind, get_fs, lift. by rewrite Hg. Qed.

Lemma pair_generator_ext (a b : string) (s t : value) (f g : FS) :
  files f !! a = files g !! a -> files f !! b = files g !! b ->
  pair_generator X a b s t f = pair_generator X a b s t g.
Proof.
  intros Ha Hb. unfold pair_generator.
  by rewrite (isfile_ext f g a Ha), (isfile_ext f g b Hb),
    (fs_lines_ext f g a Ha), (fs_lines_ext f g b Hb).
Qed.
End Filter.

(** X14.  A [filter_data] step that is run, with inputs that exist and
    two outputs other than the inputs, writes the pairs the pipeline
    keeps, the source side of each in one output and the target side in
    the other, so that line [N] of both outputs comes from the same
    pair.  Without [limit], or with the limit 0, all kept pairs are
    written; with a limit [z] the first [z] of them, and one pair even
    when [z] is negative. *)
Theorem filter_data_writes_kept_pairs (R : Random) (X : Collaborators) (self : OpusFilter)
    (parameters : value) (overwrite : bool) (st : State R) (so to si ti : string)
    (filters filterfalse limit : value) (pipe : Pipeline X)
    (pairs : list (value * value)) (kept : list (string * string)) :
  let src_out := Py.path_join (output_dir self) so in
  let tgt_out := Py.path_join (output_dir self) to in
  let src_in := output_dir self +:+ "/" +:+ si in
  let tgt_in := output_dir self +:+ "/" +:+ ti in
  getitem parameters "src_output" = Ok (VStr so) ->
  getitem parameters "tgt_output" = Ok (VStr to) ->
  getitem parameters "src_input" = Ok (VStr si) ->
  getitem parameters "tgt_input" = Ok (VStr ti) ->
  getitem parameters "filters" = Ok filters ->
  dict_get parameters "filterfalse" (VBool false) = Ok filterfalse ->
  dict_get parameters "limit" VNone = Ok limit ->
  limit = VNone \/ (exists z, limit = VInt z) ->
  overwrite = true \/ isfile (fs st) src_out = false \/ isfile (fs st) tgt_out = false ->
  from_config X filters (fs st) = (fs st, Ok pipe) ->
  src_out <> tgt_out ->
  src_in <> src_out -> src_in <> tgt_out -> tgt_in <> src_out -> tgt_in <> tgt_out ->
  pair_generator X src_in tgt_in VNone VNone (fs st) = Ok pairs ->
  (if truthy filterfalse then pipe_filterfalse X pipe pairs else pipe_filter X pipe pairs)
    = map str_pair kept ->
  let r := filter_data R X self parameters overwrite st in
  snd r = Ok tt /\
  files (fs (fst r)) !! src_out = Some (column fst (take_from limit 0 kept)) /\
  files (fs (fst r)) !! tgt_out = Some (column snd (take_from limit 0 kept)).
Proof.
  intros src_out tgt_out src_in tgt_in Hso Hto Hsi Hti Hfl Hff Hlim Hlimit Hrun Hcfg
    Hoo Hss Hst Hts Htt Hgen Hkept r.
  assert (exists st', r = (st', Ok tt) /\
            files (fs st') !! src_out = Some (column fst (take_from limit 0 kept)) /\
            files (fs st') !! tgt_out = Some (column snd (take_from limit 0 kept)))
    as (st' & -> & ? & ?); [|done].
  subst r. unfold filter_data.
  rewrite (path_item_Ok _ _ _ _ _ _ Hso), (path_item_Ok _ _ _ _ _ _ Hto), get_fs_bind.
  fold src_out tgt_out. rewrite (guard_open _ _ _ _ Hrun). cbv beta iota.
  rewrite (lift_Ok _ _ _ _ Hfl).
  unfold bind at 1, act. rewrite Hcfg.
  replace (mkState (fs st) (rng st)) with st by (by destruct st).
  rewrite (lift_Ok _ _ _ _ Hff), (lift_Ok _ _ _ _ Hsi), (lift_Ok _ _ _ _ Hti).
  cbv zeta. unfold get_pairs. cbn [py_str].
  fold src_in tgt_in. rewrite (lift_Ok _ _ _ _ Hlim).
  rewrite !file_open_w_bind. cbn [fs rng].
  set (st0 := mkState _ _).
  rewrite (pull_Ok _ _ st0 pairs).
  2:{ subst st0; cbn [fs].
      rewrite (pair_generator_ext src_in tgt_in VNone VNone _ (fs st)); [done| |];
        by rewrite !files_open_w_ne. }
  rewrite Hkept.
  destruct (write_pairs_spec (R:=R) src_out tgt_out limit 0 kept st0 EmptyString EmptyString)
    as (st' & Hrun' & H1 & H2); try done.
  - subst st0; cbn [fs]. rewrite files_open_w_ne by done. apply files_open_w_eq.
  - subst st0; cbn [fs]. apply files_open_w_eq.
  - by exists st'.
Qed.

Lemma filter_data_writes_kept_pairs_witness :
  let r := filter_data counter_random idle_collaborators here limited_filter_parameters false
             subset_state in
  snd r = Ok tt /\
  files (fs (fst r)) !! "./src.sub"
    = Some (column fst (take_from (VInt 2) 0 [("a", "x"); ("b", "y"); ("c", "z")])) /\
  files (fs (fst r)) !! "./tgt.sub"
    = Some (column snd (take_from (VInt 2) 0 [("a", "x"); ("b", "y"); ("c", "z")])).
Proof.
  apply (filter_data_writes_kept_pairs counter_random idle_collaborators here
           limited_filter_parameters false subset_state "src.sub" "tgt.sub" "src" "tgt"
           (VList []) (VBool false) (VInt 2) tt
           (map str_pair [("a", "x"); ("b", "y"); ("c", "z")])
           [("a", "x"); ("b", "y"); ("c", "z")]);
    try reflexivity; try discriminate.
  - right. by exists 2%Z.
  - right; left. reflexivity.
Defined.

(** ** Missing inputs of the subset step *)

Section SubsetMissing.
Context {R : Random}.
Implicit Types st : State R.

Lemma get_total_lines_Err {B} fname (k : nat -> M R B) st :
  isfile (fs st) fname = false ->
  bind (_get_total_lines R fname) k st = (st, Err (FileNotFoundError fname)).
Proof.
  intros Hf. unfold _get_total_lines, bind. by rewrite (file_open_Err _ _ Hf).
Qed.

Lemma file_open_bind_Err {B} path (k : unit -> M R B) st :
  isfile (fs st) path = false ->
  bind (file_open R path) k st = (st, Err (FileNotFoundError path)).
Proof. intros Hf. by rewrite (bind_Err _ _ _ _ _ (file_open_Err _ _ Hf)). Qed.
End SubsetMissing.

(** X15.  When the [subset] step is run and its source input does not
    exist, it raises [FileNotFoundError] for that file and the file system
    is as it was: no output has been created.  With a seed that is a list
    or a dict the step raises the [TypeError] of [random.seed] instead,
    before it looks for the file, and the file system is as it was too.
    This holds with and without [shuffle_target]. *)
Theorem get_subset_missing_source (R : Random) (self : OpusFilter) (parameters : value)
    (overwrite : bool) (st : State R) (si ti so to : string) (size a : value) :
  let src_in := Py.path_join (output_dir self) si in
  let src_out := Py.path_join (output_dir self) so in
  let tgt_out := Py.path_join (output_dir self) to in
  getitem parameters "src_input" = Ok (VStr si) ->
  getitem parameters "tgt_input" = Ok (VStr ti) ->
  getitem parameters "src_output" = Ok (VStr so) ->
  getitem parameters "tgt_output" = Ok (VStr to) ->
  getitem parameters "size" = Ok size ->
  dict_get parameters "seed" VNone = Ok a ->
  isfile (fs st) src_in = false ->
  overwrite = true \/ isfile (fs st) src_out = false \/ isfile (fs st) tgt_out = false ->
  let r := get_subset R self parameters overwrite st in
  snd r = Err (if seedable a then FileNotFoundError src_in else TypeError) /\
  fs (fst r) = fs st.
Proof.
  intros src_in src_out tgt_out Hsi Hti Hso Hto Hsz Hseed Hf Hrun r.
  assert (exists g, r = (mkState (fs st) g,
                         Err (if seedable a then FileNotFoundError src_in else TypeError)))
    as (g & ->); [|done].
  subst r src_in src_out tgt_out. unfold get_subset.
  rewrite (path_item_Ok _ _ _ _ _ _ Hsi), (path_item_Ok _ _ _ _ _ _ Hti),
    (path_item_Ok _ _ _ _ _ _ Hso), (path_item_Ok _ _ _ _ _ _ Hto), get_fs_bind.
  rewrite (guard_open _ _ _ _ Hrun). cbv beta iota.
  rewrite (lift_Ok _ _ _ _ Hseed).
  destruct (seedable a) eqn:Ha.
  - rewrite (seed_bind _ _ _ Ha), (lift_Ok _ _ _ _ Hsz).
    destruct parameters as [| | | | |d]; try discriminate.
    cbn [dict_get]. rewrite (lift_Ok _ _ _ _ eq_refl).
    eexists. by rewrite get_total_lines_Err.
  - rewrite (seed_bind_Err _ _ _ Ha). exists (rng st). by destruct st.
Qed.

Lemma get_subset_missing_source_witness :
  let r := get_subset counter_random here (subset_parameters 2 true) false
             missing_source_state in
  snd r = Err (FileNotFoundError "./src") /\ fs (fst r) = fs missing_source_state.
Proof.
  apply (get_subset_missing_source counter_random here (subset_parameters 2 true) false
           missing_source_state "src" "tgt" "src.sub" "tgt.sub" (VInt 2) (VInt 1));
    try reflexivity.
  right; left. reflexivity.
Defined.

(** X16.  When the [subset] step is run with a seed that [random.seed]
    takes and a sample size that fits, and its target input does not exist, it raises [FileNotFoundError] for
    that file only after the source output has been written: the source
    output exists afterwards, and every other file, the target output
    among them, is as it was.  This holds with and without
    [shuffle_target]. *)
Theorem get_subset_missing_target (R : Random) (self : OpusFilter) (parameters : value)
    (overwrite : bool) (st : State R) (si ti so to : string) (K : Z) (a : value) :
  let src_in := Py.path_join (output_dir self) si in
  let tgt_in := Py.path_join (output_dir self) ti in
  let src_out := Py.path_join (output_dir self) so in
  let tgt_out := Py.path_join (output_dir self) to in
  getitem parameters "src_input" = Ok (VStr si) ->
  getitem parameters "tgt_input" = Ok (VStr ti) ->
  getitem parameters "src_output" = Ok (VStr so) ->
  getitem parameters "tgt_output" = Ok (VStr to) ->
  getitem parameters "size" = Ok (VInt K) ->
  dict_get parameters "seed" VNone = Ok a ->
  seedable a = true ->
  isfile (fs st) src_in = true ->
  isfile (fs st) tgt_in = false ->
  tgt_in <> src_out ->
  (0 <= K <= Z.of_nat (length (fs_lines (fs st) src_in)))%Z ->
  overwrite = true \/ isfile (fs st) src_out = false \/ isfile (fs st) tgt_out = false ->
  let r := get_subset R self parameters overwrite st in
  snd r = Err (FileNotFoundError tgt_in) /\
  isfile (fs (fst r)) src_out = true /\
  forall q, q <> src_out -> files (fs (fst r)) !! q = files (fs st) !! q.
Proof.
  intros src_in tgt_in src_out tgt_out Hsi Hti Hso Hto Hsz Hseed Ha Hfs Hft Hts HK Hrun r.
  destruct parameters as [| | | | |d]; try discriminate.
  cbn [dict_get] in Hseed. injection Hseed as <-.
  assert (exists st', r = (st', Err (FileNotFoundError tgt_in)) /\
            isfile (fs st') src_out = true /\
            forall q, q <> src_out -> files (fs st') !! q = files (fs st) !! q)
    as (st' & -> & ? & ?); [|done].
  subst r src_in tgt_in src_out tgt_out. unfold get_subset.
  rewrite (path_item_Ok _ _ _ _ _ _ Hsi), (path_item_Ok _ _ _ _ _ _ Hti),
    (path_item_Ok _ _ _ _ _ _ Hso), (path_item_Ok _ _ _ _ _ _ Hto), get_fs_bind.
  rewrite (guard_open _ _ _ _ Hrun). cbv beta iota. cbn [dict_get].
  rewrite (lift_Ok _ _ _ _ eq_refl), seed_bind by done.
  rewrite (lift_Ok _ _ _ _ Hsz), (lift_Ok _ _ _ _ eq_refl).
  rewrite get_total_lines_Ok by done. cbn [fs rng].
  set (src_in := Py.path_join (output_dir self) si) in *.
  set (tgt_in := Py.path_join (output_dir self) ti) in *.
  set (src_out := Py.path_join (output_dir self) so) in *.
  set (total := length (fs_lines (fs st) src_in)) in *.
  assert (forall (lines : list string) (g : Rng R),
            exists st4,
              write_lines R src_out lines (mkState (fs_open_w src_out (fs st)) g)
              = (st4, Ok tt) /\
              isfile (fs st4) src_out = true /\
              forall q, q <> src_out -> files (fs st4) !! q = files (fs st) !! q) as Hsrc.
  { intros lines g.
    destruct (write_lines_spec src_out lines EmptyString
                (mkState (fs_open_w src_out (fs st)) g))
      as (st4 & Hrun4 & _ & Hp4 & Hq4); [apply files_open_w_eq|].
    exists st4. split; [done|]. split; [by apply (isfile_Some _ _ _ Hp4)|].
    intros q Hq. rewrite (Hq4 q Hq). cbn [fs]. by apply files_open_w_ne. }
  destruct (truthy _).
  - rewrite sample_Ok by done. cbn [fs rng].
    rewrite file_open_bind by done. rewrite file_open_w_bind, lines_of_bind. cbn [fs rng].
    match goal with
    | |- context [bind (write_lines R src_out ?lines) _ (mkState _ ?g)] =>
        destruct (Hsrc lines g) as (st4 & Hrun4 & Hex & Hq4)
    end.
    rewrite (bind_Ok _ _ _ _ _ Hrun4).
    rewrite sample_Ok by done. cbn [fs rng].
    rewrite file_open_bind_Err.
    + eexists. split; [reflexivity|]. cbn [fs]. by split.
    + cbn [fs]. rewrite (isfile_ext _ (fs st) tgt_in); [done|]. by apply Hq4.
  - rewrite sample_Ok by done. cbn [fs rng].
    rewrite file_open_bind by done. rewrite file_open_w_bind, lines_of_bind. cbn [fs rng].
    match goal with
    | |- context [bind (write_lines R src_out ?lines) _ (mkState _ ?g)] =>
        destruct (Hsrc lines g) as (st4 & Hrun4 & Hex & Hq4)
    end.
    rewrite (bind_Ok _ _ _ _ _ Hrun4).
    rewrite file_open_bind_Err.
    + exists st4. by split.
    + rewrite (isfile_ext _ (fs st) tgt_in); [done|]. by apply Hq4.
Qed.

Lemma get_subset_missing_target_witness :
  let r := get_subset counter_random here (subset_parameters 2 false) false
             missing_target_state in
  snd r = Err (FileNotFoundError "./tgt") /\
  isfile (fs (fst r)) "./src.sub" = true /\
  forall q, q <> "./src.sub" ->
    files (fs (fst r)) !! q = files (fs missing_target_state) !! q.
Proof.
  apply (get_subset_missing_target counter_random here (subset_parameters 2 false) false
           missing_target_state "src" "tgt" "src.sub" "tgt.sub" 2 (VInt 1));
    try reflexivity; try discriminate.
  - vm_compute. split; discriminate.
  - right; left. reflexivity.
Defined.

(** ** Language model training *)

Lemma length_app_str (s t : string) :
  String.length (s +:+ t) = String.length s + String.length t.
Proof. induction s as [|c s IH]; [done|]. rewrite app_cons. cbn. by rewrite IH. Qed.

Lemma app_str_ne (s : string) (c : ascii) (t : string) : s +:+ String c t <> s.
Proof.
  intros Heq. apply (f_equal String.length) in Heq.
  rewrite length_app_str in Heq. cbn in Heq. lia.
Qed.

Lemma path_join_seg (out data_name : string) :
  Py.path_join out (data_name +:+ ".seg.gz") = Py.path_join out data_name +:+ ".seg.gz".
Proof.
  unfold Py.path_join.
  assert (Py.startswith_sep (data_name +:+ ".seg.gz") = Py.startswith_sep data_name) as ->
    by (by destruct data_name).
  destruct (Py.startswith_sep data_name); [done|].
  destruct (_ || _); by rewrite !app_assoc_str.
Qed.

(** X17.  A [train_ngram] step that is run on a data file that exists
    hands [lm.train] a file system in which the segmented file, named
    after the data file with [.seg.gz] added, holds one line per line of
    data: the tokens of the stripped line with single spaces between
    them.  No other file has changed by then, the data file among them,
    and the outcome of the step is the outcome of [lm.train]. *)
Theorem train_ngram_segments_data (R : Random) (X : Collaborators) (self : OpusFilter)
    (parameters : value) (overwrite : bool) (st : State R) (m data_name : string)
    (kw : value) (tokenize : string -> list string) :
  let model_out := Py.path_join (output_dir self) m in
  let data := Py.path_join (output_dir self) data_name in
  let seg := data +:+ ".seg.gz" in
  getitem parameters "model" = Ok (VStr m) ->
  getitem parameters "data" = Ok (VStr data_name) ->
  getitem parameters "parameters" = Ok kw ->
  lm_tokenizer X kw = Ok tokenize ->
  overwrite = true \/ isfile (fs st) model_out = false ->
  isfile (fs st) data = true ->
  exists f1 : FS,
    files f1 !! seg = Some (column (segmented tokenize) (fs_lines (fs st) data)) /\
    (forall q, q <> seg -> files f1 !! q = files (fs st) !! q) /\
    train_ngram R X self parameters overwrite st
    = act (lm_train X seg model_out kw) (mkState f1 (rng st)).
Proof.
  intros model_out data seg Hm Hd Hkw Htok Hrun Hf.
  unfold train_ngram.
  rewrite (path_item_Ok _ _ _ _ _ _ Hm), get_fs_bind.
  fold model_out. rewrite (guard1_open _ _ _ Hrun). cbv beta iota.
  rewrite (lift_Ok _ _ _ data_name) by (by rewrite Hd).
  cbv zeta. rewrite (lift_Ok _ _ _ _ Hkw), (lift_Ok _ _ _ _ Htok).
  rewrite path_join_seg. fold data seg.
  assert (seg <> data) as Hne by apply app_str_ne.
  rewrite file_open_bind by done.
  rewrite file_open_w_bind, lines_of_bind. cbn [fs rng].
  rewrite (fs_lines_ext (fs_open_w seg (fs st)) (fs st) data) by (by apply files_open_w_ne).
  set (st3 := mkState (fs_open_w seg (fs st)) (rng st)).
  destruct (write_lines_spec seg
              (map (fun line => String.concat " " (tokenize (Py.strip line)) +:+ Py.nl)
                 (fs_lines (fs st) data)) EmptyString st3)
    as (st4 & Hrun4 & Hg4 & Hp4 & Hq4); [apply files_open_w_eq|].
  rewrite (bind_Ok _ _ _ _ _ Hrun4).
  exists (fs st4). split; [exact Hp4|]. split.
  - intros q Hq. rewrite (Hq4 q Hq). subst st3; cbn [fs]. by apply files_open_w_ne.
  - unfold act. cbn [fs rng]. by rewrite Hg4.
Qed.

Lemma train_ngram_segments_data_witness :
  exists f1 : FS,
    files f1 !! "./src.seg.gz"
      = Some (column (segmented (fun line => [line])) (fs_lines (fs subset_state) "./src")) /\
    (forall q, q <> "./src.seg.gz" -> files f1 !! q = files (fs subset_state) !! q) /\
    train_ngram counter_random idle_collaborators here ngram_parameters false subset_state
    = act (lm_train idle_collaborators "./src.seg.gz" "./lm" (VDict []))
          (mkState f1 (rng subset_state)).
Proof.
  apply (train_ngram_segments_data counter_random idle_collaborators here ngram_parameters
           false subset_state "lm" "src" (VDict []) (fun line => [line]));
    try reflexivity.
  right. reflexivity.
Defined.

(** ** Scoring *)

Lemma rewrite_filter_plain (out : string) (f : value) :
  plain_filter f = true -> rewrite_filter out f = Ok f.
Proof.
  destruct f as [| | | | |[|[filter_name v] d]]; try discriminate.
  cbn [plain_filter rewrite_filter]. intros [H1 H2]%andb_prop.
  apply negb_true_iff in H1. apply negb_true_iff in H2. by rewrite H1, H2.
Qed.

Lemma map_rewrite_filter_plain (out : string) (filters : list value) :
  forallb plain_filter filters = true ->
  map_result (rewrite_filter out) filters = Ok filters.
Proof.
  induction filters as [|f filters IH]; [done|].
  cbn [forallb]. intros [Hf Hall]%andb_prop.
  cbn [map_result]. rewrite (rewrite_filter_plain out f Hf). cbn [rbind].
  by rewrite (IH Hall).
Qed.

(** X18.  The path rewriting of [score_data] leaves a list of filters
    as it is when the first key of each is neither [WordAlignFilter] nor
    [CrossEntropyFilter]: only the first key of a filter is looked at,
    and a [priors] or [filename] entry of another filter is not touched. *)
Theorem rewrite_filters_plain (out : string) (filters : list value) :
  forallb plain_filter filters = true ->
  rewrite_filters out (VList filters) = Ok (VList filters).
Proof.
  intros Hall. cbn [rewrite_filters].
  by rewrite (map_rewrite_filter_plain out filters Hall).
Qed.

Lemma rewrite_filters_plain_witness :
  rewrite_filters "work" (VList plain_filters) = Ok (VList plain_filters).
Proof. apply (rewrite_filters_plain "work" plain_filters). reflexivity. Defined.

Section Score.
Context {R : Random} {X : Collaborators}.
Implicit Types st : State R.

Lemma opened2_empty (f : FS) (o1 o2 o : string) :
  o = o1 \/ o = o2 -> files (fs_open_w o2 (fs_open_w o1 f)) !! o = Some EmptyString.
Proof.
  intros Ho. destruct (decide (o2 = o)) as [->|Hne]; [apply files_open_w_eq|].
  rewrite files_open_w_ne by done.
  destruct Ho as [->| ->]; [apply files_open_w_eq|done].
Qed.

Lemma isfile_open_w (f : FS) (path q : string) :
  isfile f q = true -> isfile (fs_open_w path f) q = true.
Proof.
  intros Hq. destruct (decide (path = q)) as [->|Hne].
  - apply (isfile_Some _ _ _ (files_open_w_eq f q)).
  - by rewrite isfile_open_w_ne.
Qed.

Lemma fs_lines_empty (f : FS) (path : string) :
  files f !! path = Some EmptyString -> fs_lines f path = [].
Proof. intros Hp. unfold fs_lines, fs_text. by rewrite Hp. Qed.

Lemma pair_generator_empty_source (a b : string) (f : FS) :
  files f !! a = Some EmptyString -> isfile f b = true ->
  pair_generator X a b VNone VNone f = Ok [].
Proof.
  intros Ha Hb. unfold pair_generator, get_tokenize. cbn [rbind].
  rewrite (isfile_Some _ _ _ Ha), Hb. cbn [negb].
  by rewrite (fs_lines_empty _ _ Ha).
Qed.
End Score.

(** X19.  A [filter_data] step that is run with its source input as one
    of its outputs loses the data: the outputs are opened for writing
    before the first pair is read, so the source has no line left, no
    pair reaches the pipeline, and, with a pipeline that yields nothing
    when given nothing, the step returns with both outputs empty. *)
Theorem filter_data_in_place_empties (R : Random) (X : Collaborators) (self : OpusFilter)
    (parameters : value) (overwrite : bool) (st : State R) (so to si ti : string)
    (filters filterfalse limit : value) (pipe : Pipeline X) :
  let src_out := Py.path_join (output_dir self) so in
  let tgt_out := Py.path_join (output_dir self) to in
  let src_in := output_dir self +:+ "/" +:+ si in
  let tgt_in := output_dir self +:+ "/" +:+ ti in
  getitem parameters "src_output" = Ok (VStr so) ->
  getitem parameters "tgt_output" = Ok (VStr to) ->
  getitem parameters "src_input" = Ok (VStr si) ->
  getitem parameters "tgt_input" = Ok (VStr ti) ->
  getitem parameters "filters" = Ok filters ->
  dict_get parameters "filterfalse" (VBool false) = Ok filterfalse ->
  dict_get parameters "limit" VNone = Ok limit ->
  overwrite = true \/ isfile (fs st) src_out = false \/ isfile (fs st) tgt_out = false ->
  from_config X filters (fs st) = (fs st, Ok pipe) ->
  src_in = src_out \/ src_in = tgt_out ->
  isfile (fs st) tgt_in = true \/ tgt_in = src_out \/ tgt_in = tgt_out ->
  (if truthy filterfalse then pipe_filterfalse X pipe [] else pipe_filter X pipe []) = [] ->
  let r := filter_data R X self parameters overwrite st in
  snd r = Ok tt /\
  files (fs (fst r)) !! src_out = Some EmptyString /\
  files (fs (fst r)) !! tgt_out = Some EmptyString.
Proof.
  intros src_out tgt_out src_in tgt_in Hso Hto Hsi Hti Hfl Hff Hlim Hrun Hcfg
    Hin Htin Hkept r.
  assert (exists st', r = (st', Ok tt) /\
            files (fs st') !! src_out = Some EmptyString /\
            files (fs st') !! tgt_out = Some EmptyString)
    as (st' & -> & ? & ?); [|done].
  subst r. unfold filter_data.
  rewrite (path_item_Ok _ _ _ _ _ _ Hso), (path_item_Ok _ _ _ _ _ _ Hto), get_fs_bind.
  fold src_out tgt_out. rewrite (guard_open _ _ _ _ Hrun). cbv beta iota.
  rewrite (lift_Ok _ _ _ _ Hfl).
  unfold bind at 1, act. rewrite Hcfg.
  replace (mkState (fs st) (rng st)) with st by (by destruct st).
  rewrite (lift_Ok _ _ _ _ Hff), (lift_Ok _ _ _ _ Hsi), (lift_Ok _ _ _ _ Hti).
  cbv zeta. unfold get_pairs. cbn [py_str].
  fold src_in tgt_in. rewrite (lift_Ok _ _ _ _ Hlim).
  rewrite !file_open_w_bind. cbn [fs rng].
  set (st0 := mkState _ _).
  rewrite (pull_Ok _ _ st0 []).
  2:{ subst st0; cbn [fs]. apply pair_generator_empty_source.
      - by apply opened2_empty.
      - destruct Htin as [Hex|Hout].
        + by do 2 apply isfile_open_w.
        + by apply (isfile_Some _ _ _ (opened2_empty _ _ _ _ Hout)). }
  rewrite Hkept. cbn [write_pairs]. exists st0. split; [done|].
  subst st0; cbn [fs]. split; apply opened2_empty; [by left|by right].
Qed.

Lemma filter_data_in_place_empties_witness :
  let r := filter_data counter_random idle_collaborators here in_place_filter_parameters false
             subset_state in
  snd r = Ok tt /\
  files (fs (fst r)) !! "./src" = Some EmptyString /\
  files (fs (fst r)) !! "./tgt.out" = Some EmptyString.
Proof.
  apply (filter_data_in_place_empties counter_random idle_collaborators here
           in_place_filter_parameters false subset_state "src" "tgt.out" "src" "tgt"
           (VList []) (VBool false) VNone tt);
    try reflexivity.
  - right; right. reflexivity.
  - left. reflexivity.
  - left. reflexivity.
Defined.

(** X20.  A [score_data] step that is run on filters none of which has
    [WordAlignFilter] or [CrossEntropyFilter] as its first key, and with
    an output other than its inputs, builds its pipeline from the filters
    as they are configured, reads the pairs from the files as the
    pipeline's construction leaves them, and writes one line per score
    the pipeline gives for these pairs, in their order, to its output; it
    returns, and no other file is changed after the pipeline has been
    built. *)
Theorem score_data_writes_scores (R : Random) (X : Collaborators) (self : OpusFilter)
    (parameters : value) (overwrite : bool) (st : State R) (o si ti : string)
    (filters : list value) (pipe : Pipeline X) (f1 : FS)
    (pairs : list (value * value)) :
  let score_out := Py.path_join (output_dir self) o in
  let src_in := output_dir self +:+ "/" +:+ si in
  let tgt_in := output_dir self +:+ "/" +:+ ti in
  getitem parameters "output" = Ok (VStr o) ->
  getitem parameters "filters" = Ok (VList filters) ->
  forallb plain_filter filters = true ->
  getitem parameters "src_input" = Ok (VStr si) ->
  getitem parameters "tgt_input" = Ok (VStr ti) ->
  overwrite = true \/ isfile (fs st) score_out = false ->
  from_config X (VList filters) (fs st) = (f1, Ok pipe) ->
  score_out <> src_in -> score_out <> tgt_in ->
  pair_generator X src_in tgt_in VNone VNone f1 = Ok pairs ->
  let r := score_data R X self parameters overwrite st in
  snd r = Ok tt /\
  files (fs (fst r)) !! score_out
    = Some (column (fun score => score) (pipe_score X pipe pairs)) /\
  forall q, q <> score_out -> files (fs (fst r)) !! q = files f1 !! q.
Proof.
  intros score_out src_in tgt_in Ho Hfl Hplain Hsi Hti Hrun Hcfg Hos Hot Hgen r.
  assert (exists st', r = (st', Ok tt) /\
            files (fs st') !! score_out
              = Some (column (fun score => score) (pipe_score X pipe pairs)) /\
            forall q, q <> score_out -> files (fs st') !! q = files f1 !! q)
    as (st' & -> & ? & ?); [|done].
  subst r. unfold score_data.
  rewrite (path_item_Ok _ _ _ _ _ _ Ho), get_fs_bind.
  fold score_out. rewrite (guard1_open _ _ _ Hrun). cbv beta iota.
  rewrite (lift_Ok _ _ _ _ Hfl).
  rewrite (lift_Ok _ _ _ (VList filters))
    by (cbn [rewrite_filters]; by rewrite (map_rewrite_filter_plain _ _ Hplain)).
  rewrite (lift_Ok _ _ _ _ Hsi), (lift_Ok _ _ _ _ Hti).
  cbv zeta. unfold get_pairs. cbn [py_str].
  fold src_in tgt_in.
  unfold bind at 1, act. rewrite Hcfg.
  rewrite file_open_w_bind. cbn [fs rng].
  set (st0 := mkState _ _).
  rewrite (pull_Ok _ _ st0 pairs).
  2:{ subst st0; cbn [fs].
      rewrite (pair_generator_ext src_in tgt_in VNone VNone _ f1); [done| |];
        by rewrite files_open_w_ne. }
  destruct (write_lines_spec score_out
              (map (fun score => score +:+ Py.nl) (pipe_score X pipe pairs)) EmptyString st0)
    as (st4 & Hrun4 & _ & Hp4 & Hq4).
  { subst st0; cbn [fs]. apply files_open_w_eq. }
  exists st4. split; [exact Hrun4|]. split; [exact Hp4|].
  intros q Hq. rewrite (Hq4 q Hq). subst st0; cbn [fs]. by apply files_open_w_ne.
Qed.

Lemma score_data_writes_scores_witness :
  let r := score_data counter_random idle_collaborators here score_parameters false
             subset_state in
  snd r = Ok tt /\
  files (fs (fst r)) !! "./scores"
    = Some (column (fun score => score)
              (pipe_score idle_collaborators tt
                 (map str_pair [("a", "x"); ("b", "y"); ("c", "z")]))) /\
  forall q, q <> "./scores" -> files (fs (fst r)) !! q = files (fs subset_state) !! q.
Proof.
  apply (score_data_writes_scores counter_random idle_collaborators here score_parameters
           false subset_state "scores" "src" "tgt" plain_filters
           tt (fs subset_state) (map str_pair [("a", "x"); ("b", "y"); ("c", "z")]));
    try reflexivity; try discriminate.
  right. reflexivity.
Defined.
